(** * Peak Performance Fitness Studio: the data loader and the storage helper

    A shallow embedding of [fitness/js/fetch.js] (timeout, retry with
    exponential backoff, record validation, the collection filters) and of
    the recent-classes part of [fitness/js/storage.js], with the properties
    of the loader and of the recent-classes list proved about it. *)

From Stdlib Require Import ZArith NArith QArith Ascii String DecimalString Lia.
From stdpp Require Import base option list strings gmap.

(** * JavaScript values *)

Module Js.

(** A JavaScript string is a sequence of UTF-16 code units. *)
Definition jsstring := list N.

(** A string literal of the source (ASCII text). *)
Definition lit (s : string) : jsstring :=
  (fun c => N_of_ascii c) <$> list_ascii_of_string s.

(** [a === b] on two strings. *)
Fixpoint streq (a b : jsstring) : bool :=
  match a, b with
  | [], [] => true
  | x :: a', y :: b' => N.eqb x y && streq a' b'
  | _, _ => false
  end.

(** Decimal text of a non-negative integer, as a template literal prints it. *)
Definition decimal (n : N) : jsstring :=
  lit (NilEmpty.string_of_uint (N.to_uint n)).

#[local] Set Warnings "-register-all".

(** The values [JSON.parse] produces. Numbers are the finite ones; the
    members of an object are kept in the order of the JSON text. *)
Inductive json :=
| JNull
| JBool (b : bool)
| JNum (q : Q)
| JStr (s : jsstring)
| JArr (items : list json)
| JObj (members : list (jsstring * json)).

(** A value passed around by the program: [undefined] or a JSON value. *)
Definition value := option json.
Definition undefined : value := None.

(** Thrown values: every value thrown in this program is an [Error] object
    (its own [new Error], or the host's [TypeError], [SyntaxError] and the
    [AbortError] of an aborted fetch), of which the code reads [name] and
    [message]. *)
Record error := mkError { name : jsstring; message : jsstring }.

Definition Error (msg : jsstring) : error :=
  {| name := lit "Error"; message := msg |}.
Definition TypeError (msg : jsstring) : error :=
  {| name := lit "TypeError"; message := msg |}.

(** The outcome of evaluating an expression: a value, or a throw. *)
Inductive completion (A : Type) :=
| Return (a : A)
| Throw (e : error).
Arguments Return {A} a.
Arguments Throw {A} e.

#[global] Instance completion_ret : MRet completion := @Return.
#[global] Instance completion_bind : MBind completion :=
  fun A B f m => match m with Return a => f a | Throw e => Throw e end.

(** [!!v]: JavaScript truthiness. *)
Definition truthy (v : value) : bool :=
  match v with
  | None => false
  | Some JNull => false
  | Some (JBool b) => b
  | Some (JNum q) => negb (Qeq_bool q 0)
  | Some (JStr s) => negb (streq s [])
  | Some (JArr _) => true
  | Some (JObj _) => true
  end.

Definition typeof (v : value) : jsstring :=
  match v with
  | None => lit "undefined"
  | Some JNull => lit "object"
  | Some (JBool _) => lit "boolean"
  | Some (JNum _) => lit "number"
  | Some (JStr _) => lit "string"
  | Some (JArr _) => lit "object"
  | Some (JObj _) => lit "object"
  end.

(** [v === s] for a string [s]: true exactly when [v] is that string. *)
Definition strictEqualsString (v : value) (s : jsstring) : bool :=
  match v with Some (JStr t) => streq t s | _ => false end.

(** WhiteSpace and LineTerminator code units, the ones [trim] strips. *)
Definition isWhiteSpace (c : N) : bool :=
  ((9 <=? c) && (c <=? 13) || (c =? 32) || (c =? 160) || (c =? 5760)
   || (8192 <=? c) && (c <=? 8202) || (c =? 8232) || (c =? 8233)
   || (c =? 8239) || (c =? 8287) || (c =? 12288) || (c =? 65279))%N.

Fixpoint trimStart (s : jsstring) : jsstring :=
  match s with
  | c :: s' => if isWhiteSpace c then trimStart s' else s
  | [] => []
  end.

Definition trim (s : jsstring) : jsstring :=
  rev (trimStart (rev (trimStart s))).

Fixpoint startsWith (s needle : jsstring) : bool :=
  match needle, s with
  | [], _ => true
  | x :: needle', y :: s' => N.eqb x y && startsWith s' needle'
  | _ :: _, [] => false
  end.

(** [s.includes(needle)] *)
Fixpoint includes (s needle : jsstring) : bool :=
  startsWith s needle ||
  match s with
  | [] => false
  | _ :: s' => includes s' needle
  end.

(** The member a key denotes in a parsed object: of several members with
    one name, [JSON.parse] keeps the last. *)
Fixpoint lookupMember (key : jsstring) (members : list (jsstring * json))
  : option json :=
  match members with
  | [] => None
  | (k, v) :: rest =>
      match lookupMember key rest with
      | Some v' => Some v'
      | None => if streq k key then Some v else None
      end
  end.

(** The array index a key spells, if it spells one below [n]. *)
Definition indexOfKey (key : jsstring) (n : nat) : option nat :=
  List.find (fun i => streq (decimal (N.of_nat i)) key) (seq 0 n).

(** The own data properties of a JSON value. *)
Definition ownProperty (j : json) (key : jsstring) : option json :=
  match j with
  | JObj members => lookupMember key members
  | JArr items =>
      if streq key (lit "length")
      then Some (JNum (inject_Z (Z.of_nat (length items))))
      else i ← indexOfKey key (length items); items !! i
  | JStr s =>
      if streq key (lit "length")
      then Some (JNum (inject_Z (Z.of_nat (length s))))
      else i ← indexOfKey key (length s); c ← s !! i; Some (JStr [c])
  | _ => None
  end.

(** [v.key] / [v[key]] for a key that no prototype defines (every key this
    program reads through this function is one): the own property, or
    [undefined]; reading a property of [undefined] or [null] throws. *)
Definition getProp (v : value) (key : jsstring) : completion value :=
  match v with
  | None | Some JNull =>
      Throw (TypeError (lit "Cannot read properties of undefined or null"))
  | Some j => Return (ownProperty j key)
  end.

(** [o.hasOwnProperty(field)] on an object or array [o]: the method is found
    on the object first, and a JSON member of that name, never a function,
    shadows [Object.prototype.hasOwnProperty]. *)
Definition callHasOwnProperty (o : json) (field : jsstring) : completion bool :=
  match ownProperty o (lit "hasOwnProperty") with
  | Some _ => Throw (TypeError (lit "hasOwnProperty is not a function"))
  | None => Return (bool_decide (is_Some (ownProperty o field)))
  end.

(** [v.trim()] *)
Definition callTrim (v : value) : completion jsstring :=
  match v with
  | Some (JStr s) => Return (trim s)
  | None | Some JNull =>
      Throw (TypeError (lit "Cannot read properties of undefined or null"))
  | _ => Throw (TypeError (lit "trim is not a function"))
  end.

(** [Array.prototype.filter] with a callback that may throw: the elements
    are visited in order and the first throw ends the call. *)
Fixpoint filterC {A} (p : A -> completion bool) (l : list A)
  : completion (list A) :=
  match l with
  | [] => Return []
  | x :: l' =>
      keep ← p x;
      rest ← filterC p l';
      Return (if keep : bool then x :: rest else rest)
  end.

(** [Array.prototype.every], same convention. *)
Fixpoint everyC {A} (p : A -> completion bool) (l : list A) : completion bool :=
  match l with
  | [] => Return true
  | x :: l' => b ← p x; if b : bool then everyC p l' else Return false
  end.

(** ** Effects: a state of the world threaded through, and exceptions *)

Definition M (W A : Type) := W -> completion A * W.

#[global] Instance M_ret W : MRet (M W) := fun A a w => (Return a, w).
#[global] Instance M_bind W : MBind (M W) :=
  fun A B f m w =>
    match m w with
    | (Return a, w') => f a w'
    | (Throw e, w') => (Throw e, w')
    end.

Definition throw {W A} (e : error) : M W A := fun w => (Throw e, w).

Definition liftC {W A} (c : completion A) : M W A := fun w => (c, w).

(** [try { body } catch (error) { handler }] *)
Definition tryCatch {W A} (body : M W A) (handler : error -> M W A) : M W A :=
  fun w =>
    match body w with
    | (Return a, w') => (Return a, w')
    | (Throw e, w') => handler e w'
    end.

(** What is written to the console. *)
Inductive entry :=
| ConsoleWarn (text : jsstring) (detail : option error)
| ConsoleError (text : jsstring) (detail : option error).

End Js.

(** * fetch.js *)

Module Fetch.
Import Js.

Record Config := {
  dataPath : jsstring;
  maxRetries : nat;
  retryDelay : Z;
  timeout : Z
}.

Definition CONFIG : Config := {|
  dataPath := lit "data/classes.json";
  maxRetries := 3;
  retryDelay := 1000;
  timeout := 5000
|}.

(** What the code reads of a [Response]: the status, the [content-type]
    header ([null] when there is none) and what [response.json()] settles
    to. *)
Record Response := {
  status : N;
  contentType : option jsstring;
  body : completion json
}.

(** [response.ok]: the status is in the range 200-299. *)
Definition ok (r : Response) : bool :=
  ((200 <=? status r) && (status r <=? 299))%N.

(** What the network does with one request: it answers after some
    milliseconds, the request fails after some milliseconds, or nothing
    ever comes back. *)
Inductive Exchange :=
| Responds (after : Z) (r : Response)
| Rejects (after : Z) (e : error)
| Silent.

(** The world of the loader: the number of requests issued so far, the
    delays waited between attempts (oldest first), and the console. *)
Record World := {
  fetches : nat;
  waits : list Z;
  console : list entry
}.

Definition issue (w : World) : World :=
  {| fetches := S (fetches w); waits := waits w; console := console w |}.

(** [await new Promise(resolve => setTimeout(resolve, delay))] *)
Definition sleep (delay : Z) : M World unit :=
  fun w => (Return tt,
            {| fetches := fetches w; waits := waits w ++ [delay];
               console := console w |}).

Definition log (e : entry) : M World unit :=
  fun w => (Return tt,
            {| fetches := fetches w; waits := waits w;
               console := console w ++ [e] |}).

(** The rejection of a fetch whose signal was aborted. The message is the
    host's; the code reads only the name. *)
Definition AbortError : error :=
  {| name := lit "AbortError"; message := lit "The operation was aborted." |}.

Section Loader.

(** The network: what happens to the [i]-th request (counted from 0) for a
    URL. *)
Variable net : jsstring -> nat -> Exchange.

(** The timer aborts the request after [timeout] ms; an answer or a failure
    that comes earlier settles the fetch first. *)
Definition fetchWithTimeout (url : jsstring) (timeout : Z) : M World Response :=
  fun w =>
    (match net url (fetches w) with
     | Responds after r => if (after <? timeout)%Z then Return r else Throw AbortError
     | Rejects after e => if (after <? timeout)%Z then Throw e else Throw AbortError
     | Silent => Throw AbortError
     end, issue w).

(** [retries] is a count, so [retries <= 0] is [retries = 0]; delays are
    whole milliseconds, which doubling keeps exact. *)
Fixpoint retry {A} (fn : M World A) (retries : nat) (delay : Z) : M World A :=
  tryCatch fn (fun error =>
    match retries with
    | O => throw error
    | S retries' =>
        _ ← sleep delay;
        retry fn retries' (delay * 2)%Z
    end).

Definition requiredFields : list jsstring :=
  [lit "name"; lit "type"; lit "duration"; lit "level"; lit "trainer"].

Definition isValidClass (classData : json) : completion bool :=
  if negb (truthy (Some classData))
     || negb (streq (typeof (Some classData)) (lit "object"))
  then Return false
  else
    everyC (fun field =>
      has ← callHasOwnProperty classData field;
      Return (has &&
              match ownProperty classData field with
              | Some (JStr s) => negb (streq (trim s) [])
              | _ => false
              end)) requiredFields.

Definition validateClasses (classes : json) : M World (list json) :=
  match classes with
  | JArr items =>
      validClasses ← liftC (filterC isValidClass items);
      if (length validClasses =? 0)%nat
      then throw (Error (lit "No valid classes found in data"))
      else
        _ ← (if (length validClasses <? length items)%nat
             then log (ConsoleWarn
                    (decimal (N.of_nat (length items - length validClasses))
                     ++ lit " invalid classes were filtered out") None)
             else mret tt);
        mret validClasses
  | _ =>
      (* !Array.isArray(classes) *)
      throw (Error (lit "Invalid data format: expected an array"))
  end.

(** The function handed to [retry]: one attempt. *)
Definition attempt : M World (list json) :=
  response ← fetchWithTimeout (dataPath CONFIG) (timeout CONFIG);
  if negb (ok response)
  then throw (Error (lit "HTTP error! status: " ++ decimal (status response)))
  else
    if negb (truthy (JStr <$> contentType response))
       || negb (includes (default [] (contentType response))
                         (lit "application/json"))
    then throw (Error (lit "Invalid content type: expected JSON"))
    else
      data ← liftC (body response);
      validateClasses data.

Definition getClasses : M World (list json) :=
  tryCatch
    (data ← retry attempt (maxRetries CONFIG) (retryDelay CONFIG);
     mret data)
    (fun error =>
       _ ← log (ConsoleError (lit "Error fetching classes:") (Some error));
       _ ← (if streq (name error) (lit "AbortError")
            then log (ConsoleError
                   (lit "Request timeout: The server took too long to respond") None)
            else if includes (message error) (lit "HTTP error")
            then log (ConsoleError (lit "Server error: Unable to fetch data") None)
            else if includes (message error) (lit "JSON")
            then log (ConsoleError (lit "Data format error: Invalid JSON received") None)
            else log (ConsoleError
                   (lit "Network error: Please check your connection") None));
       mret []).

End Loader.

(** ** The collection filters *)

Section Filters.

(** [String.prototype.toLowerCase], the host's Unicode case mapping. *)
Variable toLowerCase : jsstring -> jsstring.

(** [v.toLowerCase()] *)
Definition callToLowerCase (v : value) : completion jsstring :=
  match v with
  | Some (JStr s) => Return (toLowerCase s)
  | None | Some JNull =>
      Throw (TypeError (lit "Cannot read properties of undefined or null"))
  | _ => Throw (TypeError (lit "toLowerCase is not a function"))
  end.

(** [classData[key].toLowerCase() === wanted.toLowerCase()], operands
    evaluated left to right. *)
Definition sameIgnoringCase (key : jsstring) (wanted : value) (classData : json)
  : completion bool :=
  field ← getProp (Some classData) key;
  a ← callToLowerCase field;
  b ← callToLowerCase wanted;
  Return (streq a b).

Definition filterByType (classes : list json) (type : value)
  : completion (list json) :=
  if negb (truthy type) || strictEqualsString type (lit "all")
  then Return classes
  else filterC (sameIgnoringCase (lit "type") type) classes.

Definition filterByLevel (classes : list json) (level : value)
  : completion (list json) :=
  if negb (truthy level) || strictEqualsString level (lit "all")
  then Return classes
  else filterC (sameIgnoringCase (lit "level") level) classes.

Definition filterByTrainer (classes : list json) (trainer : value)
  : completion (list json) :=
  if negb (truthy trainer) || strictEqualsString trainer (lit "all")
  then Return classes
  else filterC (sameIgnoringCase (lit "trainer") trainer) classes.

(** [classData[key].toLowerCase().includes(searchTerm)] *)
Definition fieldIncludes (key searchTerm : jsstring) (classData : json)
  : completion bool :=
  field ← getProp (Some classData) key;
  a ← callToLowerCase field;
  Return (includes a searchTerm).

Definition searchClasses (classes : list json) (query : value)
  : completion (list json) :=
  if negb (truthy query) then Return classes
  else
    trimmed ← callTrim query;
    if streq trimmed [] then Return classes
    else
      lowered ← callToLowerCase query;
      let searchTerm := trim lowered in
      filterC (fun classData =>
        inName ← fieldIncludes (lit "name") searchTerm classData;
        if inName : bool then Return true
        else
          inType ← fieldIncludes (lit "type") searchTerm classData;
          if inType : bool then Return true
          else fieldIncludes (lit "trainer") searchTerm classData) classes.

End Filters.

End Fetch.

(** * storage.js: the recent-classes list *)

Module Storage.
Import Js.

Record StorageKeys := {
  preferredTraining : jsstring;
  userPreferences : jsstring;
  recentClasses : jsstring
}.

Definition STORAGE_KEYS : StorageKeys := {|
  preferredTraining := lit "fitness_preferred_training";
  userPreferences := lit "fitness_user_preferences";
  recentClasses := lit "fitness_recent_classes"
|}.

Definition MAX_RECENT_ITEMS : nat := 10.

(** The text held under a key: the serialization of a JSON value (a text
    [JSON.parse] reads back as that value), or a text that is not JSON. *)
Inductive slot :=
| Serialized (j : json)
| Raw (text : jsstring).

(** The browser's [localStorage]: the items it holds, and which writes it
    takes (a disabled or full storage throws on [setItem]). *)
Record LocalStorage := {
  items : gmap jsstring slot;
  accepts : jsstring -> slot -> bool
}.

Record World := {
  localStorage : LocalStorage;
  console : list entry
}.

Definition log (e : entry) : M World unit :=
  fun w => (Return tt,
            {| localStorage := localStorage w; console := console w ++ [e] |}).

Definition QuotaExceededError : error :=
  {| name := lit "QuotaExceededError";
     message := lit "The quota has been exceeded." |}.

Definition SyntaxError : error :=
  {| name := lit "SyntaxError"; message := lit "Unexpected token in JSON" |}.

(** [localStorage.setItem(key, text)] *)
Definition storageSetItem (key : jsstring) (s : slot) : M World unit :=
  fun w =>
    let ls := localStorage w in
    if accepts ls key s
    then (Return tt,
          {| localStorage := {| items := <[key := s]> (items ls);
                                accepts := accepts ls |};
             console := console w |})
    else (Throw QuotaExceededError, w).

(** [localStorage.removeItem(key)] *)
Definition storageRemoveItem (key : jsstring) : M World unit :=
  fun w =>
    let ls := localStorage w in
    (Return tt,
     {| localStorage := {| items := delete key (items ls);
                           accepts := accepts ls |};
        console := console w |}).

(** [localStorage.getItem(key)]: the text, or [null]. *)
Definition storageGetItem (key : jsstring) : M World (option slot) :=
  fun w => (Return (items (localStorage w) !! key), w).

Definition isLocalStorageAvailable : M World bool :=
  tryCatch
    (let testKey := lit "__storage_test__" in
     _ ← storageSetItem testKey (Raw (lit "test"));
     _ ← storageRemoveItem testKey;
     mret true)
    (fun e =>
       _ ← log (ConsoleWarn (lit "localStorage is not available:") (Some e));
       mret false).

(** [JSON.stringify] then [localStorage.setItem]. *)
Definition setItem (key : jsstring) (v : json) : M World bool :=
  available ← isLocalStorageAvailable;
  if negb available
  then
    _ ← log (ConsoleWarn
           (lit "localStorage not available, data will not persist") None);
    mret false
  else
    tryCatch
      (_ ← storageSetItem key (Serialized v);
       mret true)
      (fun error =>
         _ ← log (ConsoleError (lit "Error saving to localStorage:") (Some error));
         mret false).

(** [JSON.parse(item)] *)
Definition parse (s : slot) : completion json :=
  match s with
  | Serialized j => Return j
  | Raw _ => Throw SyntaxError
  end.

Definition getItem (key : jsstring) (defaultValue : json) : M World json :=
  available ← isLocalStorageAvailable;
  if negb available then mret defaultValue
  else
    tryCatch
      (item ← storageGetItem key;
       match item with
       | None => mret defaultValue
       | Some text => liftC (parse text)
       end)
      (fun error =>
         _ ← log (ConsoleError (lit "Error reading from localStorage:") (Some error));
         mret defaultValue).

(** [recent.filter(item => item !== className)]: [recent] must be an array. *)
Definition withoutItem (recent : json) (className : jsstring)
  : completion (list json) :=
  match recent with
  | JArr l =>
      Return (List.filter (fun item => negb (strictEqualsString (Some item) className)) l)
  | JNull => Throw (TypeError (lit "Cannot read properties of undefined or null"))
  | _ => Throw (TypeError (lit "recent.filter is not a function"))
  end.

Definition addRecentClass (className : value) : M World unit :=
  if negb (truthy className) || negb (streq (typeof className) (lit "string"))
  then mret tt
  else
    match className with
    | Some (JStr name) =>
        recent ← getItem (recentClasses STORAGE_KEYS) (JArr []);
        recent ← liftC (withoutItem recent name);
        (* recent.unshift(className) *)
        let recent := JStr name :: recent in
        let recent :=
          if (MAX_RECENT_ITEMS <? length recent)%nat
          then take MAX_RECENT_ITEMS recent
          else recent in
        _ ← setItem (recentClasses STORAGE_KEYS) (JArr recent);
        mret tt
    | _ => mret tt (* not reached: [typeof className] is ['string'] here *)
    end.

End Storage.

(** * The specification's vocabulary *)

Module Spec.
Import Js Fetch.

(** A text value that is empty or made of white space only. *)
Definition whitespaceOnly (s : jsstring) : bool := forallb isWhiteSpace s.

(** The Record shape: an object with the required keys [name], [type],
    [duration], [level], [trainer], each a non-empty (not white-space-only)
    text value. *)
Definition recordShape (j : json) : bool :=
  match j with
  | JObj members =>
      forallb (fun field =>
        match lookupMember field members with
        | Some (JStr s) => negb (whitespaceOnly s)
        | _ => false
        end) requiredFields
  | _ => false
  end.

(** The waits of [k] retries that start at [delay] and double each time:
    [delay], [2 * delay], [4 * delay], ... *)
Definition doubling (delay : Z) (k : nat) : list Z :=
  (fun i => delay * 2 ^ Z.of_nat i)%Z <$> seq 0 k.

(** No retry happened between two states of the world: one request was
    issued and nothing was waited for. *)
Definition noRetry (w w' : World) : Prop :=
  fetches w' = S (fetches w) /\ waits w' = waits w.

(** A response that arrives in time, with a 2xx status and declared as
    JSON, whose body parses to [j]. *)
Definition deliversJson (x : Exchange) (j : json) : Prop :=
  exists after r,
    x = Responds after r /\ (after < timeout CONFIG)%Z /\ ok r = true /\
    (exists ct, contentType r = Some ct /\
                includes ct (lit "application/json") = true) /\
    body r = Return j.

(** No response within the timeout. *)
Definition timesOut (x : Exchange) : Prop :=
  match x with
  | Silent => True
  | Responds after _ | Rejects after _ => (timeout CONFIG <= after)%Z
  end.

(** A response in time with a status outside 200-299. *)
Definition answersNon2xx (x : Exchange) : Prop :=
  exists after r,
    x = Responds after r /\ (after < timeout CONFIG)%Z /\
    ((status r < 200)%N \/ (299 < status r)%N).

(** The object carries a member named [hasOwnProperty]. *)
Definition shadowsHasOwnProperty (j : json) : bool :=
  match j with
  | JObj members => bool_decide (is_Some (lookupMember (lit "hasOwnProperty") members))
  | _ => false
  end.

(** A filter argument that is absent, empty, or the string ['all']. *)
Definition absentEmptyOrAll (v : value) : Prop :=
  v = undefined \/ v = Some JNull \/ v = Some (JStr []) \/
  v = Some (JStr (lit "all")).

(** A query that is absent, empty, or white space only. *)
Definition absentOrBlank (v : value) : Prop :=
  v = undefined \/ v = Some JNull \/
  exists s, v = Some (JStr s) /\ whitespaceOnly s = true.

End Spec.

(** * Sample data *)

Module Samples.
Import Js Fetch.

Definition yoga : json :=
  JObj [(lit "name", JStr (lit "Morning Yoga"));
        (lit "type", JStr (lit "Yoga"));
        (lit "duration", JStr (lit "60 min"));
        (lit "level", JStr (lit "Beginner"));
        (lit "trainer", JStr (lit "Ana"))].

Definition hiit : json :=
  JObj [(lit "name", JStr (lit "HIIT Blast"));
        (lit "type", JStr (lit "Cardio"));
        (lit "duration", JStr (lit "30 min"));
        (lit "level", JStr (lit "Advanced"));
        (lit "trainer", JStr (lit "Luis"))].

(** A class with a blank trainer: not a Record. *)
Definition unnamed : json :=
  JObj [(lit "name", JStr (lit "Stretch"));
        (lit "type", JStr (lit "Yoga"));
        (lit "duration", JStr (lit "20 min"));
        (lit "level", JStr (lit "Beginner"));
        (lit "trainer", JStr (lit "  "))].

(** A well-formed class that also has a member named [hasOwnProperty]. *)
Definition pilates : json :=
  JObj [(lit "name", JStr (lit "Pilates"));
        (lit "type", JStr (lit "Core"));
        (lit "duration", JStr (lit "45 min"));
        (lit "level", JStr (lit "Intermediate"));
        (lit "trainer", JStr (lit "Eva"));
        (lit "hasOwnProperty", JStr (lit "yes"))].

(** An object without the required keys, with a member named
    [hasOwnProperty]. *)
Definition stray : json := JObj [(lit "hasOwnProperty", JNum 1)].

Definition jsonResponse (j : json) : Response :=
  {| status := 200;
     contentType := Some (lit "application/json; charset=utf-8");
     body := Return j |}.

(** A server that answers every request at once with the same document. *)
Definition serves (j : json) : jsstring -> nat -> Exchange :=
  fun _ _ => Responds 20 (jsonResponse j).

(** A server that never answers. *)
Definition silent : jsstring -> nat -> Exchange := fun _ _ => Silent.

(** A server that answers 503 to every request. *)
Definition unavailable : jsstring -> nat -> Exchange :=
  fun _ _ => Responds 20 {| status := 503; contentType := None;
                            body := Throw (Error (lit "Unexpected end of JSON input")) |}.

(** A server that answers an object first and the class list afterwards. *)
Definition recovers : jsstring -> nat -> Exchange :=
  fun _ i => match i with
             | O => Responds 20 (jsonResponse (JObj []))
             | S _ => Responds 20 (jsonResponse (JArr [yoga; hiit]))
             end.

Definition start : World := {| fetches := 0; waits := []; console := [] |}.

End Samples.

(** * The recent-classes list, in the specification's words *)

Module StorageSpec.
Import Js Storage.

(** The storage takes the writes [addRecentClass] makes: the probe of
    [isLocalStorageAvailable] and a list under the recent-classes key. *)
Definition storageWorks (w : World) : Prop :=
  accepts (localStorage w) (lit "__storage_test__") (Raw (lit "test")) = true /\
  forall l, accepts (localStorage w) (recentClasses STORAGE_KEYS)
                    (Serialized (JArr l)) = true.

(** The list stored under the recent-classes key, if one is. *)
Definition storedRecent (w : World) : option (list json) :=
  match items (localStorage w) !! recentClasses STORAGE_KEYS with
  | Some (Serialized (JArr l)) => Some l
  | _ => None
  end.

(** The recent-classes list before a call: the stored one, or the empty
    list when nothing is stored under the key. *)
Definition priorRecent (w : World) (prior : list json) : Prop :=
  storedRecent w = Some prior \/
  (items (localStorage w) !! recentClasses STORAGE_KEYS = None /\ prior = []).

(** The world after the probe of [isLocalStorageAvailable] went through:
    the probe key was written and removed again. *)
Definition probed (w : World) : World :=
  {| localStorage :=
       {| items := delete (lit "__storage_test__")
                     (<[lit "__storage_test__" := Raw (lit "test")]>
                        (items (localStorage w)));
          accepts := accepts (localStorage w) |};
     console := console w |}.

(** The list [addRecentClass] builds from the one it read. *)
Definition bumped (name : jsstring) (prior : list json) : list json :=
  let recent :=
    JStr name ::
    List.filter (fun item => negb (strictEqualsString (Some item) name)) prior in
  if (MAX_RECENT_ITEMS <? length recent)%nat
  then take MAX_RECENT_ITEMS recent
  else recent.

(** A storage that takes every write and holds the given recent list. *)
Definition holding (l : list json) : World :=
  {| localStorage :=
       {| items := {[ recentClasses STORAGE_KEYS := Serialized (JArr l) ]};
          accepts := fun _ _ => true |};
     console := [] |}.

End StorageSpec.

From Stdlib Require Import Sorted.

(** * fetch.js: the summaries of a collection *)

Module Collections.
Import Js Fetch.

(** [Array.prototype.map] with a callback that may throw. *)
Fixpoint mapC {A B} (f : A -> completion B) (l : list A) : completion (list B) :=
  match l with
  | [] => Return []
  | x :: l' => y ← f x; rest ← mapC f l'; Return (y :: rest)
  end.

(** SameValueZero, the equality of [Set]: primitives by value; the arrays
    and objects of a parsed document are distinct objects, never the same
    value. *)
Definition sameValueZero (a b : value) : bool :=
  match a, b with
  | None, None => true
  | Some JNull, Some JNull => true
  | Some (JBool x), Some (JBool y) => Bool.eqb x y
  | Some (JNum x), Some (JNum y) => Qeq_bool x y
  | Some (JStr x), Some (JStr y) => streq x y
  | _, _ => false
  end.

(** [[...new Set(l)]]: the values of [l] in the order of their first
    occurrence. *)
Definition spreadSet (l : list value) : list value :=
  fold_left
    (fun seen x => if existsb (sameValueZero x) seen then seen else seen ++ [x])
    l [].

(** [a < b] on strings: the order of the code units. *)
Fixpoint strlt (a b : jsstring) : bool :=
  match a, b with
  | _, [] => false
  | [], _ :: _ => true
  | x :: a', y :: b' => (x <? y)%N || (x =? y)%N && strlt a' b'
  end.

(** The names [Object.prototype] defines; all but [__proto__] name
    functions. *)
Definition objectPrototypeKeys : list jsstring :=
  [lit "constructor"; lit "__defineGetter__"; lit "__defineSetter__";
   lit "hasOwnProperty"; lit "__lookupGetter__"; lit "__lookupSetter__";
   lit "isPrototypeOf"; lit "propertyIsEnumerable"; lit "toString";
   lit "valueOf"; lit "__proto__"; lit "toLocaleString"].

(** What the counting functions keep under a key: a number, or the text a
    [+ 1] on a non-number made. *)
Inductive tally :=
| Count (n : N)
| Text (s : jsstring).

Section Host.

(** [ToString] of a number, an array or an object, which the host defines. *)
Variable toStringOther : json -> jsstring.

(** The source text [Function.prototype.toString] gives for the function
    that [Object.prototype] has under a name. *)
Variable functionText : jsstring -> jsstring.

(** [ToString], also the conversion of a value to a property key. *)
Definition toString (v : value) : jsstring :=
  match v with
  | None => lit "undefined"
  | Some JNull => lit "null"
  | Some (JBool true) => lit "true"
  | Some (JBool false) => lit "false"
  | Some (JStr s) => s
  | Some j => toStringOther j
  end.

(** The default comparison of [sort] says [x] goes before [y]:
    [undefined] goes last, the rest by the order of their texts. *)
Definition sortsBefore (x y : value) : bool :=
  match x, y with
  | None, _ => false
  | Some _, None => true
  | Some _, Some _ => strlt (toString x) (toString y)
  end.

(** [sort] is stable: an element stays before the later elements it does
    not go after. *)
Fixpoint insertSorted (x : value) (l : list value) : list value :=
  match l with
  | [] => [x]
  | y :: l' => if sortsBefore y x then y :: insertSorted x l' else x :: y :: l'
  end.

Fixpoint sort (l : list value) : list value :=
  match l with
  | [] => []
  | x :: l' => insertSorted x (sort l')
  end.

Definition getUniqueTypes (classes : list json) : completion (list value) :=
  types ← mapC (fun classData => getProp (Some classData) (lit "type")) classes;
  Return (sort (spreadSet types)).

Definition getUniqueTrainers (classes : list json) : completion (list value) :=
  trainers ← mapC (fun classData => getProp (Some classData) (lit "trainer")) classes;
  Return (sort (spreadSet trainers)).

(** [acc[key] = (acc[key] || 0) + 1] on an object that started as [{}]:
    a key the object does not have yet is found on [Object.prototype] when
    it is one of its names; assigning to [__proto__] a text changes
    nothing. *)
Definition bump (acc : gmap jsstring tally) (key : jsstring)
  : gmap jsstring tally :=
  match acc !! key with
  | Some (Count n) => <[key := Count (n + 1)]> acc
  | Some (Text s) =>
      if streq s [] then <[key := Count 1]> acc
      else <[key := Text (s ++ lit "1")]> acc
  | None =>
      if streq key (lit "__proto__") then acc
      else if existsb (streq key) objectPrototypeKeys
      then <[key := Text (functionText key ++ lit "1")]> acc
      else <[key := Count 1]> acc
  end.

(** [classes.reduce((acc, classData) => ..., {})] counting under
    [classData[field]]. *)
Fixpoint countBy (field : jsstring) (classes : list json)
  (acc : gmap jsstring tally) : completion (gmap jsstring tally) :=
  match classes with
  | [] => Return acc
  | classData :: rest =>
      v ← getProp (Some classData) field;
      countBy field rest (bump acc (toString v))
  end.

Definition getClassCountByTrainer (classes : list json)
  : completion (gmap jsstring tally) :=
  countBy (lit "trainer") classes ∅.

Definition getClassCountByType (classes : list json)
  : completion (gmap jsstring tally) :=
  countBy (lit "type") classes ∅.

End Host.

End Collections.

(** * storage.js: preferences, history, export and import *)

Module Persistence.
Import Js Storage.

Definition removeItem (key : jsstring) : M World bool :=
  available ← isLocalStorageAvailable;
  if negb available then mret false
  else
    tryCatch
      (_ ← storageRemoveItem key;
       mret true)
      (fun error =>
         _ ← log (ConsoleError (lit "Error removing from localStorage:") (Some error));
         mret false).

(** [Object.values(STORAGE_KEYS).forEach(key => localStorage.removeItem(key))] *)
Definition clearAll : M World bool :=
  available ← isLocalStorageAvailable;
  if negb available then mret false
  else
    tryCatch
      (_ ← storageRemoveItem (preferredTraining STORAGE_KEYS);
       _ ← storageRemoveItem (userPreferences STORAGE_KEYS);
       _ ← storageRemoveItem (recentClasses STORAGE_KEYS);
       mret true)
      (fun error =>
         _ ← log (ConsoleError (lit "Error clearing localStorage:") (Some error));
         mret false).

(** The world of the functions that also write [console.log] lines. *)
Record Session := {
  storage : World;
  logged : list jsstring
}.

Definition lift {A} (m : M World A) : M Session A :=
  fun s =>
    let (r, w) := m (storage s) in
    (r, {| storage := w; logged := logged s |}).

(** [console.log(text)] *)
Definition logLine (text : jsstring) : M Session unit :=
  fun s => (Return tt, {| storage := storage s; logged := logged s ++ [text] |}).

Definition savePreference (type : value) : M Session bool :=
  if negb (truthy type) || negb (streq (typeof type) (lit "string"))
  then
    _ ← lift (log (ConsoleWarn (lit "Invalid training type provided") None));
    mret false
  else
    match type with
    | Some (JStr text) =>
        success ← lift (setItem (preferredTraining STORAGE_KEYS) (JStr text));
        _ ← (if success : bool
             then
               _ ← logLine (lit "Saved preference: " ++ text);
               lift (addRecentClass type)
             else mret tt);
        mret success
    | _ => mret false (* not reached: [typeof type] is ['string'] here *)
    end.

(** [getItem(key)]: the default value is [null]. *)
Definition getPreference : M World json :=
  getItem (preferredTraining STORAGE_KEYS) JNull.

Definition removePreference : M World bool :=
  removeItem (preferredTraining STORAGE_KEYS).

Definition saveUserPreferences (preferences : value) : M World bool :=
  if negb (truthy preferences)
     || negb (streq (typeof preferences) (lit "object"))
  then
    _ ← log (ConsoleWarn (lit "Invalid preferences object provided") None);
    mret false
  else
    match preferences with
    | Some j => setItem (userPreferences STORAGE_KEYS) j
    | None => mret false (* not reached: [undefined] is falsy *)
    end.

Definition defaultPreferences : json :=
  JObj [(lit "theme", JStr (lit "light"));
        (lit "notifications", JBool true);
        (lit "language", JStr (lit "es"))].

Definition getUserPreferences : M World json :=
  getItem (userPreferences STORAGE_KEYS) defaultPreferences.

(** The end index of [slice(0, limit)] on a sequence of [len] elements: a
    negative limit counts from the end. *)
Definition sliceEnd (len : nat) (limit : Z) : nat :=
  if (limit <? 0)%Z
  then Z.to_nat (Z.max (Z.of_nat len + limit) 0)
  else Z.to_nat (Z.min limit (Z.of_nat len)).

(** [recent.slice(0, limit)]: arrays and strings have [slice]. *)
Definition sliceFromStart (recent : json) (limit : Z) : completion json :=
  match recent with
  | JArr l => Return (JArr (take (sliceEnd (length l) limit) l))
  | JStr s => Return (JStr (take (sliceEnd (length s) limit) s))
  | JNull => Throw (TypeError (lit "Cannot read properties of undefined or null"))
  | _ => Throw (TypeError (lit "recent.slice is not a function"))
  end.

(** [limit] is a whole number, or absent, which makes it
    [MAX_RECENT_ITEMS]. *)
Definition getRecentClasses (limit : option Z) : M World json :=
  let limit := default (Z.of_nat MAX_RECENT_ITEMS) limit in
  recent ← getItem (recentClasses STORAGE_KEYS) (JArr []);
  liftC (sliceFromStart recent limit).

Definition clearRecentClasses : M World bool :=
  removeItem (recentClasses STORAGE_KEYS).


Definition importData (data : value) : M Session bool :=
  if negb (truthy data) || negb (streq (typeof data) (lit "object"))
  then
    _ ← lift (log (ConsoleWarn (lit "Invalid data format for import") None));
    mret false
  else
    tryCatch
      (preferred ← liftC (getProp data (lit "preferredTraining"));
       _ ← (if truthy preferred
            then _ ← savePreference preferred; mret tt
            else mret tt);
       preferences ← liftC (getProp data (lit "userPreferences"));
       _ ← (if truthy preferences
            then _ ← lift (saveUserPreferences preferences); mret tt
            else mret tt);
       recent ← liftC (getProp data (lit "recentClasses"));
       _ ← (match recent with
            | Some (JArr l) =>
                (* truthy, and [Array.isArray] holds *)
                _ ← lift (setItem (recentClasses STORAGE_KEYS) (JArr l)); mret tt
            | _ => mret tt
            end);
       mret true)
      (fun error =>
         _ ← lift (log (ConsoleError (lit "Error importing data:") (Some error)));
         mret false).

End Persistence.

(** * main.js: the e-mail check of the contact form *)

Module Forms.
Import Js.

(** The pieces of the patterns used here: one code unit of a class, or one
    or more of them. *)
Inductive atom :=
| One (class : N -> bool)
| Many1 (class : N -> bool).

(** [/^ atoms $/.test(s)]: the whole of [s] is matched by the atoms in
    turn; a repetition is tried at every length. *)
Fixpoint test (atoms : list atom) : jsstring -> bool :=
  match atoms with
  | [] => fun s => match s with [] => true | _ :: _ => false end
  | One class :: rest =>
      fun s =>
        match s with
        | c :: s' => class c && test rest s'
        | [] => false
        end
  | Many1 class :: rest =>
      fix many (s : jsstring) : bool :=
        match s with
        | c :: s' => class c && (many s' || test rest s')
        | [] => false
        end
  end.

(** [[^\s@]] *)
Definition notSpaceOrAt (c : N) : bool :=
  negb (isWhiteSpace c) && negb (c =? 64)%N.

(** [/^[^\s@]+@[^\s@]+\.[^\s@]+$/] *)
Definition emailRegex : list atom :=
  [Many1 notSpaceOrAt; One (N.eqb 64); Many1 notSpaceOrAt; One (N.eqb 46);
   Many1 notSpaceOrAt].

Definition isValidEmail (email : jsstring) : bool := test emailRegex email.

End Forms.

(** * More of the vocabulary of the properties *)

Module Vocabulary.
Import Js Fetch.

(** The text a class has under a key ([""] when it has none). *)
Definition textOf (key : jsstring) (classData : json) : jsstring :=
  match ownProperty classData key with
  | Some (JStr s) => s
  | _ => []
  end.

(** A response in time with a 2xx status that is not declared as JSON. *)
Definition answersNotJson (x : Exchange) : Prop :=
  exists after r,
    x = Responds after r /\ (after < timeout CONFIG)%Z /\ ok r = true /\
    (contentType r = None \/
     exists ct, contentType r = Some ct /\
                includes ct (lit "application/json") = false).

(** A document with nothing to load: not an array, or an array without an
    element of Record shape. *)
Definition unusable (j : json) : Prop :=
  match j with
  | JArr items => Forall (fun x => Spec.recordShape x = false) items
  | _ => True
  end.

(** A truthy value that is not a string. *)
Definition truthyNonString (v : value) : Prop :=
  truthy v = true /\ forall s, v <> Some (JStr s).

End Vocabulary.

(** * More sample data *)

Module MoreSamples.
Import Js Fetch Samples.

(** A server whose first request times out, whose second is answered 503,
    and which serves the class list from then on. *)
Definition flaky : jsstring -> nat -> Exchange :=
  fun url i =>
    match i with
    | 0 => Silent
    | 1 => unavailable url i
    | _ => serves (JArr [yoga; unnamed; hiit]) url i
    end.

(** A class of Record shape whose trainer is called "constructor". *)
Definition rogue : json :=
  JObj [(lit "name", JStr (lit "Boxing"));
        (lit "type", JStr (lit "Cardio"));
        (lit "duration", JStr (lit "50 min"));
        (lit "level", JStr (lit "Advanced"));
        (lit "trainer", JStr (lit "constructor"))].

(** A server that answers every request with a page of HTML. *)
Definition servesHtml : jsstring -> nat -> Exchange :=
  fun _ _ => Responds 20 {| status := 200;
                            contentType := Some (lit "text/html");
                            body := Throw (Error (lit "Unexpected token <")) |}.

End MoreSamples.

(** * The vocabulary of the properties of the storage *)

Module PersistenceSpec.
Import Js Storage StorageSpec Persistence.

(** The key of the probe of [isLocalStorageAvailable]. *)
Definition probeKey : jsstring := lit "__storage_test__".

(** The storage takes the probe: it is available. *)
Definition probeWorks (w : World) : Prop :=
  accepts (localStorage w) probeKey (Raw (lit "test")) = true.

(** The storage takes every write. *)
Definition roomy (w : World) : Prop :=
  forall key s, accepts (localStorage w) key s = true.

(** What is held under a key. *)
Definition held (w : World) (key : jsstring) : option slot :=
  items (localStorage w) !! key.


(** Two worlds hold the same under every key but the probe key, and take
    the same writes. *)
Definition agree (w w' : World) : Prop :=
  accepts (localStorage w') = accepts (localStorage w) /\
  forall k, k <> probeKey -> held w' k = held w k.

(** [w'] differs from [w] under [key], where it holds [s], and possibly
    under the probe key. *)
Definition updated (w w' : World) (key : jsstring) (s : option slot) : Prop :=
  accepts (localStorage w') = accepts (localStorage w) /\
  held w' key = s /\
  forall k, k <> probeKey -> k <> key -> held w' k = held w k.

(** Nothing can be read under a key: the storage is unavailable, or holds
    nothing there, or holds a text that is not JSON. *)
Definition unreadable (w : World) (key : jsstring) : Prop :=
  ~ probeWorks w \/ held w key = None \/ exists text, held w key = Some (Raw text).

(** A storage that takes every write and holds the given items. *)
Definition keeping (its : gmap jsstring slot) : World :=
  {| localStorage := {| items := its; accepts := fun _ _ => true |};
     console := [] |}.

(** A storage that takes no write and holds the given items. *)
Definition blocked (its : gmap jsstring slot) : World :=
  {| localStorage := {| items := its; accepts := fun _ _ => false |};
     console := [] |}.

(** A session that starts on a storage, with nothing logged. *)
Definition session (w : World) : Session :=
  {| storage := w; logged := [] |}.

(** A value that is an object or an array. *)
Definition isObject (v : value) : Prop :=
  exists j, v = Some j /\ ((exists l, j = JArr l) \/ (exists ms, j = JObj ms)).

End PersistenceSpec.

(** * Properties *)

Import Js Fetch Spec Samples.

(** ** Strings *)

Lemma streq_true a b : streq a b = true <-> a = b.
Proof.
  revert b. induction a as [|x a IH]; intros [|y b]; simpl; try easy.
  rewrite andb_true_iff, N.eqb_eq, IH. split.
  - intros [-> ->]. reflexivity.
  - intros [= -> ->]. auto.
Qed.

Lemma streq_refl a : streq a a = true.
Proof. apply streq_true. reflexivity. Qed.

Lemma streq_nil a : streq a [] = true <-> a = [].
Proof. apply streq_true. Qed.

Lemma trimStart_nil s : trimStart s = [] <-> whitespaceOnly s = true.
Proof.
  unfold whitespaceOnly. induction s as [|c s IH]; simpl; [easy|].
  destruct (isWhiteSpace c); simpl; [exact IH | easy].
Qed.

Lemma whitespaceOnly_app s t :
  whitespaceOnly (s ++ t) = whitespaceOnly s && whitespaceOnly t.
Proof. apply forallb_app. Qed.

Lemma whitespaceOnly_rev s : whitespaceOnly (rev s) = whitespaceOnly s.
Proof.
  induction s as [|c s IH]; simpl; [reflexivity|].
  rewrite whitespaceOnly_app, IH. simpl. rewrite andb_true_r. apply andb_comm.
Qed.

Lemma whitespaceOnly_trimStart s :
  whitespaceOnly (trimStart s) = whitespaceOnly s.
Proof.
  induction s as [|c s IH]; simpl; [reflexivity|].
  destruct (isWhiteSpace c) eqn:E; simpl; [exact IH | now rewrite E].
Qed.

(** [s.trim() === ''] says that [s] is empty or white space only. *)
Lemma trim_blank s : streq (trim s) [] = whitespaceOnly s.
Proof.
  apply eq_true_iff_eq. rewrite streq_nil. unfold trim.
  split.
  - intros H. apply (f_equal (@rev N)) in H. rewrite rev_involutive in H.
    simpl in H. apply trimStart_nil in H.
    now rewrite whitespaceOnly_rev, whitespaceOnly_trimStart in H.
  - intros H.
    assert (E : trimStart (rev (trimStart s)) = []).
    { apply trimStart_nil.
      now rewrite whitespaceOnly_rev, whitespaceOnly_trimStart. }
    now rewrite E.
Qed.

(** The decimal text of a number does not start with a letter. *)
Lemma decimal_not_word n c k :
  (57 < c)%N -> streq (decimal n) (c :: k) = false.
Proof.
  intros Hc. unfold decimal.
  destruct (N.to_uint n); try reflexivity;
    unfold lit;
    cbn [NilEmpty.string_of_uint list_ascii_of_string fmap list_fmap streq];
    apply andb_false_iff; left; apply N.eqb_neq; intros <-;
    vm_compute in Hc; discriminate.
Qed.

Lemma indexOfKey_word c k n : (57 < c)%N -> indexOfKey (c :: k) n = None.
Proof.
  intros Hc. unfold indexOfKey. generalize 0%nat.
  induction n as [|n IH]; intros b; simpl; [reflexivity|].
  rewrite decimal_not_word by exact Hc. apply IH.
Qed.

(** ** Validation of one class *)

Lemma everyC_pure {A} (p : A -> completion bool) (q : A -> bool) l :
  (forall x, In x l -> p x = Return (q x)) ->
  everyC p l = Return (forallb q l).
Proof.
  induction l as [|x l IH]; intros H; simpl; [reflexivity|].
  rewrite (H x) by (left; reflexivity). simpl.
  destruct (q x); simpl; [|reflexivity].
  apply IH. intros y Hy. apply H. right. exact Hy.
Qed.

Lemma filterC_pure {A} (p : A -> completion bool) (q : A -> bool) l :
  (forall x, In x l -> p x = Return (q x)) ->
  filterC p l = Return (List.filter q l).
Proof.
  induction l as [|x l IH]; intros H; simpl; [reflexivity|].
  rewrite (H x) by (left; reflexivity). simpl.
  rewrite IH by (intros y Hy; apply H; right; exact Hy). simpl.
  destruct (q x); reflexivity.
Qed.

(** What [isValidClass] computes: it decides the Record shape, except on an
    object with a member named [hasOwnProperty], where the call of that
    member throws. *)
Lemma isValidClass_spec j :
  isValidClass j =
  if shadowsHasOwnProperty j
  then Throw (TypeError (lit "hasOwnProperty is not a function"))
  else Return (recordShape j).
Proof.
  destruct j as [|b|q|s|items|members].
  - reflexivity.
  - unfold isValidClass. now rewrite orb_true_r.
  - unfold isValidClass. now rewrite orb_true_r.
  - unfold isValidClass. now rewrite orb_true_r.
  - unfold isValidClass, callHasOwnProperty.
    cbn [truthy typeof negb orb ownProperty requiredFields everyC].
    change (streq (lit "object") (lit "object")) with true.
    change (streq (lit "hasOwnProperty") (lit "length")) with false.
    change (streq (lit "name") (lit "length")) with false.
    cbn [negb orb].
    change (lit "hasOwnProperty") with (104%N :: lit "asOwnProperty").
    change (lit "name") with (110%N :: lit "ame").
    rewrite !indexOfKey_word by lia. reflexivity.
  - unfold isValidClass, shadowsHasOwnProperty, callHasOwnProperty.
    cbn [truthy typeof negb orb ownProperty].
    change (streq (lit "object") (lit "object")) with true. cbn [negb].
    destruct (lookupMember (lit "hasOwnProperty") members) as [v|] eqn:Hh.
    + rewrite bool_decide_eq_true_2 by eauto. reflexivity.
    + rewrite bool_decide_eq_false_2 by (intros [? ?]; discriminate).
      unfold recordShape. apply everyC_pure. intros field _.
      cbn [mbind completion_bind]. f_equal.
      destruct (lookupMember field members) as [[| | |s| |]|] eqn:Hf;
        try (rewrite bool_decide_eq_true_2 by eauto; reflexivity).
      * rewrite bool_decide_eq_true_2 by eauto. simpl.
        now rewrite trim_blank.
      * rewrite bool_decide_eq_false_2 by (intros [? ?]; discriminate).
        reflexivity.
Qed.

Lemma isValidClass_true j : isValidClass j = Return true -> recordShape j = true.
Proof.
  rewrite isValidClass_spec. destruct (shadowsHasOwnProperty j); congruence.
Qed.

Lemma filterC_keeps {A} (p : A -> completion bool) l kept :
  filterC p l = Return kept -> Forall (fun x => p x = Return true) kept.
Proof.
  revert kept. induction l as [|x l IH]; simpl; intros kept H.
  - injection H as <-. constructor.
  - destruct (p x) as [keep|] eqn:Hp; simpl in H; [|discriminate].
    destruct (filterC p l) as [rest|]; simpl in H; [|discriminate].
    injection H as <-. specialize (IH rest eq_refl).
    destruct keep; [constructor|]; assumption.
Qed.

(** When [filter] returns, it returns the elements the callback accepted. *)
Lemma filterC_Return {A} (p : A -> completion bool) l kept :
  filterC p l = Return kept ->
  kept = List.filter
           (fun x => match p x with Return true => true | _ => false end) l.
Proof.
  revert kept. induction l as [|x l IH]; simpl; intros kept H.
  - now injection H as <-.
  - destruct (p x) as [keep|]; simpl in H; [|discriminate].
    destruct (filterC p l) as [rest|]; simpl in H; [|discriminate].
    injection H as <-. rewrite <- (IH rest eq_refl).
    destruct keep; reflexivity.
Qed.

(** ** Running the monad *)

Lemma bind_run {W A B} (m : M W A) (f : A -> M W B) w :
  (m ≫= f) w =
  match m w with
  | (Return a, w') => f a w'
  | (Throw e, w') => (Throw e, w')
  end.
Proof. reflexivity. Qed.

Lemma tryCatch_run {W A} (body : M W A) (handler : error -> M W A) w :
  tryCatch body handler w =
  match body w with
  | (Return a, w') => (Return a, w')
  | (Throw e, w') => handler e w'
  end.
Proof. reflexivity. Qed.

(** ** One attempt *)

Lemma validateClasses_world j w :
  fetches (validateClasses j w).2 = fetches w /\
  waits (validateClasses j w).2 = waits w.
Proof.
  unfold validateClasses.
  destruct j as [| | | |items|]; try (split; reflexivity).
  rewrite bind_run. unfold liftC.
  destruct (filterC isValidClass items) as [valid|]; [|split; reflexivity].
  destruct (length valid =? 0)%nat; [split; reflexivity|].
  rewrite bind_run.
  destruct (length valid <? length items)%nat; split; reflexivity.
Qed.

(** An attempt issues exactly one request and waits for nothing. *)
Lemma attempt_world net w :
  fetches (attempt net w).2 = S (fetches w) /\
  waits (attempt net w).2 = waits w.
Proof.
  unfold attempt. rewrite bind_run. unfold fetchWithTimeout.
  set (outcome := match net _ _ with Silent => _ | _ => _ end).
  destruct outcome as [response|e]; [|split; reflexivity].
  destruct (negb (ok response)); [split; reflexivity|].
  destruct (_ || _); [split; reflexivity|].
  rewrite bind_run. unfold liftC.
  destruct (body response) as [data|]; [|split; reflexivity].
  exact (validateClasses_world data (issue w)).
Qed.

(** What an attempt yields, from what the network does with its request. *)
Lemma attempt_timesOut net w :
  timesOut (net (dataPath CONFIG) (fetches w)) ->
  (attempt net w).1 = Throw AbortError.
Proof.
  unfold attempt, timesOut. rewrite bind_run. unfold fetchWithTimeout.
  destruct (net (dataPath CONFIG) (fetches w)) as [after r|after e|]; intros H.
  - destruct (Z.ltb_spec after (timeout CONFIG)); [lia|reflexivity].
  - destruct (Z.ltb_spec after (timeout CONFIG)); [lia|reflexivity].
  - reflexivity.
Qed.

Lemma attempt_non2xx net w :
  answersNon2xx (net (dataPath CONFIG) (fetches w)) ->
  exists e, (attempt net w).1 = Throw e /\
            streq (name e) (lit "AbortError") = false /\
            includes (message e) (lit "HTTP error") = true.
Proof.
  intros (after & r & Hx & Hafter & Hstatus).
  unfold attempt. rewrite bind_run. unfold fetchWithTimeout. rewrite Hx.
  destruct (Z.ltb_spec after (timeout CONFIG)); [|lia].
  assert (Hok : ok r = false).
  { unfold ok. apply andb_false_iff.
    destruct Hstatus; [left; apply N.leb_gt | right; apply N.leb_gt];
      assumption. }
  rewrite Hok. simpl. eexists. repeat split; reflexivity.
Qed.

Lemma attempt_delivers net w j :
  deliversJson (net (dataPath CONFIG) (fetches w)) j ->
  attempt net w = validateClasses j (issue w).
Proof.
  intros (after & r & Hx & Hafter & Hok & (ct & Hct & Hjson) & Hbody).
  unfold attempt. rewrite bind_run. unfold fetchWithTimeout. rewrite Hx.
  destruct (Z.ltb_spec after (timeout CONFIG)); [|lia].
  rewrite Hok, Hct. simpl. rewrite Hjson.
  destruct (streq ct []) eqn:Hnil.
  { apply streq_nil in Hnil. subst ct. discriminate. }
  simpl. rewrite bind_run. unfold liftC. rewrite Hbody. reflexivity.
Qed.

(** Validation succeeds on an array with something left after the filter,
    when no element makes [isValidClass] throw. *)
Lemma validateClasses_kept items w :
  Forall (fun j => shadowsHasOwnProperty j = false) items ->
  List.filter recordShape items <> [] ->
  (validateClasses (JArr items) w).1 = Return (List.filter recordShape items).
Proof.
  intros Hsafe Hsome. unfold validateClasses. rewrite bind_run. unfold liftC.
  rewrite (filterC_pure isValidClass recordShape).
  - destruct (List.filter recordShape items) as [|x kept]; [congruence|].
    change (length (x :: kept) =? 0)%nat with false. cbv iota.
    rewrite bind_run.
    destruct (length (x :: kept) <? length items)%nat; reflexivity.
  - intros j Hj. rewrite isValidClass_spec.
    rewrite Forall_forall in Hsafe. rewrite Hsafe; [reflexivity|].
    apply list_elem_of_In. exact Hj.
Qed.

Lemma validateClasses_not_array j w :
  (forall items, j <> JArr items) ->
  (validateClasses j w).1 =
  Throw (Error (lit "Invalid data format: expected an array")).
Proof.
  intros H. destruct j; try reflexivity. now destruct (H items).
Qed.

Lemma validateClasses_none items w :
  Forall (fun j => recordShape j = false) items ->
  exists e, (validateClasses (JArr items) w).1 = Throw e /\
            streq (name e) (lit "AbortError") = false.
Proof.
  intros Hnone. unfold validateClasses. rewrite bind_run. unfold liftC.
  destruct (filterC isValidClass items) as [kept|e] eqn:Hf.
  - apply filterC_Return in Hf.
    assert (kept = []) as ->.
    { subst kept. clear -Hnone. induction Hnone as [|x l Hx _ IH]; simpl;
        [reflexivity|].
      destruct (isValidClass x) as [[|]|] eqn:Hv; try exact IH.
      apply isValidClass_true in Hv. congruence. }
    simpl. eexists. split; reflexivity.
  - exists e. split; [reflexivity|].
    clear -Hf. induction items as [|x l IH]; simpl in Hf; [discriminate|].
    rewrite isValidClass_spec in Hf.
    destruct (shadowsHasOwnProperty x); simpl in Hf.
    + injection Hf as <-. reflexivity.
    + destruct (filterC isValidClass l); simpl in Hf; [discriminate|].
      injection Hf as <-. apply IH. reflexivity.
Qed.

(** Whatever is returned by validation has the Record shape throughout. *)
Lemma validateClasses_shape j w kept :
  (validateClasses j w).1 = Return kept ->
  forallb recordShape kept = true.
Proof.
  unfold validateClasses. destruct j as [| | | |items|]; try discriminate.
  rewrite bind_run. unfold liftC.
  destruct (filterC isValidClass items) as [valid|] eqn:Hf; [|discriminate].
  destruct (length valid =? 0)%nat; [discriminate|].
  rewrite bind_run.
  intros H.
  assert (valid = kept) as <-
    by (destruct (length valid <? length items)%nat; simpl in H; congruence).
  apply filterC_keeps in Hf. apply forallb_forall. intros x Hx.
  rewrite Forall_forall in Hf. apply isValidClass_true, Hf.
  apply list_elem_of_In. exact Hx.
Qed.

(** ** The retry loop *)

Lemma doubling_S delay k :
  doubling delay (S k) = delay :: doubling (delay * 2) k.
Proof.
  unfold doubling. simpl seq. rewrite fmap_cons. f_equal.
  - simpl. lia.
  - rewrite <- fmap_S_seq, <- list_fmap_compose.
    apply list_fmap_ext. intros _ i _. simpl.
    rewrite Nat2Z.inj_succ, Z.pow_succ_r by lia. lia.
Qed.

Lemma retry_run {A} (fn : M World A) retries delay w :
  retry fn retries delay w =
  match fn w with
  | (Return a, w') => (Return a, w')
  | (Throw e, w') =>
      match retries with
      | O => (Throw e, w')
      | S retries' => retry fn retries' (delay * 2) (sleep delay w').2
      end
  end.
Proof.
  destruct retries; simpl; rewrite tryCatch_run;
    destruct (fn w) as [[a|e] w']; reflexivity.
Qed.

(** A run of the loop makes [k + 1] attempts for some [k] up to [retries],
    and waits [delay], [2 * delay], ... between them; it throws only after
    all [retries] retries. *)
Lemma retry_trace net retries : forall delay w,
  exists k, k <= retries /\
    fetches (retry (attempt net) retries delay w).2 = fetches w + S k /\
    waits (retry (attempt net) retries delay w).2 = waits w ++ doubling delay k /\
    (forall e, (retry (attempt net) retries delay w).1 = Throw e -> k = retries).
Proof.
  induction retries as [|n IH]; intros delay w; rewrite retry_run;
    destruct (attempt_world net w) as [Hf Hw];
    destruct (attempt net w) as [[data|e] w1]; simpl in Hf, Hw.
  - exists 0. simpl. rewrite app_nil_r.
    repeat split; try lia; try assumption; discriminate.
  - exists 0. simpl. rewrite app_nil_r.
    repeat split; try lia; assumption.
  - exists 0. simpl. rewrite app_nil_r.
    repeat split; try lia; try assumption; discriminate.
  - destruct (IH (delay * 2)%Z (sleep delay w1).2) as (k & Hk & Hf' & Hw' & Hthrow).
    exists (S k). split; [lia|]. split; [rewrite Hf'; simpl; lia|].
    split.
    + rewrite Hw', doubling_S. simpl. now rewrite Hw, <- app_assoc.
    + intros e' He'. f_equal. exact (Hthrow e' He').
Qed.

(** When every attempt fails, the loop gives up after [retries] retries. *)
Lemma retry_exhausted net retries : forall delay w,
  (forall w0, fetches w <= fetches w0 -> exists e, (attempt net w0).1 = Throw e) ->
  exists e, (retry (attempt net) retries delay w).1 = Throw e /\
    fetches (retry (attempt net) retries delay w).2 = fetches w + S retries /\
    waits (retry (attempt net) retries delay w).2 =
      waits w ++ doubling delay retries.
Proof.
  intros delay w Hfail.
  assert (Hthrow : exists e, (retry (attempt net) retries delay w).1 = Throw e).
  { revert delay w Hfail. induction retries as [|n IH]; intros delay w Hfail;
      rewrite retry_run;
      destruct (Hfail w (le_n _)) as [e He];
      destruct (attempt_world net w) as [Hf _];
      destruct (attempt net w) as [[data|e'] w1]; simpl in He, Hf;
      try discriminate.
    - eauto.
    - apply IH. intros w0 Hw0. apply Hfail. simpl in Hw0. lia. }
  destruct Hthrow as [e He]. exists e. split; [exact He|].
  destruct (retry_trace net retries delay w) as (k & _ & Hf & Hw & Hk).
  rewrite (Hk e He) in Hf, Hw. split; assumption.
Qed.

(** When the first attempt succeeds, the loop returns its result at once. *)
Lemma retry_first net retries delay w data :
  (attempt net w).1 = Return data ->
  retry (attempt net) retries delay w = (Return data, (attempt net w).2).
Proof.
  intros H. rewrite retry_run.
  destruct (attempt net w) as [[a|e] w1]; simpl in *; congruence.
Qed.

(** ** The loader *)

(** [getClasses] returns what the loop returned, and the empty array when
    the loop threw; its diagnostics leave requests and waits as they are. *)
Lemma getClasses_outcome net w :
  exists w',
    getClasses net w =
      (Return
         (match (retry (attempt net) (maxRetries CONFIG) (retryDelay CONFIG) w).1 with
          | Return data => data
          | Throw _ => []
          end), w') /\
    fetches w' =
      fetches (retry (attempt net) (maxRetries CONFIG) (retryDelay CONFIG) w).2 /\
    waits w' =
      waits (retry (attempt net) (maxRetries CONFIG) (retryDelay CONFIG) w).2.
Proof.
  unfold getClasses. rewrite tryCatch_run, bind_run.
  destruct (retry (attempt net) (maxRetries CONFIG) (retryDelay CONFIG) w)
    as [[data|e] w1]; simpl.
  - eauto.
  - rewrite !bind_run. simpl.
    destruct (streq (name e) (lit "AbortError")); simpl; [eauto|].
    destruct (includes (message e) (lit "HTTP error")); simpl; [eauto|].
    destruct (includes (message e) (lit "JSON")); simpl; eauto.
Qed.

Lemma attempt_shape net w data :
  (attempt net w).1 = Return data -> forallb recordShape data = true.
Proof.
  unfold attempt. rewrite bind_run.
  destruct (fetchWithTimeout net (dataPath CONFIG) (timeout CONFIG) w)
    as [[response|e] w1]; [|discriminate].
  destruct (negb (ok response)); [discriminate|].
  destruct (_ || _); [discriminate|].
  rewrite bind_run. unfold liftC.
  destruct (body response) as [j|]; [|discriminate].
  apply validateClasses_shape.
Qed.

Lemma retry_shape net retries : forall delay w data,
  (retry (attempt net) retries delay w).1 = Return data ->
  forallb recordShape data = true.
Proof.
  induction retries as [|n IH]; intros delay w data; rewrite retry_run;
    pose proof (attempt_shape net w) as Hs;
    destruct (attempt net w) as [[a|e] w1]; simpl in Hs |- *;
    try discriminate.
  - intros [= <-]. now apply Hs.
  - intros [= <-]. now apply Hs.
  - apply IH.
Qed.

(** When every attempt fails, [getClasses] returns the empty array after
    [maxRetries] retries, having waited 1000, 2000 and 4000 ms. *)
Lemma getClasses_exhausted net w :
  (forall w0, fetches w <= fetches w0 -> exists e, (attempt net w0).1 = Throw e) ->
  exists w', getClasses net w = (Return [], w') /\
    fetches w' = fetches w + 1 + maxRetries CONFIG /\
    waits w' = waits w ++ doubling (retryDelay CONFIG) (maxRetries CONFIG).
Proof.
  intros Hfail.
  destruct (retry_exhausted net (maxRetries CONFIG) (retryDelay CONFIG) w Hfail)
    as (e & He & Hf & Hw).
  destruct (getClasses_outcome net w) as (w' & Hg & Hf' & Hw').
  rewrite He in Hg.
  exists w'. split; [exact Hg|]. split.
  - rewrite Hf', Hf. lia.
  - rewrite Hw', Hw. reflexivity.
Qed.

(** When the first attempt gets an array that keeps some element, and no
    element has a member named [hasOwnProperty], [getClasses] returns the
    elements of Record shape, in their order, with no retry. *)
Lemma getClasses_kept net w items :
  deliversJson (net (dataPath CONFIG) (fetches w)) (JArr items) ->
  Forall (fun j => shadowsHasOwnProperty j = false) items ->
  List.filter recordShape items <> [] ->
  exists w', getClasses net w = (Return (List.filter recordShape items), w') /\
             noRetry w w'.
Proof.
  intros Hd Hsafe Hsome.
  pose proof (attempt_delivers net w _ Hd) as Ha.
  pose proof (validateClasses_kept items (issue w) Hsafe Hsome) as Hv.
  rewrite <- Ha in Hv.
  pose proof (retry_first net (maxRetries CONFIG) (retryDelay CONFIG) w _ Hv) as Hr.
  destruct (getClasses_outcome net w) as (w' & Hg & Hf' & Hw').
  rewrite Hr in Hg, Hf', Hw'. simpl in Hg, Hf', Hw'.
  destruct (attempt_world net w) as [Hf Hw].
  exists w'. split; [exact Hg|]. split; congruence.
Qed.

(** ** The model at work *)

Example trim_sample : trim (lit "  Ana ") = lit "Ana".
Proof. reflexivity. Qed.

Example isValidClass_samples :
  isValidClass yoga = Return true /\
  isValidClass unnamed = Return false /\
  isValidClass (JArr [yoga]) = Return false /\
  isValidClass JNull = Return false /\
  isValidClass pilates = Throw (TypeError (lit "hasOwnProperty is not a function")).
Proof. repeat split; vm_compute; reflexivity. Qed.

(** Of three classes the one with a blank trainer is dropped, in one
    request. *)
Example getClasses_partial_sample :
  (getClasses (serves (JArr [yoga; unnamed; hiit])) start).1
    = Return [yoga; hiit] /\
  fetches (getClasses (serves (JArr [yoga; unnamed; hiit])) start).2 = 1 /\
  waits (getClasses (serves (JArr [yoga; unnamed; hiit])) start).2 = [].
Proof. repeat split; vm_compute; reflexivity. Qed.

(** An object first and the class list on the retry: the list is returned,
    after one wait of 1000 ms. *)
Example getClasses_recovers_sample :
  (getClasses recovers start).1 = Return [yoga; hiit] /\
  fetches (getClasses recovers start).2 = 2 /\
  waits (getClasses recovers start).2 = [1000%Z].
Proof. repeat split; vm_compute; reflexivity. Qed.

Example getClasses_unavailable_sample :
  (getClasses unavailable start).1 = Return [] /\
  fetches (getClasses unavailable start).2 = 4 /\
  waits (getClasses unavailable start).2 = [1000; 2000; 4000]%Z.
Proof. repeat split; vm_compute; reflexivity. Qed.

Example filterByType_sample :
  filterByType (fun s => s) [yoga; hiit] (Some (JStr (lit "Yoga")))
    = Return [yoga] /\
  searchClasses (fun s => s) [yoga; hiit] (Some (JStr (lit " Luis ")))
    = Return [hiit].
Proof. split; vm_compute; reflexivity. Qed.

(** ** The claims about the loader *)

(** C3: [getClasses] never raises to its caller. For every network and
    every state of the world it returns an array: the one the retry loop
    returned, and the empty array on every path where the loop threw. *)
Theorem getClasses_never_raises net w :
  exists w',
    getClasses net w =
    (Return
       (match (retry (attempt net) (maxRetries CONFIG) (retryDelay CONFIG) w).1 with
        | Return data => data
        | Throw _ => []
        end), w').
Proof.
  destruct (getClasses_outcome net w) as (w' & Hg & _). eauto.
Qed.

(** C4: every element of the array [getClasses] returns has the Record
    shape: an object with the members [name], [type], [duration], [level]
    and [trainer], each a text value that is not empty or white space
    only. *)
Theorem getClasses_only_records net w :
  exists c w', getClasses net w = (Return c, w') /\ forallb recordShape c = true.
Proof.
  destruct (getClasses_outcome net w) as (w' & Hg & _).
  eexists. exists w'. split; [exact Hg|].
  destruct (retry _ _ _ w).1 as [data|e] eqn:Hr; [|reflexivity].
  eapply retry_shape, Hr.
Qed.

(** C6: in every run of the retry loop the wait before the first retry is
    the initial delay and each later wait is twice the one before: a run
    with [k] retries (it makes [k + 1] attempts, [k] at most [retries])
    waits [delay], [2 * delay], [4 * delay], ..., [2 ^ (k - 1) * delay]. *)
Theorem retry_backoff_doubles net retries delay w :
  exists k, k <= retries /\
    fetches (retry (attempt net) retries delay w).2 = fetches w + 1 + k /\
    waits (retry (attempt net) retries delay w).2 =
      waits w ++ ((fun i => delay * 2 ^ Z.of_nat i)%Z <$> seq 0 k).
Proof.
  destruct (retry_trace net retries delay w) as (k & Hk & Hf & Hw & _).
  exists k. split; [exact Hk|]. split; [lia|exact Hw].
Qed.

(** C7: when every attempt meets a retryable failure, a timeout (nothing
    within [timeout] ms) or a status outside 200-299, [getClasses] makes
    exactly [maxRetries] further attempts after the first and then returns
    the empty array. *)
Theorem getClasses_retries_transient net w :
  (forall i, timesOut (net (dataPath CONFIG) i) \/
             answersNon2xx (net (dataPath CONFIG) i)) ->
  exists w', getClasses net w = (Return [], w') /\
    fetches w' = fetches w + 1 + maxRetries CONFIG.
Proof.
  intros H.
  destruct (getClasses_exhausted net w) as (w' & Hg & Hf & _).
  - intros w0 _. destruct (H (fetches w0)) as [Ht|Hs].
    + eexists. apply attempt_timesOut, Ht.
    + destruct (attempt_non2xx net w0 Hs) as (e & He & _). eauto.
  - eauto.
Qed.

Lemma getClasses_retries_transient_witness :
  (forall i, timesOut (silent (dataPath CONFIG) i) \/
             answersNon2xx (silent (dataPath CONFIG) i)) /\
  exists w', getClasses silent start = (Return [], w') /\
    fetches w' = fetches start + 1 + maxRetries CONFIG.
Proof.
  assert (H : forall i, timesOut (silent (dataPath CONFIG) i) \/
                        answersNon2xx (silent (dataPath CONFIG) i))
    by (intros i; left; exact I).
  split; [exact H|].
  exact (getClasses_retries_transient silent start H).
Defined.

(** Refutes that a concrete run of [getClasses] made no retry, by running
    it. *)
Ltac refute_noRetry :=
  let w' := fresh "w'" in
  let Hg := fresh "Hg" in
  let Hf := fresh "Hf" in
  intros (w' & Hg & Hf & _);
  apply (f_equal snd) in Hg; simpl in Hg; subst w';
  vm_compute in Hf; discriminate.

Lemma serves_delivers j url i : deliversJson (serves j url i) j.
Proof.
  exists 20%Z, (jsonResponse j). split; [reflexivity|].
  split; [reflexivity|]. split; [reflexivity|]. split; [|reflexivity].
  eexists. split; reflexivity.
Qed.

Lemma filter_all {A} (q : A -> bool) l :
  forallb q l = true -> List.filter q l = l.
Proof.
  induction l as [|x l IH]; simpl; [reflexivity|].
  intros [Hx Hl]%andb_true_iff. rewrite Hx, IH by exact Hl. reflexivity.
Qed.

(** C1, as the code has it: a body that is not an array makes the attempt
    fail with an error like any other, and the loop retries it. When every
    attempt gets such a body, [getClasses] returns the empty array after
    all [maxRetries] retries, having waited 1000, 2000 and 4000 ms. *)
Theorem getClasses_not_array_retried net w :
  (forall i, exists j, deliversJson (net (dataPath CONFIG) i) j /\
                       forall items, j <> JArr items) ->
  exists w', getClasses net w = (Return [], w') /\
    fetches w' = fetches w + 1 + maxRetries CONFIG /\
    waits w' = waits w ++ [1000; 2000; 4000]%Z.
Proof.
  intros H. apply getClasses_exhausted. intros w0 _.
  destruct (H (fetches w0)) as (j & Hd & Hj).
  rewrite (attempt_delivers net w0 j Hd).
  eexists. apply validateClasses_not_array, Hj.
Qed.

Lemma getClasses_not_array_retried_witness :
  (forall i, exists j, deliversJson (serves (JObj []) (dataPath CONFIG) i) j /\
                       forall items, j <> JArr items) /\
  exists w', getClasses (serves (JObj [])) start = (Return [], w') /\
    fetches w' = fetches start + 1 + maxRetries CONFIG /\
    waits w' = waits start ++ [1000; 2000; 4000]%Z.
Proof.
  assert (H : forall i, exists j,
             deliversJson (serves (JObj []) (dataPath CONFIG) i) j /\
             forall items, j <> JArr items).
  { intros i. exists (JObj []). split; [apply serves_delivers|discriminate]. }
  split; [exact H|].
  exact (getClasses_not_array_retried (serves (JObj [])) start H).
Defined.

(** C1 as stated fails: the server answers every request in time with a
    JSON object, and [getClasses] does not stop after one request. *)
Lemma not_array_is_retried :
  deliversJson (serves (JObj []) (dataPath CONFIG) 0) (JObj []) /\
  (forall items, JObj [] <> JArr items) /\
  ~ (exists w', getClasses (serves (JObj [])) start = (Return [], w') /\
                noRetry start w').
Proof.
  split; [apply serves_delivers|]. split; [discriminate|].
  refute_noRetry.
Qed.

(** C2, as the code has it: an array in which no element has the Record
    shape makes the attempt fail with an error like any other, and the loop
    retries it. When every attempt gets such an array, [getClasses] returns
    the empty array after all [maxRetries] retries, having waited 1000,
    2000 and 4000 ms. *)
Theorem getClasses_no_record_retried net w :
  (forall i, exists items,
      deliversJson (net (dataPath CONFIG) i) (JArr items) /\
      Forall (fun j => recordShape j = false) items) ->
  exists w', getClasses net w = (Return [], w') /\
    fetches w' = fetches w + 1 + maxRetries CONFIG /\
    waits w' = waits w ++ [1000; 2000; 4000]%Z.
Proof.
  intros H. apply getClasses_exhausted. intros w0 _.
  destruct (H (fetches w0)) as (items & Hd & Hnone).
  rewrite (attempt_delivers net w0 _ Hd).
  destruct (validateClasses_none items (issue w0) Hnone) as (e & He & _).
  eauto.
Qed.

Lemma getClasses_no_record_retried_witness :
  (forall i, exists items,
      deliversJson (serves (JArr [unnamed; JNull]) (dataPath CONFIG) i)
                   (JArr items) /\
      Forall (fun j => recordShape j = false) items) /\
  exists w', getClasses (serves (JArr [unnamed; JNull])) start = (Return [], w') /\
    fetches w' = fetches start + 1 + maxRetries CONFIG /\
    waits w' = waits start ++ [1000; 2000; 4000]%Z.
Proof.
  assert (H : forall i, exists items,
             deliversJson (serves (JArr [unnamed; JNull]) (dataPath CONFIG) i)
                          (JArr items) /\
             Forall (fun j => recordShape j = false) items).
  { intros i. exists [unnamed; JNull]. split; [apply serves_delivers|].
    repeat constructor. }
  split; [exact H|].
  exact (getClasses_no_record_retried (serves (JArr [unnamed; JNull])) start H).
Defined.

(** C2 as stated fails: the server answers every request in time with an
    array whose only element has a blank trainer, and [getClasses] does not
    stop after one request. *)
Lemma no_record_is_retried :
  deliversJson (serves (JArr [unnamed]) (dataPath CONFIG) 0) (JArr [unnamed]) /\
  List.filter recordShape [unnamed] = [] /\
  ~ (exists w', getClasses (serves (JArr [unnamed])) start = (Return [], w') /\
                noRetry start w').
Proof.
  split; [apply serves_delivers|]. split; [reflexivity|].
  refute_noRetry.
Qed.

(** C5, at an input where the code departs from it: of the two elements
    one has the Record shape and the other is an object with a member named
    [hasOwnProperty]; [isValidClass] throws on the latter, the loop retries
    three times, and [getClasses] returns the empty array. *)
Theorem getClasses_partial_shadowed :
  deliversJson (serves (JArr [yoga; stray]) (dataPath CONFIG) 0)
               (JArr [yoga; stray]) /\
  List.filter recordShape [yoga; stray] = [yoga] /\
  (getClasses (serves (JArr [yoga; stray])) start).1 = Return [] /\
  fetches (getClasses (serves (JArr [yoga; stray])) start).2 = 4 /\
  waits (getClasses (serves (JArr [yoga; stray])) start).2 =
    [1000; 2000; 4000]%Z.
Proof.
  split; [apply serves_delivers|]. repeat split; vm_compute; reflexivity.
Qed.

(** C8, as the code has it: when the first attempt gets, in time and as
    JSON, a non-empty array in which every element has the Record shape
    (and none has a member named [hasOwnProperty]), [getClasses] returns
    that array as it is, after one request and no wait. *)
Theorem getClasses_all_valid net w items :
  deliversJson (net (dataPath CONFIG) (fetches w)) (JArr items) ->
  items <> [] ->
  forallb recordShape items = true ->
  Forall (fun j => shadowsHasOwnProperty j = false) items ->
  exists w', getClasses net w = (Return items, w') /\ noRetry w w'.
Proof.
  intros Hd Hne Hall Hsafe.
  pose proof (filter_all recordShape items Hall) as Hfilter.
  destruct (getClasses_kept net w items Hd Hsafe) as (w' & Hg & Hn).
  - now rewrite Hfilter.
  - rewrite Hfilter in Hg. eauto.
Qed.

Lemma getClasses_all_valid_witness :
  deliversJson (serves (JArr [yoga; hiit]) (dataPath CONFIG) (fetches start))
               (JArr [yoga; hiit]) /\
  [yoga; hiit] <> [] /\
  forallb recordShape [yoga; hiit] = true /\
  Forall (fun j => shadowsHasOwnProperty j = false) [yoga; hiit] /\
  exists w', getClasses (serves (JArr [yoga; hiit])) start
             = (Return [yoga; hiit], w') /\ noRetry start w'.
Proof.
  assert (Hd : deliversJson (serves (JArr [yoga; hiit]) (dataPath CONFIG)
                                    (fetches start)) (JArr [yoga; hiit]))
    by apply serves_delivers.
  assert (Hne : [yoga; hiit] <> []) by discriminate.
  assert (Hall : forallb recordShape [yoga; hiit] = true) by reflexivity.
  assert (Hsafe : Forall (fun j => shadowsHasOwnProperty j = false) [yoga; hiit])
    by (repeat constructor).
  repeat split; try assumption.
  exact (getClasses_all_valid (serves (JArr [yoga; hiit])) start [yoga; hiit]
           Hd Hne Hall Hsafe).
Defined.

(** C8 as stated fails: the server answers every request in time with the
    empty array, in which every element has the Record shape, and
    [getClasses] does not stop after one request. *)
Lemma empty_array_is_retried :
  deliversJson (serves (JArr []) (dataPath CONFIG) 0) (JArr []) /\
  forallb recordShape [] = true /\
  ~ (exists w', getClasses (serves (JArr [])) start = (Return [], w') /\
                noRetry start w').
Proof.
  split; [apply serves_delivers|]. split; [reflexivity|].
  refute_noRetry.
Qed.

(** ** The collection filters *)

(** C9: each filter is the identity on the arguments that switch it off:
    [filterByType], [filterByLevel] and [filterByTrainer] return the input
    collection itself when the argument is absent, empty or ['all'], and
    [searchClasses] returns it when the query is absent, empty or white
    space only. *)
Theorem filters_identity toLowerCase (classes : list json) (arg query : value) :
  absentEmptyOrAll arg ->
  absentOrBlank query ->
  filterByType toLowerCase classes arg = Return classes /\
  filterByLevel toLowerCase classes arg = Return classes /\
  filterByTrainer toLowerCase classes arg = Return classes /\
  searchClasses toLowerCase classes query = Return classes.
Proof.
  intros Harg Hquery.
  assert (Hoff : negb (truthy arg) || strictEqualsString arg (lit "all") = true)
    by (destruct Harg as [->|[->|[->| ->]]]; reflexivity).
  unfold filterByType, filterByLevel, filterByTrainer. rewrite Hoff.
  repeat split. unfold searchClasses.
  destruct Hquery as [->|[->|(s & -> & Hs)]]; try reflexivity.
  simpl. destruct (streq s []); simpl; [reflexivity|].
  now rewrite trim_blank, Hs.
Qed.

Lemma filters_identity_witness :
  absentEmptyOrAll (Some (JStr (lit "all"))) /\
  absentOrBlank (Some (JStr (lit "  "))) /\
  filterByType (fun s => s) [yoga; hiit] (Some (JStr (lit "all")))
    = Return [yoga; hiit] /\
  filterByLevel (fun s => s) [yoga; hiit] (Some (JStr (lit "all")))
    = Return [yoga; hiit] /\
  filterByTrainer (fun s => s) [yoga; hiit] (Some (JStr (lit "all")))
    = Return [yoga; hiit] /\
  searchClasses (fun s => s) [yoga; hiit] (Some (JStr (lit "  ")))
    = Return [yoga; hiit].
Proof.
  assert (Harg : absentEmptyOrAll (Some (JStr (lit "all"))))
    by (right; right; right; reflexivity).
  assert (Hquery : absentOrBlank (Some (JStr (lit "  "))))
    by (right; right; exists (lit "  "); split; reflexivity).
  split; [exact Harg|]. split; [exact Hquery|].
  exact (filters_identity (fun s => s) [yoga; hiit] _ _ Harg Hquery).
Defined.

(** ** The recent-classes list *)

Module StorageFacts.
Import Js Storage StorageSpec.

Lemma available_run w :
  accepts (localStorage w) (lit "__storage_test__") (Raw (lit "test")) = true ->
  isLocalStorageAvailable w = (Return true, probed w).
Proof.
  intros H. unfold isLocalStorageAvailable.
  rewrite tryCatch_run, bind_run. unfold storageSetItem. rewrite H.
  reflexivity.
Qed.

Lemma probed_lookup w key :
  key <> lit "__storage_test__" ->
  items (localStorage (probed w)) !! key = items (localStorage w) !! key.
Proof.
  intros H. simpl.
  rewrite lookup_delete_ne by congruence.
  apply lookup_insert_ne. congruence.
Qed.

Lemma probed_works w : storageWorks w -> storageWorks (probed w).
Proof. intros H. exact H. Qed.

Lemma getItem_recent w prior :
  storageWorks w ->
  priorRecent w prior ->
  getItem (recentClasses STORAGE_KEYS) (JArr []) w = (Return (JArr prior), probed w).
Proof.
  intros [Hprobe _] Hprior. unfold getItem.
  rewrite bind_run, (available_run w Hprobe). cbn [negb].
  rewrite tryCatch_run, bind_run. unfold storageGetItem.
  rewrite probed_lookup by discriminate.
  destruct Hprior as [Hstored|[Hnone ->]].
  - unfold storedRecent in Hstored.
    destruct (items (localStorage w) !! recentClasses STORAGE_KEYS)
      as [[[| | | |l|]|]|]; try discriminate.
    injection Hstored as ->. reflexivity.
  - rewrite Hnone. reflexivity.
Qed.

Lemma setItem_recent w l :
  storageWorks w ->
  (setItem (recentClasses STORAGE_KEYS) (JArr l) w).1 = Return true /\
  storedRecent (setItem (recentClasses STORAGE_KEYS) (JArr l) w).2 = Some l.
Proof.
  intros [Hprobe Hlist]. unfold setItem.
  rewrite bind_run, (available_run w Hprobe). cbn [negb].
  rewrite tryCatch_run, bind_run. unfold storageSetItem.
  change (accepts (localStorage (probed w))) with (accepts (localStorage w)).
  rewrite Hlist. split; [reflexivity|].
  unfold storedRecent. simpl. now rewrite lookup_insert_eq.
Qed.

(** What a call does when the storage works: the stored list becomes the
    one built from the list that was there. *)
Lemma addRecentClass_run name prior w :
  name <> [] ->
  storageWorks w ->
  priorRecent w prior ->
  (addRecentClass (Some (JStr name)) w).1 = Return tt /\
  storedRecent (addRecentClass (Some (JStr name)) w).2 = Some (bumped name prior).
Proof.
  intros Hname Hworks Hprior. unfold addRecentClass.
  assert (Ht : truthy (Some (JStr name)) = true).
  { simpl. destruct name; [congruence|reflexivity]. }
  rewrite Ht. change (streq (typeof (Some (JStr name))) (lit "string")) with true.
  cbn [negb orb].
  rewrite bind_run, (getItem_recent w prior Hworks Hprior).
  rewrite bind_run. unfold liftC, withoutItem. rewrite bind_run.
  fold (bumped name prior).
  destruct (setItem_recent (probed w) (bumped name prior) (probed_works w Hworks))
    as [Hr Hs].
  destruct (setItem _ _ (probed w)) as [[b|e] w']; simpl in Hr, Hs;
    [|discriminate].
  split; [reflexivity|exact Hs].
Qed.

Lemma bumped_head name prior : bumped name prior !! 0 = Some (JStr name).
Proof. unfold bumped. simpl. destruct (_ <? _)%nat; reflexivity. Qed.

Lemma bumped_length name prior : length (bumped name prior) <= MAX_RECENT_ITEMS.
Proof.
  unfold bumped. cbv zeta.
  destruct (Nat.ltb_spec MAX_RECENT_ITEMS
              (length (JStr name ::
                 List.filter (fun item => negb (strictEqualsString (Some item) name))
                             prior))) as [H|H].
  - rewrite length_take. lia.
  - exact H.
Qed.

Lemma bumped_NoDup name prior : NoDup prior -> NoDup (bumped name prior).
Proof.
  intros Hprior.
  assert (Hfresh : NoDup (JStr name ::
            List.filter (fun item => negb (strictEqualsString (Some item) name))
                        prior)).
  { apply NoDup_cons. split.
    - intros Hin. apply list_elem_of_In, filter_In in Hin as [_ Hne].
      simpl in Hne. now rewrite streq_refl in Hne.
    - apply NoDup_ListNoDup, List.NoDup_filter, NoDup_ListNoDup, Hprior. }
  unfold bumped. cbv zeta. destruct (_ <? _)%nat; [|exact Hfresh].
  exact (sublist_NoDup _ _ Hfresh (sublist_take _ _)).
Qed.

(** An eleventh class pushes the oldest one out. *)
Example addRecentClass_sample :
  storedRecent
    (addRecentClass (Some (JStr (lit "k")))
       (holding ((fun c => JStr [c]) <$> lit "abcdefghij"))).2
  = Some ((fun c => JStr [c]) <$> lit "kabcdefghi").
Proof. vm_compute. reflexivity. Qed.

(** C10, as the code has it: for every non-empty string [className] and
    every prior recent-classes list, in a storage that takes the writes,
    the list stored after [addRecentClass(className)] has [className] as
    its first element and at most [MAX_RECENT_ITEMS] = 10 elements, and it
    has no duplicates when the prior list had none. *)
Theorem addRecentClass_recent name prior w :
  name <> [] ->
  storageWorks w ->
  priorRecent w prior ->
  exists new,
    (addRecentClass (Some (JStr name)) w).1 = Return tt /\
    storedRecent (addRecentClass (Some (JStr name)) w).2 = Some new /\
    new !! 0 = Some (JStr name) /\
    length new <= MAX_RECENT_ITEMS /\
    (NoDup prior -> NoDup new).
Proof.
  intros Hname Hworks Hprior.
  destruct (addRecentClass_run name prior w Hname Hworks Hprior) as [Hr Hs].
  exists (bumped name prior).
  split; [exact Hr|]. split; [exact Hs|].
  split; [apply bumped_head|]. split; [apply bumped_length|].
  apply bumped_NoDup.
Qed.

Lemma addRecentClass_recent_witness :
  lit "Yoga" <> [] /\
  storageWorks (holding [JStr (lit "HIIT"); JStr (lit "Yoga")]) /\
  priorRecent (holding [JStr (lit "HIIT"); JStr (lit "Yoga")])
              [JStr (lit "HIIT"); JStr (lit "Yoga")] /\
  exists new,
    (addRecentClass (Some (JStr (lit "Yoga")))
       (holding [JStr (lit "HIIT"); JStr (lit "Yoga")])).1 = Return tt /\
    storedRecent (addRecentClass (Some (JStr (lit "Yoga")))
       (holding [JStr (lit "HIIT"); JStr (lit "Yoga")])).2 = Some new /\
    new !! 0 = Some (JStr (lit "Yoga")) /\
    length new <= MAX_RECENT_ITEMS /\
    (NoDup [JStr (lit "HIIT"); JStr (lit "Yoga")] -> NoDup new).
Proof.
  assert (Hname : lit "Yoga" <> []) by discriminate.
  assert (Hworks : storageWorks (holding [JStr (lit "HIIT"); JStr (lit "Yoga")]))
    by (split; [reflexivity | intros l; reflexivity]).
  assert (Hprior : priorRecent (holding [JStr (lit "HIIT"); JStr (lit "Yoga")])
                               [JStr (lit "HIIT"); JStr (lit "Yoga")])
    by (left; vm_compute; reflexivity).
  split; [exact Hname|]. split; [exact Hworks|]. split; [exact Hprior|].
  exact (addRecentClass_recent (lit "Yoga") _ _ Hname Hworks Hprior).
Defined.

(** C10 as stated fails: with the list ["a", "a"] stored, the list stored
    after [addRecentClass("b")] is ["b", "a", "a"], which has a duplicate. *)
Lemma duplicates_survive :
  lit "b" <> [] /\
  storedRecent (holding [JStr (lit "a"); JStr (lit "a")])
    = Some [JStr (lit "a"); JStr (lit "a")] /\
  storedRecent (addRecentClass (Some (JStr (lit "b")))
                  (holding [JStr (lit "a"); JStr (lit "a")])).2
    = Some [JStr (lit "b"); JStr (lit "a"); JStr (lit "a")] /\
  ~ NoDup [JStr (lit "b"); JStr (lit "a"); JStr (lit "a")].
Proof.
  split; [discriminate|].
  split; [vm_compute; reflexivity|].
  split; [vm_compute; reflexivity|].
  intros H. apply NoDup_cons in H as [_ H]. apply NoDup_cons in H as [H _].
  apply H. left.
Qed.

End StorageFacts.

(** * Further properties of the loader *)

Import Vocabulary.

Lemma validateClasses_result j w1 w2 :
  (validateClasses j w1).1 = (validateClasses j w2).1.
Proof.
  unfold validateClasses. destruct j as [| | | |items|]; try reflexivity.
  rewrite !bind_run. unfold liftC.
  destruct (filterC isValidClass items) as [valid|]; [|reflexivity].
  destruct (length valid =? 0)%nat; [reflexivity|].
  rewrite !bind_run.
  destruct (length valid <? length items)%nat; reflexivity.
Qed.

(** The result of an attempt depends on the world only through the number
    of the request. *)
Lemma attempt_result net w1 w2 :
  fetches w1 = fetches w2 -> (attempt net w1).1 = (attempt net w2).1.
Proof.
  intros Hf. unfold attempt. rewrite !bind_run. unfold fetchWithTimeout.
  rewrite Hf.
  set (outcome := match net _ _ with Silent => _ | _ => _ end).
  destruct outcome as [response|e]; [|reflexivity].
  destruct (negb (ok response)); [reflexivity|].
  destruct (_ || _); [reflexivity|].
  rewrite !bind_run. unfold liftC.
  destruct (body response) as [data|]; [|reflexivity].
  apply validateClasses_result.
Qed.

Lemma validateClasses_throw_console j w e :
  (validateClasses j w).1 = Throw e -> console (validateClasses j w).2 = console w.
Proof.
  unfold validateClasses. destruct j as [| | | |items|]; try reflexivity.
  rewrite !bind_run. unfold liftC.
  destruct (filterC isValidClass items) as [valid|]; [|reflexivity].
  destruct (length valid =? 0)%nat; [reflexivity|].
  rewrite !bind_run.
  destruct (length valid <? length items)%nat; discriminate.
Qed.

(** A failed attempt writes nothing to the console. *)
Lemma attempt_throw_console net w e :
  (attempt net w).1 = Throw e -> console (attempt net w).2 = console w.
Proof.
  unfold attempt. rewrite !bind_run. unfold fetchWithTimeout.
  set (outcome := match net _ _ with Silent => _ | _ => _ end).
  destruct outcome as [response|e']; [|reflexivity].
  destruct (negb (ok response)); [reflexivity|].
  destruct (_ || _); [reflexivity|].
  rewrite !bind_run. unfold liftC.
  destruct (body response) as [data|]; [|reflexivity].
  intros H. now rewrite (validateClasses_throw_console _ _ _ H).
Qed.

(** When every attempt fails, the loop throws what the last attempt threw,
    and the console is as it was. *)
Lemma retry_last net retries : forall delay w,
  (forall w0, fetches w <= fetches w0 -> exists e, (attempt net w0).1 = Throw e) ->
  exists w_last,
    fetches w_last = fetches w + retries /\
    (retry (attempt net) retries delay w).1 = (attempt net w_last).1 /\
    console (retry (attempt net) retries delay w).2 = console w.
Proof.
  induction retries as [|n IH]; intros delay w Hfail; rewrite retry_run;
    destruct (Hfail w (le_n _)) as [e He];
    pose proof (attempt_throw_console net w e He) as Hc;
    destruct (attempt_world net w) as [Hf _];
    destruct (attempt net w) as [[data|e'] w1] eqn:Ha; simpl in He, Hf, Hc;
    try discriminate.
  - exists w. rewrite Ha. split; [lia|]. split; [reflexivity|exact Hc].
  - destruct (IH (delay * 2)%Z (sleep delay w1).2) as (wl & Hl & Hr & Hcl).
    { intros w0 Hw0. apply Hfail. simpl in Hw0. lia. }
    exists wl. split; [simpl in Hl; lia|]. split; [exact Hr|].
    rewrite Hcl. exact Hc.
Qed.

(** The loop returns the result of the first attempt that succeeds, after
    as many waits as attempts failed before it. *)
Lemma retry_until net k : forall retries delay w data,
  k <= retries ->
  (forall w0, fetches w <= fetches w0 < fetches w + k ->
              exists e, (attempt net w0).1 = Throw e) ->
  (forall w0, fetches w0 = fetches w + k -> (attempt net w0).1 = Return data) ->
  (retry (attempt net) retries delay w).1 = Return data /\
  fetches (retry (attempt net) retries delay w).2 = fetches w + S k /\
  waits (retry (attempt net) retries delay w).2 = waits w ++ doubling delay k.
Proof.
  induction k as [|k IH]; intros retries delay w data Hk Hfail Hok.
  - rewrite (retry_first net retries delay w data) by (apply Hok; lia).
    destruct (attempt_world net w) as [Hf Hw]. simpl.
    rewrite app_nil_r. repeat split; [lia|exact Hw].
  - destruct retries as [|n]; [lia|]. rewrite retry_run.
    destruct (Hfail w ltac:(lia)) as [e He].
    destruct (attempt_world net w) as [Hf Hw].
    destruct (attempt net w) as [[a|e'] w1]; simpl in He, Hf, Hw;
      [discriminate|].
    destruct (IH n (delay * 2)%Z (sleep delay w1).2 data) as (Hr & Hf' & Hw').
    + lia.
    + intros w0 Hw0. apply Hfail. simpl in Hw0. lia.
    + intros w0 Hw0. apply Hok. simpl in Hw0. lia.
    + split; [exact Hr|]. split; [rewrite Hf'; simpl; lia|].
      rewrite Hw', doubling_S. simpl. now rewrite Hw, <- app_assoc.
Qed.

Lemma doubling_config k :
  k <= maxRetries CONFIG ->
  doubling (retryDelay CONFIG) k = take k [1000; 2000; 4000]%Z.
Proof.
  intros Hk. simpl in Hk.
  destruct k as [|[|[|[|k]]]]; try reflexivity. lia.
Qed.

(** X1: [isValidClass] returns [true] exactly on the objects of Record
    shape that have no member named [hasOwnProperty], and it throws exactly
    on the objects that have such a member; on everything else ([null],
    arrays, numbers, strings, incomplete objects) it returns [false]. *)
Theorem isValidClass_decides j :
  (isValidClass j = Return true <->
   recordShape j = true /\ shadowsHasOwnProperty j = false) /\
  ((exists e, isValidClass j = Throw e) <-> shadowsHasOwnProperty j = true) /\
  (isValidClass j = Return false <->
   recordShape j = false /\ shadowsHasOwnProperty j = false).
Proof.
  rewrite isValidClass_spec.
  destruct (shadowsHasOwnProperty j), (recordShape j); repeat split;
    try (intros [? ?]); try intros ?; try discriminate; eauto.
Qed.

(** X2: what [validateClasses] returns is never empty, and it is exactly
    the sequence of the elements of Record shape of the array it was given,
    in their order. *)
Theorem validateClasses_exact j w kept :
  (validateClasses j w).1 = Return kept ->
  exists items, j = JArr items /\
    kept = List.filter recordShape items /\ kept <> [].
Proof.
  unfold validateClasses. destruct j as [| | | |items|]; try discriminate.
  rewrite bind_run. unfold liftC.
  destruct (filterC isValidClass items) as [valid|] eqn:Hf; [|discriminate].
  destruct (length valid =? 0)%nat eqn:Hlen; [discriminate|].
  rewrite bind_run. intros H.
  assert (valid = kept) as <-
    by (destruct (length valid <? length items)%nat; simpl in H; congruence).
  exists items. split; [reflexivity|]. split.
  - clear Hlen H. revert valid Hf.
    induction items as [|x l IH]; simpl; intros valid Hf.
    + now injection Hf as <-.
    + rewrite isValidClass_spec in Hf.
      destruct (shadowsHasOwnProperty x); [discriminate|]. simpl in Hf.
      destruct (filterC isValidClass l) as [rest|]; [|discriminate].
      simpl in Hf. injection Hf as <-. rewrite <- (IH rest eq_refl).
      destruct (recordShape x); reflexivity.
  - intros ->. discriminate.
Qed.

Lemma validateClasses_exact_witness :
  (validateClasses (JArr [yoga; unnamed; hiit]) start).1 = Return [yoga; hiit] /\
  exists items, JArr [yoga; unnamed; hiit] = JArr items /\
    [yoga; hiit] = List.filter recordShape items /\ [yoga; hiit] <> [].
Proof.
  assert (H : (validateClasses (JArr [yoga; unnamed; hiit]) start).1
              = Return [yoga; hiit]) by (vm_compute; reflexivity).
  split; [exact H|].
  exact (validateClasses_exact _ _ _ H).
Defined.

(** X3: [getClasses] never issues more than [1 + maxRetries] = 4 requests
    and never waits for more than 1000, 2000 and 4000 ms: after [k + 1]
    requests, [k] at most 3, it has waited the first [k] of these. *)
Theorem getClasses_bounded net w :
  exists k, k <= maxRetries CONFIG /\
    fetches (getClasses net w).2 = fetches w + 1 + k /\
    waits (getClasses net w).2 = waits w ++ take k [1000; 2000; 4000]%Z.
Proof.
  destruct (retry_trace net (maxRetries CONFIG) (retryDelay CONFIG) w)
    as (k & Hk & Hf & Hw & _).
  destruct (getClasses_outcome net w) as (w' & Hg & Hf' & Hw').
  rewrite Hg. simpl fst; simpl snd.
  exists k. split; [exact Hk|]. split.
  - change ((Return
      match (retry (attempt net) (maxRetries CONFIG) (retryDelay CONFIG) w).1 with
      | Return data => data | Throw _ => [] end, w').2) with w'.
    rewrite Hf', Hf. lia.
  - change ((Return
      match (retry (attempt net) (maxRetries CONFIG) (retryDelay CONFIG) w).1 with
      | Return data => data | Throw _ => [] end, w').2) with w'.
    rewrite Hw', Hw, doubling_config by exact Hk. reflexivity.
Qed.

Import MoreSamples.

(** X4: when the first [k] requests time out or are answered outside
    200-299 ([k] at most [maxRetries]) and the next one delivers a list
    that keeps some element, [getClasses] returns the elements of Record
    shape of that list, after [k + 1] requests and the first [k] of the
    waits 1000, 2000, 4000 ms. *)
Theorem getClasses_recovers net w k items :
  k <= maxRetries CONFIG ->
  (forall i, i < k ->
     timesOut (net (dataPath CONFIG) (fetches w + i)) \/
     answersNon2xx (net (dataPath CONFIG) (fetches w + i))) ->
  deliversJson (net (dataPath CONFIG) (fetches w + k)) (JArr items) ->
  Forall (fun j => shadowsHasOwnProperty j = false) items ->
  List.filter recordShape items <> [] ->
  exists w', getClasses net w = (Return (List.filter recordShape items), w') /\
    fetches w' = fetches w + 1 + k /\
    waits w' = waits w ++ take k [1000; 2000; 4000]%Z.
Proof.
  intros Hk Hfail Hd Hsafe Hsome.
  destruct (retry_until net k (maxRetries CONFIG) (retryDelay CONFIG) w
              (List.filter recordShape items) Hk) as (Hr & Hf & Hw).
  - intros w0 Hw0.
    assert (Hi : fetches w0 = fetches w + (fetches w0 - fetches w)) by lia.
    destruct (Hfail (fetches w0 - fetches w)) as [Ht|Hs]; [lia| |];
      rewrite <- Hi in *.
    + eexists. apply attempt_timesOut, Ht.
    + destruct (attempt_non2xx net w0 Hs) as (e & He & _). eauto.
  - intros w0 Hw0. rewrite <- Hw0 in Hd.
    rewrite (attempt_delivers net w0 _ Hd).
    apply validateClasses_kept; assumption.
  - destruct (getClasses_outcome net w) as (w' & Hg & Hf' & Hw').
    rewrite Hr in Hg. exists w'. split; [exact Hg|]. split.
    + rewrite Hf', Hf. lia.
    + rewrite Hw', Hw, doubling_config by exact Hk. reflexivity.
Qed.

Lemma getClasses_recovers_witness :
  exists w', getClasses flaky start
             = (Return (List.filter recordShape [yoga; unnamed; hiit]), w') /\
    fetches w' = fetches start + 1 + 2 /\
    waits w' = waits start ++ take 2 [1000; 2000; 4000]%Z.
Proof.
  apply (getClasses_recovers flaky start 2 [yoga; unnamed; hiit]).
  - simpl. lia.
  - intros [|[|i]] Hi; [left; exact I| |lia].
    right. exists 20%Z. eexists. split; [reflexivity|].
    split; [reflexivity|]. right. reflexivity.
  - apply serves_delivers.
  - repeat constructor.
  - discriminate.
Defined.

(** What [getClasses] writes to the console after the loop: nothing when
    it returned, and two lines when it threw. *)
Lemma getClasses_console net w :
  console (getClasses net w).2 =
  console (retry (attempt net) (maxRetries CONFIG) (retryDelay CONFIG) w).2 ++
  match (retry (attempt net) (maxRetries CONFIG) (retryDelay CONFIG) w).1 with
  | Return _ => []
  | Throw e =>
      [ConsoleError (lit "Error fetching classes:") (Some e);
       ConsoleError
         (if streq (name e) (lit "AbortError")
          then lit "Request timeout: The server took too long to respond"
          else if includes (message e) (lit "HTTP error")
          then lit "Server error: Unable to fetch data"
          else if includes (message e) (lit "JSON")
          then lit "Data format error: Invalid JSON received"
          else lit "Network error: Please check your connection") None]
  end.
Proof.
  unfold getClasses. rewrite tryCatch_run, bind_run.
  destruct (retry (attempt net) (maxRetries CONFIG) (retryDelay CONFIG) w)
    as [[data|e] w1]; simpl.
  - now rewrite app_nil_r.
  - rewrite !bind_run. simpl.
    destruct (streq (name e) (lit "AbortError")); simpl;
      [now rewrite <- app_assoc|].
    destruct (includes (message e) (lit "HTTP error")); simpl;
      [now rewrite <- app_assoc|].
    destruct (includes (message e) (lit "JSON")); simpl;
      now rewrite <- app_assoc.
Qed.

(** When every attempt fails and the last one throws [e], the console gets
    the two lines for [e]. *)
Lemma getClasses_reports net w :
  (forall w0, fetches w <= fetches w0 -> exists e, (attempt net w0).1 = Throw e) ->
  exists w_last e,
    fetches w_last = fetches w + maxRetries CONFIG /\
    (attempt net w_last).1 = Throw e /\
    console (getClasses net w).2 =
    console w ++
      [ConsoleError (lit "Error fetching classes:") (Some e);
       ConsoleError
         (if streq (name e) (lit "AbortError")
          then lit "Request timeout: The server took too long to respond"
          else if includes (message e) (lit "HTTP error")
          then lit "Server error: Unable to fetch data"
          else if includes (message e) (lit "JSON")
          then lit "Data format error: Invalid JSON received"
          else lit "Network error: Please check your connection") None].
Proof.
  intros Hfail.
  destruct (retry_last net (maxRetries CONFIG) (retryDelay CONFIG) w Hfail)
    as (w_last & Hl & Hr & Hc).
  destruct (Hfail w_last ltac:(lia)) as [e He].
  exists w_last, e. split; [exact Hl|]. split; [exact He|].
  rewrite getClasses_console, Hc, Hr, He. reflexivity.
Qed.

(** X5: when every request times out, [getClasses] reports the abort and
    the line "Request timeout: The server took too long to respond", and
    nothing else. *)
Theorem getClasses_reports_timeout net w :
  (forall i, timesOut (net (dataPath CONFIG) i)) ->
  console (getClasses net w).2 =
  console w ++
    [ConsoleError (lit "Error fetching classes:") (Some AbortError);
     ConsoleError
       (lit "Request timeout: The server took too long to respond") None].
Proof.
  intros H.
  destruct (getClasses_reports net w) as (wl & e & _ & He & Hc).
  - intros w0 _. eexists. apply attempt_timesOut, H.
  - rewrite (attempt_timesOut net wl (H _)) in He. injection He as <-.
    exact Hc.
Qed.

Lemma getClasses_reports_timeout_witness :
  (forall i, timesOut (silent (dataPath CONFIG) i)) /\
  console (getClasses silent start).2 =
  console start ++
    [ConsoleError (lit "Error fetching classes:") (Some AbortError);
     ConsoleError
       (lit "Request timeout: The server took too long to respond") None].
Proof.
  assert (H : forall i, timesOut (silent (dataPath CONFIG) i))
    by (intros i; exact I).
  split; [exact H|].
  exact (getClasses_reports_timeout silent start H).
Defined.

(** X6: when every request is answered outside 200-299, [getClasses]
    reports the error of the last attempt, "HTTP error! status: " followed
    by the status of the fourth response, and the line "Server error:
    Unable to fetch data". *)
Theorem getClasses_reports_status net w :
  (forall i, answersNon2xx (net (dataPath CONFIG) i)) ->
  exists after r,
    net (dataPath CONFIG) (fetches w + maxRetries CONFIG) = Responds after r /\
    console (getClasses net w).2 =
    console w ++
      [ConsoleError (lit "Error fetching classes:")
         (Some (Error (lit "HTTP error! status: " ++ decimal (status r))));
       ConsoleError (lit "Server error: Unable to fetch data") None].
Proof.
  intros H.
  destruct (getClasses_reports net w) as (wl & e & Hl & He & Hc).
  - intros w0 _. destruct (attempt_non2xx net w0 (H _)) as (e & He & _). eauto.
  - destruct (H (fetches wl)) as (after & r & Hx & Hafter & Hstatus).
    exists after, r. rewrite <- Hl. split; [exact Hx|].
    assert (He' : (attempt net wl).1 =
              Throw (Error (lit "HTTP error! status: " ++ decimal (status r)))).
    { unfold attempt. rewrite bind_run. unfold fetchWithTimeout. rewrite Hx.
      destruct (Z.ltb_spec after (timeout CONFIG)); [|lia].
      assert (Hok : ok r = false).
      { unfold ok. apply andb_false_iff.
        destruct Hstatus; [left; apply N.leb_gt | right; apply N.leb_gt];
          assumption. }
      now rewrite Hok. }
    rewrite He' in He. injection He as <-. exact Hc.
Qed.

Lemma getClasses_reports_status_witness :
  (forall i, answersNon2xx (unavailable (dataPath CONFIG) i)) /\
  exists after r,
    unavailable (dataPath CONFIG) (fetches start + maxRetries CONFIG)
      = Responds after r /\
    console (getClasses unavailable start).2 =
    console start ++
      [ConsoleError (lit "Error fetching classes:")
         (Some (Error (lit "HTTP error! status: " ++ decimal (status r))));
       ConsoleError (lit "Server error: Unable to fetch data") None].
Proof.
  assert (H : forall i, answersNon2xx (unavailable (dataPath CONFIG) i)).
  { intros i. exists 20%Z. eexists. split; [reflexivity|].
    split; [reflexivity|]. right. reflexivity. }
  split; [exact H|].
  exact (getClasses_reports_status unavailable start H).
Defined.

Lemma filterC_isValidClass_throw items e :
  filterC isValidClass items = Throw e ->
  e = TypeError (lit "hasOwnProperty is not a function").
Proof.
  induction items as [|x l IH]; simpl; [discriminate|].
  rewrite isValidClass_spec.
  destruct (shadowsHasOwnProperty x); simpl; [congruence|].
  destruct (filterC isValidClass l); simpl; [discriminate|].
  intros [= <-]. now apply IH.
Qed.

(** The errors of validation are none of the kinds the report knows. *)
Lemma validateClasses_throw_kind j w e :
  (validateClasses j w).1 = Throw e ->
  streq (name e) (lit "AbortError") = false /\
  includes (message e) (lit "HTTP error") = false /\
  includes (message e) (lit "JSON") = false.
Proof.
  unfold validateClasses.
  destruct j as [| | | |items|];
    try (intros [= <-]; repeat split; vm_compute; reflexivity).
  rewrite bind_run. unfold liftC.
  destruct (filterC isValidClass items) as [valid|e'] eqn:Hf.
  - destruct (length valid =? 0)%nat.
    + intros [= <-]. repeat split; vm_compute; reflexivity.
    + rewrite bind_run.
      destruct (length valid <? length items)%nat; discriminate.
  - apply filterC_isValidClass_throw in Hf. subst e'.
    intros [= <-]. repeat split; vm_compute; reflexivity.
Qed.

Lemma validateClasses_unusable j w :
  unusable j -> exists e, (validateClasses j w).1 = Throw e.
Proof.
  destruct j as [| | | |items|]; intros H;
    try (eexists; apply validateClasses_not_array; discriminate).
  destruct (validateClasses_none items w H) as (e & He & _). eauto.
Qed.

(** X7: when every request is answered in time with a JSON document that
    has nothing to load (it is not an array, or none of its elements has
    the Record shape), [getClasses] reports it as "Network error: Please
    check your connection". *)
Theorem getClasses_reports_data_as_network net w :
  (forall i, exists j, deliversJson (net (dataPath CONFIG) i) j /\ unusable j) ->
  exists e,
    console (getClasses net w).2 =
    console w ++
      [ConsoleError (lit "Error fetching classes:") (Some e);
       ConsoleError (lit "Network error: Please check your connection") None].
Proof.
  intros H.
  destruct (getClasses_reports net w) as (wl & e & _ & He & Hc).
  - intros w0 _. destruct (H (fetches w0)) as (j & Hd & Hu).
    rewrite (attempt_delivers net w0 j Hd). apply validateClasses_unusable, Hu.
  - exists e. destruct (H (fetches wl)) as (j & Hd & _).
    rewrite (attempt_delivers net wl j Hd) in He.
    destruct (validateClasses_throw_kind _ _ _ He) as (Hn & Hh & Hj).
    now rewrite Hn, Hh, Hj in Hc.
Qed.

Lemma getClasses_reports_data_as_network_witness :
  (forall i, exists j,
      deliversJson (serves (JArr [unnamed]) (dataPath CONFIG) i) j /\ unusable j) /\
  exists e,
    console (getClasses (serves (JArr [unnamed])) start).2 =
    console start ++
      [ConsoleError (lit "Error fetching classes:") (Some e);
       ConsoleError (lit "Network error: Please check your connection") None].
Proof.
  assert (H : forall i, exists j,
             deliversJson (serves (JArr [unnamed]) (dataPath CONFIG) i) j /\
             unusable j).
  { intros i. exists (JArr [unnamed]). split; [apply serves_delivers|].
    repeat constructor. }
  split; [exact H|].
  exact (getClasses_reports_data_as_network (serves (JArr [unnamed])) start H).
Defined.

Lemma attempt_notJson net w :
  answersNotJson (net (dataPath CONFIG) (fetches w)) ->
  (attempt net w).1 = Throw (Error (lit "Invalid content type: expected JSON")).
Proof.
  intros (after & r & Hx & Hafter & Hok & Hct).
  unfold attempt. rewrite bind_run. unfold fetchWithTimeout. rewrite Hx.
  destruct (Z.ltb_spec after (timeout CONFIG)); [|lia].
  rewrite Hok. simpl.
  destruct Hct as [-> | (ct & -> & Hinc)]; [reflexivity|].
  simpl. rewrite Hinc. now rewrite orb_true_r.
Qed.

(** X8: when every request is answered in time with a 2xx status but not
    declared as JSON, [getClasses] reports "Invalid content type: expected
    JSON" and the line "Data format error: Invalid JSON received". *)
Theorem getClasses_reports_content_type net w :
  (forall i, answersNotJson (net (dataPath CONFIG) i)) ->
  console (getClasses net w).2 =
  console w ++
    [ConsoleError (lit "Error fetching classes:")
       (Some (Error (lit "Invalid content type: expected JSON")));
     ConsoleError (lit "Data format error: Invalid JSON received") None].
Proof.
  intros H.
  destruct (getClasses_reports net w) as (wl & e & _ & He & Hc).
  - intros w0 _. eexists. apply attempt_notJson, H.
  - rewrite (attempt_notJson net wl (H _)) in He. injection He as <-.
    exact Hc.
Qed.

Lemma getClasses_reports_content_type_witness :
  (forall i, answersNotJson (servesHtml (dataPath CONFIG) i)) /\
  console (getClasses servesHtml start).2 =
  console start ++
    [ConsoleError (lit "Error fetching classes:")
       (Some (Error (lit "Invalid content type: expected JSON")));
     ConsoleError (lit "Data format error: Invalid JSON received") None].
Proof.
  assert (H : forall i, answersNotJson (servesHtml (dataPath CONFIG) i)).
  { intros i. exists 20%Z. eexists. split; [reflexivity|].
    split; [reflexivity|]. split; [reflexivity|].
    right. eexists. split; reflexivity. }
  split; [exact H|].
  exact (getClasses_reports_content_type servesHtml start H).
Defined.

Lemma validateClasses_kept_console items w :
  Forall (fun j => shadowsHasOwnProperty j = false) items ->
  List.filter recordShape items <> [] ->
  console (validateClasses (JArr items) w).2 =
  console w ++
    if (length (List.filter recordShape items) <? length items)%nat
    then [ConsoleWarn
            (decimal (N.of_nat (length items
                                - length (List.filter recordShape items)))
             ++ lit " invalid classes were filtered out") None]
    else [].
Proof.
  intros Hsafe Hsome. unfold validateClasses. rewrite bind_run. unfold liftC.
  rewrite (filterC_pure isValidClass recordShape).
  - destruct (List.filter recordShape items) as [|x kept]; [congruence|].
    change (length (x :: kept) =? 0)%nat with false. cbv iota.
    rewrite bind_run.
    destruct (length (x :: kept) <? length items)%nat; simpl;
      [reflexivity|now rewrite app_nil_r].
  - intros j Hj. rewrite isValidClass_spec.
    rewrite Forall_forall in Hsafe. rewrite Hsafe; [reflexivity|].
    apply list_elem_of_In. exact Hj.
Qed.

(** X9: when the first attempt delivers a list that keeps some element,
    [getClasses] warns once, with the number of elements it dropped, when
    it dropped any, and writes nothing to the console when it dropped
    none. *)
Theorem getClasses_warns_dropped net w items :
  deliversJson (net (dataPath CONFIG) (fetches w)) (JArr items) ->
  Forall (fun j => shadowsHasOwnProperty j = false) items ->
  List.filter recordShape items <> [] ->
  console (getClasses net w).2 =
  console w ++
    if (length (List.filter recordShape items) <? length items)%nat
    then [ConsoleWarn
            (decimal (N.of_nat (length items
                                - length (List.filter recordShape items)))
             ++ lit " invalid classes were filtered out") None]
    else [].
Proof.
  intros Hd Hsafe Hsome.
  pose proof (attempt_delivers net w _ Hd) as Ha.
  pose proof (validateClasses_kept items (issue w) Hsafe Hsome) as Hv.
  rewrite <- Ha in Hv.
  rewrite getClasses_console,
    (retry_first net (maxRetries CONFIG) (retryDelay CONFIG) w _ Hv).
  simpl fst; simpl snd. rewrite app_nil_r, Ha.
  exact (validateClasses_kept_console items (issue w) Hsafe Hsome).
Qed.

Lemma getClasses_warns_dropped_witness :
  console (getClasses (serves (JArr [yoga; unnamed; hiit])) start).2 =
  console start ++
    [ConsoleWarn (lit "1 invalid classes were filtered out") None].
Proof.
  apply (getClasses_warns_dropped (serves (JArr [yoga; unnamed; hiit])) start
           [yoga; unnamed; hiit]).
  - apply serves_delivers.
  - repeat constructor.
  - discriminate.
Defined.

(** * Further properties of the filters *)

Lemma recordShape_text c key :
  recordShape c = true -> In key requiredFields ->
  exists s, ownProperty c key = Some (JStr s).
Proof.
  destruct c as [| | | | |members]; try discriminate.
  unfold recordShape. rewrite forallb_forall. intros H Hk.
  specialize (H key Hk). simpl.
  destruct (lookupMember key members) as [[| | |s| |]|]; try discriminate.
  eauto.
Qed.

Lemma ownProperty_not_null c key s :
  ownProperty c key = Some s -> getProp (Some c) key = Return (Some s).
Proof. destruct c; simpl; intros H; try discriminate; now rewrite ?H. Qed.

Lemma sameIgnoringCase_text tl key a c s :
  ownProperty c key = Some (JStr s) ->
  sameIgnoringCase tl key (Some (JStr a)) c
  = Return (streq (tl (textOf key c)) (tl a)).
Proof.
  intros H. unfold sameIgnoringCase, textOf.
  rewrite (ownProperty_not_null _ _ _ H), H. reflexivity.
Qed.

Lemma sameIgnoringCase_returns tl key a c b :
  sameIgnoringCase tl key (Some (JStr a)) c = Return b ->
  exists s, ownProperty c key = Some (JStr s).
Proof.
  unfold sameIgnoringCase.
  destruct c as [|x|q|s|items|members]; simpl; try discriminate;
    match goal with
    | |- context [callToLowerCase tl ?v] =>
        destruct v as [[| | |t| |]|] eqn:Hv; simpl; try discriminate; eauto
    end.
Qed.

Lemma filterC_returns {A} (p : A -> completion bool) l :
  (exists r, filterC p l = Return r) <->
  Forall (fun x => exists b, p x = Return b) l.
Proof.
  induction l as [|x l IH]; simpl.
  - split; [constructor|eauto].
  - split.
    + intros [r Hr]. destruct (p x) as [b|] eqn:Hp; simpl in Hr; [|discriminate].
      destruct (filterC p l) as [rest|]; simpl in Hr; [|discriminate].
      constructor; [eauto|]. apply IH. eauto.
    + intros H. apply Forall_cons in H as [[b Hb] Hl].
      apply IH in Hl as [rest Hrest]. rewrite Hb, Hrest. simpl. eauto.
Qed.

(** A filter that is switched on, on classes that all have a text under
    its key. *)
Lemma filterC_sameIgnoringCase tl key a classes :
  Forall (fun c => exists s, ownProperty c key = Some (JStr s)) classes ->
  filterC (sameIgnoringCase tl key (Some (JStr a))) classes
  = Return (List.filter (fun c => streq (tl (textOf key c)) (tl a)) classes).
Proof.
  intros H. apply filterC_pure. intros c Hc.
  rewrite Forall_forall in H.
  destruct (H c) as [s Hs]; [now apply list_elem_of_In|].
  eapply sameIgnoringCase_text, Hs.
Qed.

Lemma recordShape_texts classes key :
  forallb recordShape classes = true -> In key requiredFields ->
  Forall (fun c => exists s, ownProperty c key = Some (JStr s)) classes.
Proof.
  rewrite forallb_forall. intros H Hk. apply Forall_forall. intros c Hc.
  apply recordShape_text; [|exact Hk]. apply H. now apply list_elem_of_In.
Qed.

Lemma active_filter a :
  a <> [] -> a <> lit "all" ->
  negb (truthy (Some (JStr a))) || strictEqualsString (Some (JStr a)) (lit "all")
  = false.
Proof.
  intros Hne Hall. simpl.
  destruct (streq a []) eqn:E1; [apply streq_true in E1; congruence|].
  destruct (streq a (lit "all")) eqn:E2; [apply streq_true in E2; congruence|].
  reflexivity.
Qed.

(** X10: on a collection of classes of Record shape, as [getClasses]
    returns them, a filter with a text argument other than [''] and
    ['all'] never throws and returns, in their order, exactly the classes
    whose type (level, trainer) is the argument up to letter case. *)
Theorem filters_select toLowerCase classes a :
  forallb recordShape classes = true ->
  a <> [] -> a <> lit "all" ->
  filterByType toLowerCase classes (Some (JStr a))
  = Return (List.filter
      (fun c => streq (toLowerCase (textOf (lit "type") c)) (toLowerCase a))
      classes) /\
  filterByLevel toLowerCase classes (Some (JStr a))
  = Return (List.filter
      (fun c => streq (toLowerCase (textOf (lit "level") c)) (toLowerCase a))
      classes) /\
  filterByTrainer toLowerCase classes (Some (JStr a))
  = Return (List.filter
      (fun c => streq (toLowerCase (textOf (lit "trainer") c)) (toLowerCase a))
      classes).
Proof.
  intros Hshape Hne Hall.
  unfold filterByType, filterByLevel, filterByTrainer.
  rewrite (active_filter a Hne Hall).
  repeat split; apply filterC_sameIgnoringCase, recordShape_texts;
    try exact Hshape; simpl; tauto.
Qed.

Lemma filters_select_witness :
  filterByType (fun s => s) [yoga; hiit] (Some (JStr (lit "Yoga")))
  = Return (List.filter
      (fun c => streq (textOf (lit "type") c) (lit "Yoga")) [yoga; hiit]) /\
  filterByLevel (fun s => s) [yoga; hiit] (Some (JStr (lit "Yoga")))
  = Return (List.filter
      (fun c => streq (textOf (lit "level") c) (lit "Yoga")) [yoga; hiit]) /\
  filterByTrainer (fun s => s) [yoga; hiit] (Some (JStr (lit "Yoga")))
  = Return (List.filter
      (fun c => streq (textOf (lit "trainer") c) (lit "Yoga")) [yoga; hiit]).
Proof.
  apply (filters_select (fun s => s) [yoga; hiit] (lit "Yoga"));
    [reflexivity|discriminate|discriminate].
Defined.

(** X11: a filter that is switched on returns only when every element of
    the collection has a text under its key; on any other collection
    (a class without the key, or with a number under it, a [null] element)
    it throws instead of skipping the element. *)
Theorem filters_return_iff toLowerCase classes a :
  a <> [] -> a <> lit "all" ->
  ((exists r, filterByType toLowerCase classes (Some (JStr a)) = Return r) <->
   Forall (fun c => exists s, ownProperty c (lit "type") = Some (JStr s)) classes) /\
  ((exists r, filterByLevel toLowerCase classes (Some (JStr a)) = Return r) <->
   Forall (fun c => exists s, ownProperty c (lit "level") = Some (JStr s)) classes) /\
  ((exists r, filterByTrainer toLowerCase classes (Some (JStr a)) = Return r) <->
   Forall (fun c => exists s, ownProperty c (lit "trainer") = Some (JStr s)) classes).
Proof.
  intros Hne Hall.
  unfold filterByType, filterByLevel, filterByTrainer.
  rewrite (active_filter a Hne Hall).
  repeat split.
  all: try (intros H; apply filterC_returns in H;
            eapply Forall_impl; [exact H|];
            intros c [b Hb]; eapply sameIgnoringCase_returns, Hb).
  all: intros H; rewrite (filterC_sameIgnoringCase _ _ _ _ H); eauto.
Qed.

Lemma filters_return_iff_witness :
  ((exists r, filterByType (fun s => s) [yoga; JObj []] (Some (JStr (lit "Yoga")))
              = Return r) <->
   Forall (fun c => exists s, ownProperty c (lit "type") = Some (JStr s))
          [yoga; JObj []]) /\
  ((exists r, filterByLevel (fun s => s) [yoga; JObj []] (Some (JStr (lit "Yoga")))
              = Return r) <->
   Forall (fun c => exists s, ownProperty c (lit "level") = Some (JStr s))
          [yoga; JObj []]) /\
  ((exists r, filterByTrainer (fun s => s) [yoga; JObj []] (Some (JStr (lit "Yoga")))
              = Return r) <->
   Forall (fun c => exists s, ownProperty c (lit "trainer") = Some (JStr s))
          [yoga; JObj []]).
Proof.
  apply (filters_return_iff (fun s => s) [yoga; JObj []] (lit "Yoga"));
    discriminate.
Defined.

(** A class without a type makes the filter throw. *)
Example filterByType_missing_sample :
  filterByType (fun s => s) [yoga; JObj []] (Some (JStr (lit "Yoga")))
  = Throw (TypeError (lit "Cannot read properties of undefined or null")).
Proof. vm_compute. reflexivity. Qed.

Lemma filter_true {A} (l : list A) (f : A -> bool) :
  (forall x, f x = true) -> List.filter f l = l.
Proof.
  intros H. apply filter_all. apply forallb_forall. intros x _. apply H.
Qed.

Lemma filter_filter_comm {A} (f g : A -> bool) l :
  List.filter f (List.filter g l) = List.filter g (List.filter f l).
Proof.
  induction l as [|x l IH]; simpl; [reflexivity|].
  destruct (f x) eqn:Hf, (g x) eqn:Hg; simpl; rewrite ?Hf, ?Hg, IH; reflexivity.
Qed.

Lemma filter_filter_same {A} (f : A -> bool) l :
  List.filter f (List.filter f l) = List.filter f l.
Proof.
  induction l as [|x l IH]; simpl; [reflexivity|].
  destruct (f x) eqn:Hf; simpl; rewrite ?Hf, IH; reflexivity.
Qed.

Lemma forallb_filter {A} (q f : A -> bool) l :
  forallb q l = true -> forallb q (List.filter f l) = true.
Proof.
  rewrite !forallb_forall. intros H x Hx. apply H.
  apply filter_In in Hx. tauto.
Qed.

(** A filter on classes of Record shape, switched on or off by a text. *)
Lemma filterBy_shape tl key a classes :
  In key requiredFields ->
  forallb recordShape classes = true ->
  (if negb (truthy (Some (JStr a))) || strictEqualsString (Some (JStr a)) (lit "all")
   then Return classes
   else filterC (sameIgnoringCase tl key (Some (JStr a))) classes)
  = Return (List.filter
      (fun c => (negb (truthy (Some (JStr a)))
                 || strictEqualsString (Some (JStr a)) (lit "all"))
                || streq (tl (textOf key c)) (tl a)) classes).
Proof.
  intros Hk Hshape.
  destruct (negb (truthy (Some (JStr a)))
            || strictEqualsString (Some (JStr a)) (lit "all")).
  - now rewrite filter_true.
  - apply filterC_sameIgnoringCase, recordShape_texts; assumption.
Qed.

(** X12: on a collection of classes of Record shape and for any text
    arguments, the filters by type, level and trainer can be applied in
    either order with the same result, and applying one twice is applying
    it once. *)
Theorem filters_commute toLowerCase classes a b :
  forallb recordShape classes = true ->
  (filterByType toLowerCase classes (Some (JStr a))
     ≫= fun cs => filterByLevel toLowerCase cs (Some (JStr b)))
  = (filterByLevel toLowerCase classes (Some (JStr b))
     ≫= fun cs => filterByType toLowerCase cs (Some (JStr a))) /\
  (filterByType toLowerCase classes (Some (JStr a))
     ≫= fun cs => filterByTrainer toLowerCase cs (Some (JStr b)))
  = (filterByTrainer toLowerCase classes (Some (JStr b))
     ≫= fun cs => filterByType toLowerCase cs (Some (JStr a))) /\
  (filterByLevel toLowerCase classes (Some (JStr a))
     ≫= fun cs => filterByTrainer toLowerCase cs (Some (JStr b)))
  = (filterByTrainer toLowerCase classes (Some (JStr b))
     ≫= fun cs => filterByLevel toLowerCase cs (Some (JStr a))) /\
  (filterByType toLowerCase classes (Some (JStr a))
     ≫= fun cs => filterByType toLowerCase cs (Some (JStr a)))
  = filterByType toLowerCase classes (Some (JStr a)).
Proof.
  intros Hshape.
  assert (Ht : In (lit "type") requiredFields) by (simpl; tauto).
  assert (Hl : In (lit "level") requiredFields) by (simpl; tauto).
  assert (Hr : In (lit "trainer") requiredFields) by (simpl; tauto).
  unfold filterByType, filterByLevel, filterByTrainer.
  repeat split.
  all: rewrite !(filterBy_shape toLowerCase _ _ classes) by assumption;
       cbn [mbind completion_bind];
       rewrite !filterBy_shape by (try assumption; now apply forallb_filter).
  - f_equal. apply filter_filter_comm.
  - f_equal. apply filter_filter_comm.
  - f_equal. apply filter_filter_comm.
  - f_equal. apply filter_filter_same.
Qed.

Lemma filters_commute_witness :
  (filterByType (fun s => s) [yoga; hiit] (Some (JStr (lit "Yoga")))
     ≫= fun cs => filterByLevel (fun s => s) cs (Some (JStr (lit "Beginner"))))
  = (filterByLevel (fun s => s) [yoga; hiit] (Some (JStr (lit "Beginner")))
     ≫= fun cs => filterByType (fun s => s) cs (Some (JStr (lit "Yoga")))) /\
  (filterByType (fun s => s) [yoga; hiit] (Some (JStr (lit "Yoga")))
     ≫= fun cs => filterByTrainer (fun s => s) cs (Some (JStr (lit "Beginner"))))
  = (filterByTrainer (fun s => s) [yoga; hiit] (Some (JStr (lit "Beginner")))
     ≫= fun cs => filterByType (fun s => s) cs (Some (JStr (lit "Yoga")))) /\
  (filterByLevel (fun s => s) [yoga; hiit] (Some (JStr (lit "Yoga")))
     ≫= fun cs => filterByTrainer (fun s => s) cs (Some (JStr (lit "Beginner"))))
  = (filterByTrainer (fun s => s) [yoga; hiit] (Some (JStr (lit "Beginner")))
     ≫= fun cs => filterByLevel (fun s => s) cs (Some (JStr (lit "Yoga")))) /\
  (filterByType (fun s => s) [yoga; hiit] (Some (JStr (lit "Yoga")))
     ≫= fun cs => filterByType (fun s => s) cs (Some (JStr (lit "Yoga"))))
  = filterByType (fun s => s) [yoga; hiit] (Some (JStr (lit "Yoga"))).
Proof.
  apply (filters_commute (fun s => s) [yoga; hiit] (lit "Yoga") (lit "Beginner")).
  reflexivity.
Defined.

Lemma fieldIncludes_text tl key term c s :
  ownProperty c key = Some (JStr s) ->
  fieldIncludes tl key term c = Return (includes (tl (textOf key c)) term).
Proof.
  intros H. unfold fieldIncludes, textOf.
  rewrite (ownProperty_not_null _ _ _ H), H. reflexivity.
Qed.

(** X13: on a collection of classes of Record shape, [searchClasses] with
    a query that is not blank never throws and returns, in their order,
    exactly the classes whose name, type or trainer, in lower case,
    contains the query in lower case with the white space around it
    removed; duration and level are not searched. *)
Theorem searchClasses_selects toLowerCase classes q :
  forallb recordShape classes = true ->
  whitespaceOnly q = false ->
  searchClasses toLowerCase classes (Some (JStr q))
  = Return (List.filter
      (fun c =>
         includes (toLowerCase (textOf (lit "name") c)) (trim (toLowerCase q))
         || includes (toLowerCase (textOf (lit "type") c)) (trim (toLowerCase q))
         || includes (toLowerCase (textOf (lit "trainer") c)) (trim (toLowerCase q)))
      classes).
Proof.
  intros Hshape Hq. unfold searchClasses.
  assert (Hne : streq q [] = false).
  { destruct q; [discriminate|reflexivity]. }
  simpl truthy. rewrite Hne. cbn [negb].
  cbn [callTrim mbind completion_bind]. rewrite trim_blank, Hq.
  cbn [callToLowerCase]. apply filterC_pure. intros c Hc.
  assert (Hrec : recordShape c = true).
  { rewrite forallb_forall in Hshape. now apply Hshape. }
  destruct (recordShape_text c (lit "name") Hrec) as [n Hn]; [simpl; tauto|].
  destruct (recordShape_text c (lit "type") Hrec) as [t Ht]; [simpl; tauto|].
  destruct (recordShape_text c (lit "trainer") Hrec) as [r Hr]; [simpl; tauto|].
  rewrite (fieldIncludes_text _ _ _ _ _ Hn). cbn [mbind completion_bind].
  destruct (includes (toLowerCase (textOf (lit "name") c)) _); [reflexivity|].
  rewrite (fieldIncludes_text _ _ _ _ _ Ht). cbn [mbind completion_bind].
  destruct (includes (toLowerCase (textOf (lit "type") c)) _); [reflexivity|].
  rewrite (fieldIncludes_text _ _ _ _ _ Hr). reflexivity.
Qed.

Lemma searchClasses_selects_witness :
  searchClasses (fun s => s) [yoga; hiit] (Some (JStr (lit " Luis ")))
  = Return (List.filter
      (fun c =>
         includes (textOf (lit "name") c) (trim (lit " Luis "))
         || includes (textOf (lit "type") c) (trim (lit " Luis "))
         || includes (textOf (lit "trainer") c) (trim (lit " Luis ")))
      [yoga; hiit]).
Proof.
  apply (searchClasses_selects (fun s => s) [yoga; hiit] (lit " Luis "));
    reflexivity.
Defined.

(** X14: with a truthy argument that is not a string (a number, [true], an
    array, an object), [searchClasses] throws a [TypeError] whatever the
    collection, also the empty one; [filterByType], [filterByLevel] and
    [filterByTrainer] return the empty collection as it is and throw on
    every other collection. *)
Theorem filters_non_string toLowerCase classes v :
  truthyNonString v ->
  classes <> [] ->
  (exists e, searchClasses toLowerCase [] v = Throw e) /\
  (exists e, searchClasses toLowerCase classes v = Throw e) /\
  filterByType toLowerCase [] v = Return [] /\
  filterByLevel toLowerCase [] v = Return [] /\
  filterByTrainer toLowerCase [] v = Return [] /\
  (exists e, filterByType toLowerCase classes v = Throw e) /\
  (exists e, filterByLevel toLowerCase classes v = Throw e) /\
  (exists e, filterByTrainer toLowerCase classes v = Throw e).
Proof.
  intros [Ht Hs] Hne.
  assert (Hall : strictEqualsString v (lit "all") = false).
  { destruct v as [[| | |s| |]|]; try reflexivity. now destruct (Hs s). }
  assert (Hlow : exists e, callToLowerCase toLowerCase v = Throw e).
  { destruct v as [[| | |s| |]|]; simpl; eauto. now destruct (Hs s). }
  assert (Htrim : exists e, callTrim v = Throw e).
  { destruct v as [[| | |s| |]|]; simpl; eauto. now destruct (Hs s). }
  assert (Hsame : forall key c,
            exists e, sameIgnoringCase toLowerCase key v c = Throw e).
  { intros key c. unfold sameIgnoringCase.
    destruct (getProp (Some c) key) as [field|]; simpl; [|eauto].
    destruct (callToLowerCase toLowerCase field); simpl; [|eauto].
    destruct Hlow as [e ->]. simpl. eauto. }
  unfold searchClasses, filterByType, filterByLevel, filterByTrainer.
  rewrite Ht, Hall. cbn [negb orb].
  destruct Htrim as [e ->]. cbn [mbind completion_bind].
  destruct classes as [|c classes]; [congruence|].
  repeat split; eauto; simpl;
    match goal with
    | |- context [sameIgnoringCase toLowerCase ?key v c] =>
        destruct (Hsame key c) as [e' ->]; simpl; eauto
    end.
Qed.

Lemma filters_non_string_witness :
  (exists e, searchClasses (fun s => s) [] (Some (JBool true)) = Throw e) /\
  (exists e, searchClasses (fun s => s) [yoga] (Some (JBool true)) = Throw e) /\
  filterByType (fun s => s) [] (Some (JBool true)) = Return [] /\
  filterByLevel (fun s => s) [] (Some (JBool true)) = Return [] /\
  filterByTrainer (fun s => s) [] (Some (JBool true)) = Return [] /\
  (exists e, filterByType (fun s => s) [yoga] (Some (JBool true)) = Throw e) /\
  (exists e, filterByLevel (fun s => s) [yoga] (Some (JBool true)) = Throw e) /\
  (exists e, filterByTrainer (fun s => s) [yoga] (Some (JBool true)) = Throw e).
Proof.
  apply (filters_non_string (fun s => s) [yoga] (Some (JBool true))).
  - split; [reflexivity|discriminate].
  - discriminate.
Defined.

(** * Properties of the summaries *)

Import Collections.

Lemma strlt_irrefl a : strlt a a = false.
Proof.
  induction a as [|x a IH]; simpl; [reflexivity|].
  now rewrite N.ltb_irrefl, N.eqb_refl, IH.
Qed.

Lemma strlt_trans a b c :
  strlt a b = true -> strlt b c = true -> strlt a c = true.
Proof.
  revert b c. induction a as [|x a IH]; intros [|y b] [|z c]; simpl;
    try easy.
  intros H1 H2.
  apply orb_true_iff in H1 as [H1|[H1 H1']%andb_true_iff];
    apply orb_true_iff in H2 as [H2|[H2 H2']%andb_true_iff];
    try apply N.ltb_lt in H1; try apply N.ltb_lt in H2;
    try apply N.eqb_eq in H1; try apply N.eqb_eq in H2; subst;
    apply orb_true_iff.
  - left. apply N.ltb_lt. lia.
  - left. now apply N.ltb_lt.
  - left. now apply N.ltb_lt.
  - right. rewrite N.eqb_refl. simpl. eapply IH; eassumption.
Qed.

(** Two texts neither of which is before the other are the same text. *)
Lemma strlt_total a b :
  strlt a b = false -> strlt b a = false -> a = b.
Proof.
  revert b. induction a as [|x a IH]; intros [|y b]; simpl; try easy.
  intros H1 H2.
  apply orb_false_iff in H1 as [H1 H1'].
  apply orb_false_iff in H2 as [H2 H2'].
  apply N.ltb_ge in H1, H2. assert (x = y) as -> by lia.
  rewrite N.eqb_refl in H1', H2'. simpl in H1', H2'.
  f_equal. now apply IH.
Qed.

(** ** [map], [Set] and [sort] on texts *)

Lemma mapC_texts key classes :
  Forall (fun c => exists s, ownProperty c key = Some (JStr s)) classes ->
  mapC (fun classData => getProp (Some classData) key) classes
  = Return ((fun c => Some (JStr (textOf key c))) <$> classes).
Proof.
  induction 1 as [|c l [s Hs] _ IH]; cbn [mapC]; [reflexivity|].
  rewrite (ownProperty_not_null _ _ _ Hs), IH. cbn [mbind completion_bind].
  rewrite fmap_cons.
  assert (textOf key c = s) as -> by (unfold textOf; now rewrite Hs).
  reflexivity.
Qed.

Lemma existsb_sameValueZero x (seen : list jsstring) :
  existsb (sameValueZero (Some (JStr x))) ((fun s => Some (JStr s)) <$> seen)
  = bool_decide (x ∈ seen).
Proof.
  induction seen as [|y seen IH].
  - rewrite bool_decide_eq_false_2 by apply not_elem_of_nil. reflexivity.
  - rewrite fmap_cons. cbn [existsb sameValueZero]. rewrite IH.
    destruct (streq x y) eqn:E.
    + apply streq_true in E. subst. cbn [orb].
      rewrite bool_decide_eq_true_2 by left. reflexivity.
    + cbn [orb]. apply bool_decide_ext. rewrite elem_of_cons. split; [auto|].
      intros [->|H]; [|exact H]. now rewrite streq_refl in E.
Qed.

Lemma spreadSet_texts (l : list jsstring) : forall seen,
  NoDup seen ->
  exists d,
    fold_left
      (fun seen x => if existsb (sameValueZero x) seen then seen else seen ++ [x])
      ((fun s => Some (JStr s)) <$> l) ((fun s => Some (JStr s)) <$> seen)
    = (fun s => Some (JStr s)) <$> d /\
    NoDup d /\ forall s, s ∈ d <-> s ∈ seen \/ s ∈ l.
Proof.
  induction l as [|x l IH]; intros seen Hseen; simpl.
  - exists seen. split; [reflexivity|]. split; [exact Hseen|].
    intros s. rewrite elem_of_nil. tauto.
  - rewrite existsb_sameValueZero. case_bool_decide as Hx.
    + destruct (IH seen Hseen) as (d & Hd & Hnd & Hin).
      exists d. split; [exact Hd|]. split; [exact Hnd|].
      intros s. rewrite Hin, elem_of_cons. split; [tauto|].
      intros [H|[->|H]]; auto.
    + destruct (IH (seen ++ [x])) as (d & Hd & Hnd & Hin).
      { apply NoDup_app. split; [exact Hseen|]. split.
        - intros y Hy ->%list_elem_of_singleton. contradiction.
        - apply NoDup_singleton. }
      exists d. rewrite fmap_app in Hd. split; [exact Hd|].
      split; [exact Hnd|].
      intros s. rewrite Hin, elem_of_app, !elem_of_cons, elem_of_nil.
      tauto.
Qed.

Section Sorting.
Variable toStringOther : json -> jsstring.

Lemma insertSorted_texts x (l : list jsstring) :
  StronglySorted (fun a b => strlt a b = true) l ->
  x ∉ l ->
  exists t,
    insertSorted toStringOther (Some (JStr x)) ((fun s => Some (JStr s)) <$> l)
    = (fun s => Some (JStr s)) <$> t /\
    StronglySorted (fun a b => strlt a b = true) t /\
    forall s, s ∈ t <-> s = x \/ s ∈ l.
Proof.
  induction 1 as [|y l Hl IH Hy]; intros Hx;
    rewrite ?fmap_cons; cbn [insertSorted sortsBefore toString].
  - exists [x]. split; [reflexivity|]. split.
    + repeat constructor.
    + intros s. rewrite list_elem_of_singleton, elem_of_nil. tauto.
  - apply not_elem_of_cons in Hx as [Hxy Hxl].
    destruct (strlt y x) eqn:Hlt.
    + destruct (IH Hxl) as (t & Ht & Hs & Hin).
      exists (y :: t). rewrite Ht, fmap_cons. split; [reflexivity|]. split.
      * constructor; [exact Hs|]. apply Forall_forall. intros s Hs'.
        apply Hin in Hs' as [->|Hs']; [exact Hlt|].
        rewrite Forall_forall in Hy. now apply Hy.
      * intros s. rewrite !elem_of_cons, Hin. tauto.
    + assert (Hxy' : strlt x y = true).
      { destruct (strlt x y) eqn:E; [reflexivity|].
        destruct Hxy. now apply strlt_total. }
      exists (x :: y :: l). split; [reflexivity|]. split.
      * constructor; [now constructor|]. constructor; [exact Hxy'|].
        rewrite Forall_forall in Hy |- *. intros s Hs.
        eapply strlt_trans; [exact Hxy'|]. now apply Hy.
      * intros s. rewrite !elem_of_cons. tauto.
Qed.

Lemma sort_texts (l : list jsstring) :
  NoDup l ->
  exists t,
    sort toStringOther ((fun s => Some (JStr s)) <$> l)
    = (fun s => Some (JStr s)) <$> t /\
    StronglySorted (fun a b => strlt a b = true) t /\
    forall s, s ∈ t <-> s ∈ l.
Proof.
  induction 1 as [|x l Hx Hl IH]; rewrite ?fmap_cons; cbn [sort].
  - exists []. split; [reflexivity|]. split; [constructor|tauto].
  - destruct IH as (t & Ht & Hs & Hin). rewrite Ht.
    destruct (insertSorted_texts x t Hs) as (t' & Ht' & Hs' & Hin').
    { now rewrite Hin. }
    exists t'. split; [exact Ht'|]. split; [exact Hs'|].
    intros s. rewrite Hin', Hin, elem_of_cons. tauto.
Qed.

(** The unique texts under a key, for classes that all have one. *)
Lemma unique_texts key classes :
  Forall (fun c => exists s, ownProperty c key = Some (JStr s)) classes ->
  exists ts,
    (types ← mapC (fun classData => getProp (Some classData) key) classes;
     Return (sort toStringOther (spreadSet types)))
    = Return ((fun s => Some (JStr s)) <$> ts) /\
    StronglySorted (fun a b => strlt a b = true) ts /\
    forall s, s ∈ ts <-> exists c, c ∈ classes /\ textOf key c = s.
Proof.
  intros H. rewrite (mapC_texts key classes H). cbn [mbind completion_bind].
  assert (E : (fun c => Some (JStr (textOf key c))) <$> classes
              = (fun s => Some (JStr s)) <$> (textOf key <$> classes))
    by (rewrite <- list_fmap_compose; reflexivity).
  rewrite E.
  destruct (spreadSet_texts (textOf key <$> classes) [] (NoDup_nil_2))
    as (d & Hd & Hnd & Hin).
  unfold spreadSet.
  change ((fun s => Some (JStr s)) <$> []) with (@nil value) in Hd.
  rewrite Hd.
  destruct (sort_texts d Hnd) as (t & Ht & Hs & Hin').
  exists t. split; [now rewrite Ht|]. split; [exact Hs|].
  intros s. rewrite Hin', Hin, elem_of_nil, list_elem_of_fmap.
  split.
  - intros [[]|(c & -> & Hc)]. eauto.
  - intros (c & Hc & <-). right. eauto.
Qed.

(** X15: on a collection of classes of Record shape, [getUniqueTypes] and
    [getUniqueTrainers] never throw and return texts only: each type
    (trainer) that occurs in the collection exactly once, in ascending
    order of the code units. *)
Theorem getUnique_sorted classes :
  forallb recordShape classes = true ->
  (exists ts,
     getUniqueTypes toStringOther classes
     = Return ((fun s => Some (JStr s)) <$> ts) /\
     StronglySorted (fun a b => strlt a b = true) ts /\
     forall s, s ∈ ts <-> exists c, c ∈ classes /\ textOf (lit "type") c = s) /\
  (exists ts,
     getUniqueTrainers toStringOther classes
     = Return ((fun s => Some (JStr s)) <$> ts) /\
     StronglySorted (fun a b => strlt a b = true) ts /\
     forall s, s ∈ ts <-> exists c, c ∈ classes /\ textOf (lit "trainer") c = s).
Proof.
  intros Hshape. split; apply unique_texts, recordShape_texts;
    try exact Hshape; simpl; tauto.
Qed.

End Sorting.

Lemma getUnique_sorted_witness :
  (exists ts,
     getUniqueTypes (fun _ => []) [yoga; hiit; yoga]
     = Return ((fun s => Some (JStr s)) <$> ts) /\
     StronglySorted (fun a b => strlt a b = true) ts /\
     forall s, s ∈ ts <->
       exists c, c ∈ [yoga; hiit; yoga] /\ textOf (lit "type") c = s) /\
  (exists ts,
     getUniqueTrainers (fun _ => []) [yoga; hiit; yoga]
     = Return ((fun s => Some (JStr s)) <$> ts) /\
     StronglySorted (fun a b => strlt a b = true) ts /\
     forall s, s ∈ ts <->
       exists c, c ∈ [yoga; hiit; yoga] /\ textOf (lit "trainer") c = s).
Proof.
  apply (getUnique_sorted (fun _ => []) [yoga; hiit; yoga]). reflexivity.
Defined.

Example getUniqueTypes_sample :
  getUniqueTypes (fun _ => []) [yoga; hiit; yoga; unnamed]
  = Return [Some (JStr (lit "Cardio")); Some (JStr (lit "Yoga"))].
Proof. vm_compute. reflexivity. Qed.

(** ** Counting *)

Section Counting.
Variable toStringOther : json -> jsstring.
Variable functionText : jsstring -> jsstring.

Lemma bump_other acc key t :
  key <> t -> bump functionText acc key !! t = acc !! t.
Proof.
  intros Hne. unfold bump.
  destruct (acc !! key) as [[n|s]|].
  - now rewrite lookup_insert_ne.
  - destruct (streq s []); now rewrite lookup_insert_ne.
  - destruct (streq key (lit "__proto__")); [reflexivity|].
    destruct (existsb (streq key) objectPrototypeKeys);
      now rewrite lookup_insert_ne.
Qed.

Lemma ordinary_not_proto t :
  existsb (streq t) objectPrototypeKeys = false ->
  streq t (lit "__proto__") = false.
Proof.
  intros H. destruct (streq t (lit "__proto__")) eqn:E; [|reflexivity].
  apply streq_true in E. subst t. discriminate.
Qed.

Lemma countBy_cons key c rest acc s :
  ownProperty c key = Some (JStr s) ->
  countBy toStringOther functionText key (c :: rest) acc
  = countBy toStringOther functionText key rest (bump functionText acc s).
Proof.
  intros H. cbn [countBy]. now rewrite (ownProperty_not_null _ _ _ H).
Qed.

Lemma countBy_returns key classes : forall acc,
  Forall (fun c => exists s, ownProperty c key = Some (JStr s)) classes ->
  exists m, countBy toStringOther functionText key classes acc = Return m.
Proof.
  induction classes as [|c rest IH]; intros acc H.
  - simpl. eauto.
  - apply Forall_cons in H as [[s Hs] Hrest].
    rewrite (countBy_cons _ _ _ _ _ Hs). now apply IH.
Qed.

(** Under a name that [Object.prototype] does not define, the counter
    adds one for each class with that text. *)
Lemma countBy_ordinary key t classes : forall acc m,
  Forall (fun c => exists s, ownProperty c key = Some (JStr s)) classes ->
  existsb (streq t) objectPrototypeKeys = false ->
  (acc !! t = None \/ exists k, acc !! t = Some (Count k)) ->
  countBy toStringOther functionText key classes acc = Return m ->
  m !! t =
  if (length (List.filter (fun c => streq (textOf key c) t) classes) =? 0)%nat
  then acc !! t
  else Some (Count
         (match acc !! t with Some (Count k) => k | _ => 0 end
          + N.of_nat (length (List.filter (fun c => streq (textOf key c) t)
                                          classes)))).
Proof.
  induction classes as [|c rest IH]; intros acc m H Ht Hacc Hm.
  - simpl in Hm. injection Hm as <-. reflexivity.
  - apply Forall_cons in H as [[s Hs] Hrest].
    rewrite (countBy_cons _ _ _ _ _ Hs) in Hm.
    assert (Hc : textOf key c = s) by (unfold textOf; now rewrite Hs).
    cbn [List.filter]. rewrite Hc. clear Hc.
    destruct (streq s t) eqn:E.
    + apply streq_true in E. subst s.
      assert (Hb : bump functionText acc t !! t
                   = Some (Count (match acc !! t with
                                  | Some (Count k) => k | _ => 0 end + 1))).
      { unfold bump. destruct Hacc as [Hn|[k Hk]].
        - rewrite Hn, (ordinary_not_proto t Ht), Ht.
          now rewrite lookup_insert_eq.
        - rewrite Hk. now rewrite lookup_insert_eq. }
      rewrite (IH _ m Hrest Ht (or_intror (ex_intro _ _ Hb)) Hm), Hb.
      cbn [length Nat.eqb].
      destruct (length _ =? 0)%nat eqn:En.
      * apply Nat.eqb_eq in En. rewrite En. reflexivity.
      * do 2 f_equal. lia.
    + assert (Hne : s <> t).
      { intros ->. now rewrite streq_refl in E. }
      pose proof Hacc as Hacc'. rewrite <- (bump_other acc s t Hne) in Hacc'.
      rewrite (IH _ m Hrest Ht Hacc' Hm).
      now rewrite (bump_other _ _ _ Hne).
Qed.

(** X16: on a collection of classes of Record shape, the counting
    functions never throw, and under every name that [Object.prototype]
    does not define they hold the number of classes with that trainer
    (type), and nothing when there is none. *)
Theorem counts_are_counts classes :
  forallb recordShape classes = true ->
  exists byTrainer byType,
    getClassCountByTrainer toStringOther functionText classes = Return byTrainer /\
    getClassCountByType toStringOther functionText classes = Return byType /\
    forall t,
      existsb (streq t) objectPrototypeKeys = false ->
      byTrainer !! t =
        (if (length (List.filter
               (fun c => streq (textOf (lit "trainer") c) t) classes) =? 0)%nat
         then None
         else Some (Count (N.of_nat (length (List.filter
               (fun c => streq (textOf (lit "trainer") c) t) classes))))) /\
      byType !! t =
        (if (length (List.filter
               (fun c => streq (textOf (lit "type") c) t) classes) =? 0)%nat
         then None
         else Some (Count (N.of_nat (length (List.filter
               (fun c => streq (textOf (lit "type") c) t) classes))))).
Proof.
  intros Hshape.
  assert (Hr : Forall (fun c => exists s, ownProperty c (lit "trainer") = Some (JStr s))
                      classes)
    by (apply recordShape_texts; [exact Hshape|simpl; tauto]).
  assert (Hy : Forall (fun c => exists s, ownProperty c (lit "type") = Some (JStr s))
                      classes)
    by (apply recordShape_texts; [exact Hshape|simpl; tauto]).
  unfold getClassCountByTrainer, getClassCountByType.
  destruct (countBy_returns (lit "trainer") classes ∅ Hr) as [m1 H1].
  destruct (countBy_returns (lit "type") classes ∅ Hy) as [m2 H2].
  exists m1, m2. split; [exact H1|]. split; [exact H2|].
  intros t Ht. split.
  - rewrite (countBy_ordinary _ t classes ∅ m1 Hr Ht
               (or_introl (lookup_empty t)) H1), lookup_empty.
    reflexivity.
  - rewrite (countBy_ordinary _ t classes ∅ m2 Hy Ht
               (or_introl (lookup_empty t)) H2), lookup_empty.
    reflexivity.
Qed.




End Counting.

Lemma counts_are_counts_witness :
  exists byTrainer byType,
    getClassCountByTrainer (fun _ => []) (fun _ => []) [yoga; hiit; yoga]
      = Return byTrainer /\
    getClassCountByType (fun _ => []) (fun _ => []) [yoga; hiit; yoga]
      = Return byType /\
    forall t,
      existsb (streq t) objectPrototypeKeys = false ->
      byTrainer !! t =
        (if (length (List.filter
               (fun c => streq (textOf (lit "trainer") c) t)
               [yoga; hiit; yoga]) =? 0)%nat
         then None
         else Some (Count (N.of_nat (length (List.filter
               (fun c => streq (textOf (lit "trainer") c) t)
               [yoga; hiit; yoga]))))) /\
      byType !! t =
        (if (length (List.filter
               (fun c => streq (textOf (lit "type") c) t)
               [yoga; hiit; yoga]) =? 0)%nat
         then None
         else Some (Count (N.of_nat (length (List.filter
               (fun c => streq (textOf (lit "type") c) t)
               [yoga; hiit; yoga]))))).
Proof.
  apply (counts_are_counts (fun _ => []) (fun _ => []) [yoga; hiit; yoga]).
  reflexivity.
Defined.


Example counts_rogue_sample :
  (m ← getClassCountByTrainer (fun _ => []) (fun k => lit "function " ++ k)
         [rogue; yoga; rogue];
   Return (m !! lit "constructor", m !! lit "Ana"))
  = Return (Some (Text (lit "function constructor11")), Some (Count 1)).
Proof. vm_compute. reflexivity. Qed.

(** * Further properties of the storage *)

Module PersistenceFacts.
Import Js Storage StorageSpec Persistence PersistenceSpec.

Lemma agree_refl w : agree w w.
Proof. split; auto. Qed.

Lemma agree_trans w1 w2 w3 : agree w1 w2 -> agree w2 w3 -> agree w1 w3.
Proof.
  intros [Ha Hh] [Ha' Hh']. split; [congruence|].
  intros k Hk. rewrite Hh', Hh by exact Hk. reflexivity.
Qed.

Lemma agree_probeWorks w w' : agree w w' -> probeWorks w -> probeWorks w'.
Proof. intros [Ha _]. unfold probeWorks. now rewrite Ha. Qed.

Lemma agree_probed w : agree w (probed w).
Proof.
  split; [reflexivity|]. intros k Hk. unfold held. simpl.
  rewrite lookup_delete_ne by (unfold probeKey in Hk; congruence).
  apply lookup_insert_ne. unfold probeKey in Hk. congruence.
Qed.

Lemma agree_log w e : agree w (log e w).2.
Proof. split; reflexivity. Qed.

Lemma updated_agree w1 w2 w3 key s :
  agree w1 w2 -> updated w2 w3 key s -> updated w1 w3 key s.
Proof.
  intros [Ha Hh] (Ha' & Hk & Ho). split; [congruence|]. split; [exact Hk|].
  intros k Hp Hne. rewrite Ho, Hh by assumption. reflexivity.
Qed.

Lemma updated_then_agree w1 w2 w3 key s :
  key <> probeKey -> updated w1 w2 key s -> agree w2 w3 -> updated w1 w3 key s.
Proof.
  intros Hkey (Ha & Hk & Ho) [Ha' Hh]. split; [congruence|].
  split; [rewrite Hh by exact Hkey; exact Hk|].
  intros k Hp Hne. rewrite Hh, Ho by assumption. reflexivity.
Qed.

Lemma unavailable_run w :
  ~ probeWorks w ->
  (isLocalStorageAvailable w).1 = Return false /\
  localStorage (isLocalStorageAvailable w).2 = localStorage w.
Proof.
  intros H. unfold isLocalStorageAvailable.
  rewrite tryCatch_run, bind_run. unfold storageSetItem.
  unfold probeWorks, probeKey in H.
  destruct (accepts (localStorage w) (lit "__storage_test__") (Raw (lit "test")));
    [contradiction|split; reflexivity].
Qed.

Lemma available_run' w :
  probeWorks w -> isLocalStorageAvailable w = (Return true, probed w).
Proof. apply StorageFacts.available_run. Qed.

(** [getItem] returns the JSON value held under the key, and the default
    value when there is none. *)
Lemma getItem_spec key d w :
  probeWorks w -> key <> probeKey ->
  (getItem key d w).1
  = Return (match held w key with Some (Serialized j) => j | _ => d end) /\
  agree w (getItem key d w).2.
Proof.
  intros Hp Hkey. unfold getItem.
  rewrite bind_run, (available_run' w Hp). cbn [negb].
  rewrite tryCatch_run, bind_run. unfold storageGetItem.
  destruct (agree_probed w) as [_ Hh]. specialize (Hh key Hkey).
  unfold held in *. rewrite Hh.
  destruct (items (localStorage w) !! key) as [[j|text]|]; simpl.
  - split; [reflexivity|apply agree_probed].
  - split; [reflexivity|].
    eapply agree_trans; [apply agree_probed|]. split; reflexivity.
  - split; [reflexivity|apply agree_probed].
Qed.

Lemma getItem_unavailable key d w :
  ~ probeWorks w ->
  (getItem key d w).1 = Return d /\
  localStorage (getItem key d w).2 = localStorage w.
Proof.
  intros Hp. unfold getItem. rewrite bind_run.
  destruct (unavailable_run w Hp) as [Hr Hl].
  destruct (isLocalStorageAvailable w) as [[b|e] w1]; simpl in Hr, Hl;
    [|discriminate].
  injection Hr as ->. simpl. split; [reflexivity|exact Hl].
Qed.

Lemma setItem_spec key v w :
  probeWorks w -> accepts (localStorage w) key (Serialized v) = true ->
  key <> probeKey ->
  (setItem key v w).1 = Return true /\
  updated w (setItem key v w).2 key (Some (Serialized v)).
Proof.
  intros Hp Ha Hkey. unfold setItem.
  rewrite bind_run, (available_run' w Hp). cbn [negb].
  rewrite tryCatch_run, bind_run. unfold storageSetItem.
  change (accepts (localStorage (probed w))) with (accepts (localStorage w)).
  rewrite Ha. simpl. split; [reflexivity|].
  split; [reflexivity|]. split.
  - unfold held. simpl. now rewrite lookup_insert_eq.
  - intros k Hk Hne. unfold held. simpl.
    rewrite lookup_insert_ne by congruence.
    rewrite lookup_delete_ne by (unfold probeKey in Hk; congruence).
    apply lookup_insert_ne. unfold probeKey in Hk. congruence.
Qed.

Lemma setItem_unavailable key v w :
  ~ probeWorks w ->
  (setItem key v w).1 = Return false /\
  localStorage (setItem key v w).2 = localStorage w.
Proof.
  intros Hp. unfold setItem. rewrite bind_run.
  destruct (unavailable_run w Hp) as [Hr Hl].
  destruct (isLocalStorageAvailable w) as [[b|e] w1]; simpl in Hr, Hl;
    [|discriminate].
  injection Hr as ->. simpl. split; [reflexivity|exact Hl].
Qed.

Lemma removeItem_spec key w :
  probeWorks w -> key <> probeKey ->
  (removeItem key w).1 = Return true /\
  updated w (removeItem key w).2 key None.
Proof.
  intros Hp Hkey. unfold removeItem.
  rewrite bind_run, (available_run' w Hp). cbn [negb].
  rewrite tryCatch_run, bind_run. unfold storageRemoveItem. simpl.
  split; [reflexivity|]. split; [reflexivity|]. split.
  - unfold held. simpl. now rewrite lookup_delete_eq.
  - intros k Hk Hne. unfold held. simpl.
    rewrite lookup_delete_ne by congruence.
    rewrite lookup_delete_ne by (unfold probeKey in Hk; congruence).
    apply lookup_insert_ne. unfold probeKey in Hk. congruence.
Qed.

Lemma removeItem_unavailable key w :
  ~ probeWorks w ->
  (removeItem key w).1 = Return false /\
  localStorage (removeItem key w).2 = localStorage w.
Proof.
  intros Hp. unfold removeItem. rewrite bind_run.
  destruct (unavailable_run w Hp) as [Hr Hl].
  destruct (isLocalStorageAvailable w) as [[b|e] w1]; simpl in Hr, Hl;
    [|discriminate].
  injection Hr as ->. simpl. split; [reflexivity|exact Hl].
Qed.

Lemma keys_not_probe :
  preferredTraining STORAGE_KEYS <> probeKey /\
  userPreferences STORAGE_KEYS <> probeKey /\
  recentClasses STORAGE_KEYS <> probeKey.
Proof. repeat split; discriminate. Qed.

Lemma keys_distinct :
  preferredTraining STORAGE_KEYS <> userPreferences STORAGE_KEYS /\
  preferredTraining STORAGE_KEYS <> recentClasses STORAGE_KEYS /\
  userPreferences STORAGE_KEYS <> recentClasses STORAGE_KEYS.
Proof. repeat split; discriminate. Qed.

Lemma priorRecent_held w prior :
  priorRecent w prior ->
  match held w (recentClasses STORAGE_KEYS) with
  | Some (Serialized j) => j
  | _ => JArr []
  end = JArr prior.
Proof.
  unfold priorRecent, storedRecent, held.
  intros [H|[-> ->]]; [|reflexivity].
  destruct (items (localStorage w) !! recentClasses STORAGE_KEYS)
    as [[[| | | |l|]|]|]; try discriminate.
  now injection H as ->.
Qed.


(** A call of [addRecentClass] with a non-empty text, on a storage that
    takes the writes: only the recent-classes list changes. *)
Lemma addRecentClass_spec name prior w :
  name <> [] ->
  storageWorks w ->
  priorRecent w prior ->
  (addRecentClass (Some (JStr name)) w).1 = Return tt /\
  updated w (addRecentClass (Some (JStr name)) w).2 (recentClasses STORAGE_KEYS)
    (Some (Serialized (JArr (bumped name prior)))).
Proof.
  intros Hname [Hprobe Hlist] Hprior. unfold addRecentClass.
  assert (Ht : truthy (Some (JStr name)) = true).
  { simpl. destruct name; [congruence|reflexivity]. }
  rewrite Ht. change (streq (typeof (Some (JStr name))) (lit "string")) with true.
  cbn [negb orb]. rewrite bind_run.
  destruct (getItem_spec (recentClasses STORAGE_KEYS) (JArr []) w Hprobe
              (proj2 (proj2 keys_not_probe))) as [Hr Hag].
  rewrite (priorRecent_held w prior Hprior) in Hr.
  destruct (getItem _ _ w) as [[j|e] w1]; simpl in Hr, Hag; [|discriminate].
  injection Hr as ->. rewrite bind_run. unfold liftC, withoutItem.
  rewrite bind_run. fold (bumped name prior).
  destruct (setItem_spec (recentClasses STORAGE_KEYS) (JArr (bumped name prior)) w1)
    as [Hs Hup].
  - eapply agree_probeWorks; eassumption.
  - destruct Hag as [-> _]. apply Hlist.
  - exact (proj2 (proj2 keys_not_probe)).
  - destruct (setItem _ _ w1) as [[b|e] w2]; simpl in Hs, Hup; [|discriminate].
    split; [reflexivity|]. eapply updated_agree; eassumption.
Qed.

Lemma lift_run {A} (m : M World A) s :
  lift m s = ((m (storage s)).1,
              {| storage := (m (storage s)).2; logged := logged s |}).
Proof. unfold lift. now destruct (m (storage s)). Qed.

(** X18: what [saveUserPreferences] stored, [getUserPreferences] returns:
    for every object or array of JSON values, on a storage that takes the
    write, the save reports [true] and the next read gives the same
    value. *)
Theorem userPreferences_roundtrip prefs w :
  isObject (Some prefs) ->
  probeWorks w ->
  accepts (localStorage w) (userPreferences STORAGE_KEYS) (Serialized prefs) = true ->
  (saveUserPreferences (Some prefs) w).1 = Return true /\
  (getUserPreferences (saveUserPreferences (Some prefs) w).2).1 = Return prefs.
Proof.
  intros (j & [= <-] & Hobj) Hp Ha. unfold saveUserPreferences.
  assert (Hguard : negb (truthy (Some prefs))
                   || negb (streq (typeof (Some prefs)) (lit "object")) = false)
    by (destruct Hobj as [[l ->]|[ms ->]]; reflexivity).
  rewrite Hguard.
  destruct (setItem_spec _ prefs w Hp Ha (proj1 (proj2 keys_not_probe)))
    as [Hs (Hacc & Hheld & _)].
  split; [exact Hs|]. unfold getUserPreferences.
  destruct (getItem_spec (userPreferences STORAGE_KEYS) defaultPreferences
              (setItem (userPreferences STORAGE_KEYS) prefs w).2) as [Hr _].
  - unfold probeWorks. rewrite Hacc. exact Hp.
  - exact (proj1 (proj2 keys_not_probe)).
  - now rewrite Hr, Hheld.
Qed.

Lemma userPreferences_roundtrip_witness :
  (saveUserPreferences (Some (JObj [(lit "theme", JStr (lit "dark"))]))
     (keeping ∅)).1 = Return true /\
  (getUserPreferences
     (saveUserPreferences (Some (JObj [(lit "theme", JStr (lit "dark"))]))
        (keeping ∅)).2).1
  = Return (JObj [(lit "theme", JStr (lit "dark"))]).
Proof.
  apply (userPreferences_roundtrip (JObj [(lit "theme", JStr (lit "dark"))])
           (keeping ∅)).
  - eexists. split; [reflexivity|]. right. eexists. reflexivity.
  - reflexivity.
  - reflexivity.
Defined.

Lemma probeWorks_dec w : probeWorks w \/ ~ probeWorks w.
Proof.
  unfold probeWorks.
  destruct (accepts (localStorage w) probeKey (Raw (lit "test"))); auto.
Qed.

Lemma getItem_unreadable key d w :
  key <> probeKey -> unreadable w key -> (getItem key d w).1 = Return d.
Proof.
  intros Hkey Hu. destruct (probeWorks_dec w) as [Hp|Hp].
  - destruct (getItem_spec key d w Hp Hkey) as [Hr _]. rewrite Hr.
    destruct Hu as [Hn|[->|[text ->]]]; [contradiction|reflexivity|reflexivity].
  - apply getItem_unavailable, Hp.
Qed.

Lemma getters_fall_back w :
  unreadable w (preferredTraining STORAGE_KEYS) ->
  unreadable w (userPreferences STORAGE_KEYS) ->
  unreadable w (recentClasses STORAGE_KEYS) ->
  (getPreference w).1 = Return JNull /\
  (getUserPreferences w).1 = Return defaultPreferences /\
  (getRecentClasses None w).1 = Return (JArr []).
Proof.
  intros H1 H2 H3. destruct keys_not_probe as (K1 & K2 & K3).
  split; [exact (getItem_unreadable _ _ w K1 H1)|].
  split; [exact (getItem_unreadable _ _ w K2 H2)|].
  unfold getRecentClasses. rewrite bind_run.
  pose proof (getItem_unreadable _ (JArr []) w K3 H3) as Hr.
  destruct (getItem _ _ w) as [[j|e] w1]; simpl in Hr; [|discriminate].
  injection Hr as ->. reflexivity.
Qed.



Lemma addRecentClass_unavailable name w :
  ~ probeWorks w ->
  (addRecentClass name w).1 = Return tt /\
  localStorage (addRecentClass name w).2 = localStorage w.
Proof.
  intros Hp. unfold addRecentClass.
  destruct (negb (truthy name) || negb (streq (typeof name) (lit "string")));
    [split; reflexivity|].
  destruct name as [[| | |text| |]|]; try (split; reflexivity).
  rewrite bind_run.
  destruct (getItem_unavailable (recentClasses STORAGE_KEYS) (JArr []) w Hp)
    as [Hr Hl].
  destruct (getItem _ _ w) as [[j|e] w1]; simpl in Hr, Hl; [|discriminate].
  injection Hr as ->. rewrite bind_run. unfold liftC, withoutItem.
  rewrite bind_run.
  assert (Hp1 : ~ probeWorks w1) by (unfold probeWorks in *; now rewrite Hl).
  destruct (setItem_unavailable (recentClasses STORAGE_KEYS)
              (JArr (bumped text [])) w1 Hp1) as [Hs Hl'].
  unfold bumped in Hs, Hl'. cbn [List.filter] in Hs, Hl'.
  destruct (setItem _ _ w1) as [[b|e] w2]; simpl in Hs, Hl'; [|discriminate].
  split; [reflexivity|]. simpl. congruence.
Qed.

Lemma clearAll_unavailable w :
  ~ probeWorks w ->
  (clearAll w).1 = Return false /\
  localStorage (clearAll w).2 = localStorage w.
Proof.
  intros Hp. unfold clearAll. rewrite bind_run.
  destruct (unavailable_run w Hp) as [Hr Hl].
  destruct (isLocalStorageAvailable w) as [[b|e] w1]; simpl in Hr, Hl;
    [|discriminate].
  injection Hr as ->. simpl. split; [reflexivity|exact Hl].
Qed.

Lemma savePreference_unavailable type s :
  ~ probeWorks (storage s) ->
  (savePreference type s).1 = Return false /\
  localStorage (storage (savePreference type s).2) = localStorage (storage s) /\
  logged (savePreference type s).2 = logged s.
Proof.
  intros Hp. unfold savePreference.
  destruct (negb (truthy type) || negb (streq (typeof type) (lit "string"))).
  { rewrite bind_run, lift_run. simpl. repeat split. }
  destruct type as [[| | |text| |]|]; try (repeat split; reflexivity).
  rewrite bind_run, lift_run.
  destruct (setItem_unavailable (preferredTraining STORAGE_KEYS) (JStr text)
              (storage s) Hp) as [Hs Hl].
  destruct (setItem _ _ (storage s)) as [[b|e] w1]; simpl in Hs, Hl;
    [|discriminate].
  injection Hs as ->. simpl. repeat split. exact Hl.
Qed.

(** X20: when the storage is unavailable (it refuses the probe), every
    writer reports failure and leaves the storage as it is:
    [savePreference], [saveUserPreferences], [removePreference],
    [clearRecentClasses] and [clearAll] return [false], [addRecentClass]
    returns, and nothing is stored or logged as saved. *)
Theorem unavailable_storage w type prefs name :
  ~ probeWorks w ->
  ((savePreference type (session w)).1 = Return false /\
   localStorage (storage (savePreference type (session w)).2) = localStorage w /\
   logged (savePreference type (session w)).2 = []) /\
  ((saveUserPreferences prefs w).1 = Return false /\
   localStorage (saveUserPreferences prefs w).2 = localStorage w) /\
  ((removePreference w).1 = Return false /\
   localStorage (removePreference w).2 = localStorage w) /\
  ((clearRecentClasses w).1 = Return false /\
   localStorage (clearRecentClasses w).2 = localStorage w) /\
  ((clearAll w).1 = Return false /\
   localStorage (clearAll w).2 = localStorage w) /\
  ((addRecentClass name w).1 = Return tt /\
   localStorage (addRecentClass name w).2 = localStorage w).
Proof.
  intros Hp.
  split; [exact (savePreference_unavailable type (session w) Hp)|].
  split.
  { unfold saveUserPreferences.
    destruct (negb (truthy prefs) || negb (streq (typeof prefs) (lit "object")));
      [split; reflexivity|].
    destruct prefs as [j|]; [|split; reflexivity].
    apply setItem_unavailable, Hp. }
  split; [exact (removeItem_unavailable _ w Hp)|].
  split; [exact (removeItem_unavailable _ w Hp)|].
  split; [exact (clearAll_unavailable w Hp)|].
  exact (addRecentClass_unavailable name w Hp).
Qed.

Lemma unavailable_storage_witness :
  ((savePreference (Some (JStr (lit "Yoga"))) (session (blocked ∅))).1
     = Return false /\
   localStorage (storage (savePreference (Some (JStr (lit "Yoga")))
                            (session (blocked ∅))).2)
     = localStorage (blocked ∅) /\
   logged (savePreference (Some (JStr (lit "Yoga"))) (session (blocked ∅))).2 = []) /\
  ((saveUserPreferences (Some defaultPreferences) (blocked ∅)).1 = Return false /\
   localStorage (saveUserPreferences (Some defaultPreferences) (blocked ∅)).2
     = localStorage (blocked ∅)) /\
  ((removePreference (blocked ∅)).1 = Return false /\
   localStorage (removePreference (blocked ∅)).2 = localStorage (blocked ∅)) /\
  ((clearRecentClasses (blocked ∅)).1 = Return false /\
   localStorage (clearRecentClasses (blocked ∅)).2 = localStorage (blocked ∅)) /\
  ((clearAll (blocked ∅)).1 = Return false /\
   localStorage (clearAll (blocked ∅)).2 = localStorage (blocked ∅)) /\
  ((addRecentClass (Some (JStr (lit "Yoga"))) (blocked ∅)).1 = Return tt /\
   localStorage (addRecentClass (Some (JStr (lit "Yoga"))) (blocked ∅)).2
     = localStorage (blocked ∅)).
Proof.
  apply (unavailable_storage (blocked ∅) (Some (JStr (lit "Yoga")))
           (Some defaultPreferences) (Some (JStr (lit "Yoga")))).
  unfold probeWorks. simpl. discriminate.
Defined.

Lemma not_text_guard (v : value) :
  ~ (exists text, v = Some (JStr text) /\ text <> []) ->
  negb (truthy v) || negb (streq (typeof v) (lit "string")) = true.
Proof.
  intros H. destruct v as [[| |q|text| |]|]; try reflexivity.
  - destruct b; reflexivity.
  - simpl. now rewrite orb_true_r.
  - destruct text as [|c text]; [reflexivity|].
    destruct H. eexists. split; [reflexivity|discriminate].
Qed.

Lemma not_object_guard (v : value) :
  ~ isObject v ->
  negb (truthy v) || negb (streq (typeof v) (lit "object")) = true.
Proof.
  intros H. destruct v as [[| |q|text|l|ms]|]; try reflexivity.
  - destruct b; reflexivity.
  - simpl. now rewrite orb_true_r.
  - simpl. now rewrite orb_true_r.
  - destruct H. eexists. split; [reflexivity|]. left. eauto.
  - destruct H. eexists. split; [reflexivity|]. right. eauto.
Qed.

(** X21: arguments of the wrong kind are turned away without touching the
    storage, whatever its state: [savePreference] and [addRecentClass]
    take only a non-empty text, [saveUserPreferences] and [importData]
    only an object or an array; the savers and [importData] return
    [false]. *)
Theorem wrong_arguments_rejected s type prefs data name :
  ~ (exists text, type = Some (JStr text) /\ text <> []) ->
  ~ isObject prefs ->
  ~ isObject data ->
  ~ (exists text, name = Some (JStr text) /\ text <> []) ->
  ((savePreference type s).1 = Return false /\
   localStorage (storage (savePreference type s).2) = localStorage (storage s) /\
   logged (savePreference type s).2 = logged s) /\
  ((saveUserPreferences prefs (storage s)).1 = Return false /\
   localStorage (saveUserPreferences prefs (storage s)).2
     = localStorage (storage s)) /\
  ((importData data s).1 = Return false /\
   localStorage (storage (importData data s).2) = localStorage (storage s) /\
   logged (importData data s).2 = logged s) /\
  addRecentClass name (storage s) = (Return tt, storage s).
Proof.
  intros Ht Hp Hd Hn.
  unfold savePreference, saveUserPreferences, importData, addRecentClass.
  rewrite (not_text_guard type Ht), (not_object_guard prefs Hp),
    (not_object_guard data Hd), (not_text_guard name Hn).
  rewrite !bind_run, !lift_run. simpl. repeat split.
Qed.

Lemma wrong_arguments_rejected_witness :
  ((savePreference (Some (JStr [])) (session (keeping ∅))).1 = Return false /\
   localStorage (storage (savePreference (Some (JStr [])) (session (keeping ∅))).2)
     = localStorage (storage (session (keeping ∅))) /\
   logged (savePreference (Some (JStr [])) (session (keeping ∅))).2
     = logged (session (keeping ∅))) /\
  ((saveUserPreferences (Some (JStr (lit "dark"))) (storage (session (keeping ∅)))).1
     = Return false /\
   localStorage (saveUserPreferences (Some (JStr (lit "dark")))
                   (storage (session (keeping ∅)))).2
     = localStorage (storage (session (keeping ∅)))) /\
  ((importData (Some JNull) (session (keeping ∅))).1 = Return false /\
   localStorage (storage (importData (Some JNull) (session (keeping ∅))).2)
     = localStorage (storage (session (keeping ∅))) /\
   logged (importData (Some JNull) (session (keeping ∅))).2
     = logged (session (keeping ∅))) /\
  addRecentClass undefined (storage (session (keeping ∅)))
  = (Return tt, storage (session (keeping ∅))).
Proof.
  apply (wrong_arguments_rejected (session (keeping ∅)) (Some (JStr []))
           (Some (JStr (lit "dark"))) (Some JNull) undefined).
  - intros (text & [= <-] & H). congruence.
  - intros (j & [= <-] & [[l H]|[ms H]]); discriminate.
  - intros (j & [= <-] & [[l H]|[ms H]]); discriminate.
  - intros (text & H & _). discriminate.
Defined.

(** X22: [savePreference] with a non-empty text, on a storage that takes
    the writes and holds a recent-classes list (or none): it returns
    [true], [getPreference] then returns the text, the text is at the head
    of the recent-classes list as [addRecentClass] puts it there, and one
    line "Saved preference: ..." is logged. *)
Theorem savePreference_saves text prior s :
  text <> [] ->
  storageWorks (storage s) ->
  accepts (localStorage (storage s)) (preferredTraining STORAGE_KEYS)
          (Serialized (JStr text)) = true ->
  priorRecent (storage s) prior ->
  (savePreference (Some (JStr text)) s).1 = Return true /\
  (getPreference (storage (savePreference (Some (JStr text)) s).2)).1
    = Return (JStr text) /\
  storedRecent (storage (savePreference (Some (JStr text)) s).2)
    = Some (bumped text prior) /\
  logged (savePreference (Some (JStr text)) s).2
    = logged s ++ [lit "Saved preference: " ++ text].
Proof.
  intros Htext [Hprobe Hlist] Hacc Hprior.
  destruct keys_not_probe as (K1 & K2 & K3).
  destruct keys_distinct as (D1 & D2 & D3).
  unfold savePreference.
  assert (Ht : truthy (Some (JStr text)) = true).
  { simpl. destruct text; [congruence|reflexivity]. }
  rewrite Ht. change (streq (typeof (Some (JStr text))) (lit "string")) with true.
  cbn [negb orb]. rewrite bind_run, lift_run.
  destruct (setItem_spec (preferredTraining STORAGE_KEYS) (JStr text) (storage s)
              Hprobe Hacc K1) as [Hs Hup].
  destruct (setItem _ _ (storage s)) as [[b|e] w1]; cbn [fst snd] in Hs, Hup;
    [|discriminate].
  injection Hs as ->. cbn [fst snd]. rewrite !bind_run. cbn [logLine fst snd].
  rewrite lift_run. cbn [storage logged].
  destruct Hup as (Ha1 & Hh1 & Ho1).
  assert (Hw1 : storageWorks w1).
  { split; rewrite Ha1; [exact Hprobe|exact Hlist]. }
  assert (Hp1 : priorRecent w1 prior).
  { unfold priorRecent, storedRecent in *. unfold held in Ho1.
    rewrite (Ho1 _ K3 (not_eq_sym D2)). exact Hprior. }
  destruct (addRecentClass_spec text prior w1 Htext Hw1 Hp1)
    as [Hr (Ha2 & Hh2 & Ho2)].
  destruct (addRecentClass _ w1) as [[u|e] w2];
    cbn [fst snd] in Hr, Ha2, Hh2, Ho2; [|discriminate].
  unfold mret, M_ret. cbn [fst snd storage logged]. split; [reflexivity|].
  split.
  - unfold getPreference.
    destruct (getItem_spec (preferredTraining STORAGE_KEYS) JNull w2) as [Hg _].
    + unfold probeWorks. rewrite Ha2, Ha1. exact Hprobe.
    + exact K1.
    + rewrite Hg, (Ho2 _ K1 D2), Hh1. reflexivity.
  - split; [|reflexivity].
    unfold storedRecent. unfold held in Hh2. now rewrite Hh2.
Qed.

Lemma savePreference_saves_witness :
  (savePreference (Some (JStr (lit "Yoga")))
     (session (holding [JStr (lit "HIIT"); JStr (lit "Yoga")]))).1 = Return true /\
  (getPreference (storage (savePreference (Some (JStr (lit "Yoga")))
     (session (holding [JStr (lit "HIIT"); JStr (lit "Yoga")]))).2)).1
    = Return (JStr (lit "Yoga")) /\
  storedRecent (storage (savePreference (Some (JStr (lit "Yoga")))
     (session (holding [JStr (lit "HIIT"); JStr (lit "Yoga")]))).2)
    = Some (bumped (lit "Yoga") [JStr (lit "HIIT"); JStr (lit "Yoga")]) /\
  logged (savePreference (Some (JStr (lit "Yoga")))
     (session (holding [JStr (lit "HIIT"); JStr (lit "Yoga")]))).2
    = logged (session (holding [JStr (lit "HIIT"); JStr (lit "Yoga")]))
      ++ [lit "Saved preference: " ++ lit "Yoga"].
Proof.
  apply (savePreference_saves (lit "Yoga") [JStr (lit "HIIT"); JStr (lit "Yoga")]
           (session (holding [JStr (lit "HIIT"); JStr (lit "Yoga")]))).
  - discriminate.
  - split; [reflexivity|intros l; reflexivity].
  - reflexivity.
  - left. vm_compute. reflexivity.
Defined.

(** [addRecentClass] throws when what is held as the list is JSON but not
    an array; the storage is left as it was. *)
Lemma addRecentClass_throws name j w :
  name <> [] ->
  probeWorks w ->
  held w (recentClasses STORAGE_KEYS) = Some (Serialized j) ->
  (forall l, j <> JArr l) ->
  (exists e, (addRecentClass (Some (JStr name)) w).1 = Throw e) /\
  agree w (addRecentClass (Some (JStr name)) w).2.
Proof.
  intros Hname Hprobe Hheld Hj. unfold addRecentClass.
  assert (Ht : truthy (Some (JStr name)) = true).
  { simpl. destruct name; [congruence|reflexivity]. }
  rewrite Ht. change (streq (typeof (Some (JStr name))) (lit "string")) with true.
  cbn [negb orb]. rewrite bind_run.
  destruct (getItem_spec (recentClasses STORAGE_KEYS) (JArr []) w Hprobe
              (proj2 (proj2 keys_not_probe))) as [Hr Hag].
  rewrite Hheld in Hr.
  destruct (getItem _ _ w) as [[j'|e] w1]; cbn [fst snd] in Hr, Hag;
    [|discriminate].
  injection Hr as ->. rewrite bind_run. unfold liftC, withoutItem.
  destruct j as [| | | |l|]; cbn [fst snd]; try (split; [eauto|exact Hag]).
  now destruct (Hj l).
Qed.

(** X23: when what is held as the recent-classes list is JSON but not an
    array (an object, a text, a number, [null]), [savePreference] with a
    non-empty text throws a [TypeError] out of [addRecentClass], after it
    has stored the preference and logged it as saved. *)
Theorem savePreference_throws text j s :
  text <> [] ->
  probeWorks (storage s) ->
  accepts (localStorage (storage s)) (preferredTraining STORAGE_KEYS)
          (Serialized (JStr text)) = true ->
  held (storage s) (recentClasses STORAGE_KEYS) = Some (Serialized j) ->
  (forall l, j <> JArr l) ->
  (exists e, (savePreference (Some (JStr text)) s).1 = Throw e) /\
  held (storage (savePreference (Some (JStr text)) s).2)
       (preferredTraining STORAGE_KEYS) = Some (Serialized (JStr text)) /\
  logged (savePreference (Some (JStr text)) s).2
    = logged s ++ [lit "Saved preference: " ++ text].
Proof.
  intros Htext Hprobe Hacc Hheld Hj.
  destruct keys_not_probe as (K1 & K2 & K3).
  destruct keys_distinct as (D1 & D2 & D3).
  unfold savePreference.
  assert (Ht : truthy (Some (JStr text)) = true).
  { simpl. destruct text; [congruence|reflexivity]. }
  rewrite Ht. change (streq (typeof (Some (JStr text))) (lit "string")) with true.
  cbn [negb orb]. rewrite bind_run, lift_run.
  destruct (setItem_spec (preferredTraining STORAGE_KEYS) (JStr text) (storage s)
              Hprobe Hacc K1) as [Hs Hup].
  destruct (setItem _ _ (storage s)) as [[b|e] w1]; cbn [fst snd] in Hs, Hup;
    [|discriminate].
  injection Hs as ->. cbn [fst snd]. rewrite !bind_run. cbn [logLine fst snd].
  rewrite lift_run. cbn [storage logged].
  destruct Hup as (Ha1 & Hh1 & Ho1).
  destruct (addRecentClass_throws text j w1 Htext) as [[e He] [Ha2 Hh2]].
  - unfold probeWorks. rewrite Ha1. exact Hprobe.
  - rewrite (Ho1 _ K3 (not_eq_sym D2)). exact Hheld.
  - exact Hj.
  - destruct (addRecentClass _ w1) as [[u|e'] w2]; cbn [fst snd] in He, Ha2, Hh2;
      [discriminate|].
    cbn [fst snd storage logged]. split; [eauto|]. split; [|reflexivity].
    rewrite (Hh2 _ K1). exact Hh1.
Qed.

Lemma savePreference_throws_witness :
  (exists e, (savePreference (Some (JStr (lit "Yoga")))
     (session (keeping {[ recentClasses STORAGE_KEYS := Serialized (JObj []) ]}))).1
     = Throw e) /\
  held (storage (savePreference (Some (JStr (lit "Yoga")))
     (session (keeping {[ recentClasses STORAGE_KEYS := Serialized (JObj []) ]}))).2)
       (preferredTraining STORAGE_KEYS) = Some (Serialized (JStr (lit "Yoga"))) /\
  logged (savePreference (Some (JStr (lit "Yoga")))
     (session (keeping {[ recentClasses STORAGE_KEYS := Serialized (JObj []) ]}))).2
    = logged (session (keeping {[ recentClasses STORAGE_KEYS := Serialized (JObj []) ]}))
      ++ [lit "Saved preference: " ++ lit "Yoga"].
Proof.
  apply (savePreference_throws (lit "Yoga") (JObj [])
    (session (keeping {[ recentClasses STORAGE_KEYS := Serialized (JObj []) ]}))).
  - discriminate.
  - reflexivity.
  - reflexivity.
  - vm_compute. reflexivity.
  - discriminate.
Defined.

Lemma storedRecent_held w l :
  storedRecent w = Some l ->
  held w (recentClasses STORAGE_KEYS) = Some (Serialized (JArr l)).
Proof.
  unfold storedRecent, held.
  destruct (items (localStorage w) !! recentClasses STORAGE_KEYS)
    as [[[| | | |l'|]|]|]; try discriminate.
  now intros [= ->].
Qed.

Lemma held_storedRecent w l :
  held w (recentClasses STORAGE_KEYS) = Some (Serialized (JArr l)) ->
  storedRecent w = Some l.
Proof. unfold storedRecent, held. now intros ->. Qed.

Lemma getRecentClasses_held limit w l :
  probeWorks w ->
  held w (recentClasses STORAGE_KEYS) = Some (Serialized (JArr l)) ->
  (getRecentClasses limit w).1
  = Return (JArr (take (sliceEnd (length l)
                          (default (Z.of_nat MAX_RECENT_ITEMS) limit)) l)).
Proof.
  intros Hp Hh. unfold getRecentClasses. cbv zeta. rewrite bind_run.
  destruct (getItem_spec (recentClasses STORAGE_KEYS) (JArr []) w Hp
              (proj2 (proj2 keys_not_probe))) as [Hr _].
  rewrite Hh in Hr.
  destruct (getItem _ _ w) as [[j|e] w1]; cbn [fst snd] in Hr; [|discriminate].
  injection Hr as ->. reflexivity.
Qed.

Lemma take_min {A} (l : list A) n : take (Nat.min n (length l)) l = take n l.
Proof.
  destruct (Nat.le_ge_cases n (length l)).
  - now rewrite Nat.min_l.
  - rewrite Nat.min_r by assumption. now rewrite !take_ge by lia.
Qed.

Lemma sliceEnd_nat len n : sliceEnd len (Z.of_nat n) = Nat.min n len.
Proof. unfold sliceEnd. destruct (Z.ltb_spec (Z.of_nat n) 0); lia. Qed.

Lemma sliceEnd_neg len n : sliceEnd len (- Z.of_nat (S n))%Z = len - S n.
Proof.
  unfold sliceEnd. destruct (Z.ltb_spec (- Z.of_nat (S n))%Z 0); lia.
Qed.

(** X24: with a list stored, [getRecentClasses(limit)] returns its first
    [limit] entries (all of them when there are fewer), its first ten when
    the limit is left out, also when more than ten are stored; a negative
    limit leaves that many entries off the end. *)
Theorem getRecentClasses_limit l w n :
  probeWorks w ->
  storedRecent w = Some l ->
  (getRecentClasses None w).1 = Return (JArr (take MAX_RECENT_ITEMS l)) /\
  (getRecentClasses (Some (Z.of_nat n)) w).1 = Return (JArr (take n l)) /\
  (getRecentClasses (Some (- Z.of_nat (S n))%Z) w).1
    = Return (JArr (take (length l - S n) l)).
Proof.
  intros Hp Hs. apply storedRecent_held in Hs.
  rewrite !(getRecentClasses_held _ w l Hp Hs). cbn [default from_option id].
  rewrite !sliceEnd_nat, sliceEnd_neg, !take_min. repeat split.
Qed.

Lemma getRecentClasses_limit_witness :
  (getRecentClasses None
     (holding ((fun c => JStr [c]) <$> lit "abcdefghijkl"))).1
    = Return (JArr (take MAX_RECENT_ITEMS ((fun c => JStr [c]) <$> lit "abcdefghijkl"))) /\
  (getRecentClasses (Some (Z.of_nat 3))
     (holding ((fun c => JStr [c]) <$> lit "abcdefghijkl"))).1
    = Return (JArr (take 3 ((fun c => JStr [c]) <$> lit "abcdefghijkl"))) /\
  (getRecentClasses (Some (- Z.of_nat (S 3))%Z)
     (holding ((fun c => JStr [c]) <$> lit "abcdefghijkl"))).1
    = Return (JArr (take (length ((fun c => JStr [c]) <$> lit "abcdefghijkl") - S 3)
                         ((fun c => JStr [c]) <$> lit "abcdefghijkl"))).
Proof.
  apply (getRecentClasses_limit ((fun c => JStr [c]) <$> lit "abcdefghijkl")
           (holding ((fun c => JStr [c]) <$> lit "abcdefghijkl")) 3).
  - reflexivity.
  - vm_compute. reflexivity.
Defined.

(** X25: on an available storage [clearAll] returns [true] and removes the
    three keys of the application, so that every getter is back at its
    default; what is held under any other key (the probe key apart) stays. *)
Theorem clearAll_clears w :
  probeWorks w ->
  (clearAll w).1 = Return true /\
  held (clearAll w).2 (preferredTraining STORAGE_KEYS) = None /\
  held (clearAll w).2 (userPreferences STORAGE_KEYS) = None /\
  held (clearAll w).2 (recentClasses STORAGE_KEYS) = None /\
  (forall k, k <> probeKey ->
     k <> preferredTraining STORAGE_KEYS ->
     k <> userPreferences STORAGE_KEYS ->
     k <> recentClasses STORAGE_KEYS ->
     held (clearAll w).2 k = held w k) /\
  (getPreference (clearAll w).2).1 = Return JNull /\
  (getUserPreferences (clearAll w).2).1 = Return defaultPreferences /\
  (getRecentClasses None (clearAll w).2).1 = Return (JArr []).
Proof.
  intros Hp.
  destruct keys_distinct as (D1 & D2 & D3).
  assert (Hrun : clearAll w =
    (Return true,
     {| localStorage :=
          {| items := delete (recentClasses STORAGE_KEYS)
                        (delete (userPreferences STORAGE_KEYS)
                           (delete (preferredTraining STORAGE_KEYS)
                              (items (localStorage (probed w)))));
             accepts := accepts (localStorage w) |};
        console := console w |})).
  { unfold clearAll. rewrite bind_run, (available_run' w Hp). reflexivity. }
  rewrite Hrun. cbn [fst snd].
  assert (H1 : held
    {| localStorage :=
          {| items := delete (recentClasses STORAGE_KEYS)
                        (delete (userPreferences STORAGE_KEYS)
                           (delete (preferredTraining STORAGE_KEYS)
                              (items (localStorage (probed w)))));
             accepts := accepts (localStorage w) |};
        console := console w |} (preferredTraining STORAGE_KEYS) = None).
  { unfold held. cbn [localStorage items].
    rewrite lookup_delete_ne by congruence.
    rewrite lookup_delete_ne by congruence.
    apply lookup_delete_eq. }
  assert (H2 : held
    {| localStorage :=
          {| items := delete (recentClasses STORAGE_KEYS)
                        (delete (userPreferences STORAGE_KEYS)
                           (delete (preferredTraining STORAGE_KEYS)
                              (items (localStorage (probed w)))));
             accepts := accepts (localStorage w) |};
        console := console w |} (userPreferences STORAGE_KEYS) = None).
  { unfold held. cbn [localStorage items].
    rewrite lookup_delete_ne by congruence.
    apply lookup_delete_eq. }
  assert (H3 : held
    {| localStorage :=
          {| items := delete (recentClasses STORAGE_KEYS)
                        (delete (userPreferences STORAGE_KEYS)
                           (delete (preferredTraining STORAGE_KEYS)
                              (items (localStorage (probed w)))));
             accepts := accepts (localStorage w) |};
        console := console w |} (recentClasses STORAGE_KEYS) = None).
  { unfold held. cbn [localStorage items]. apply lookup_delete_eq. }
  split; [reflexivity|]. split; [exact H1|]. split; [exact H2|].
  split; [exact H3|]. split.
  - intros k Hk K1 K2 K3. unfold held. cbn [localStorage items].
    rewrite !lookup_delete_ne by congruence.
    destruct (agree_probed w) as [_ Hh]. exact (Hh k Hk).
  - apply getters_fall_back; right; left; assumption.
Qed.

Lemma clearAll_clears_witness :
  (clearAll (holding [JStr (lit "Yoga")])).1 = Return true /\
  held (clearAll (holding [JStr (lit "Yoga")])).2 (preferredTraining STORAGE_KEYS)
    = None /\
  held (clearAll (holding [JStr (lit "Yoga")])).2 (userPreferences STORAGE_KEYS)
    = None /\
  held (clearAll (holding [JStr (lit "Yoga")])).2 (recentClasses STORAGE_KEYS)
    = None /\
  (forall k, k <> probeKey ->
     k <> preferredTraining STORAGE_KEYS ->
     k <> userPreferences STORAGE_KEYS ->
     k <> recentClasses STORAGE_KEYS ->
     held (clearAll (holding [JStr (lit "Yoga")])).2 k
     = held (holding [JStr (lit "Yoga")]) k) /\
  (getPreference (clearAll (holding [JStr (lit "Yoga")])).2).1 = Return JNull /\
  (getUserPreferences (clearAll (holding [JStr (lit "Yoga")])).2).1
    = Return defaultPreferences /\
  (getRecentClasses None (clearAll (holding [JStr (lit "Yoga")])).2).1
    = Return (JArr []).
Proof.
  apply (clearAll_clears (holding [JStr (lit "Yoga")])). reflexivity.
Defined.

(** ** Import and export *)

Lemma roomy_probeWorks w : roomy w -> probeWorks w.
Proof. intros H. apply H. Qed.

Lemma roomy_accepts w w' :
  accepts (localStorage w') = accepts (localStorage w) -> roomy w -> roomy w'.
Proof. intros Ha H key s. rewrite Ha. apply H. Qed.

Lemma roomy_storageWorks w : roomy w -> storageWorks w.
Proof. intros H. split; [apply H|intros l; apply H]. Qed.


Lemma priorRecent_updated w w' key s prior :
  key <> recentClasses STORAGE_KEYS ->
  updated w w' key s -> priorRecent w prior -> priorRecent w' prior.
Proof.
  intros Hk (_ & _ & Ho) H.
  specialize (Ho _ (proj2 (proj2 keys_not_probe)) (not_eq_sym Hk)).
  unfold priorRecent, storedRecent, held in *. now rewrite Ho.
Qed.

(** The first step of [importData] on a storage that takes every write:
    it does not throw, and afterwards the preference read back is the one
    that was there, or the imported text. *)
Lemma import_preference pt s prior :
  roomy (storage s) ->
  priorRecent (storage s) prior ->
  exists s1,
    (if truthy pt then _ ← savePreference pt; mret tt else mret tt) s
    = (Return tt, s1) /\
    roomy (storage s1) /\
    (exists prior', priorRecent (storage s1) prior') /\
    held (storage s1) (userPreferences STORAGE_KEYS)
      = held (storage s) (userPreferences STORAGE_KEYS) /\
    (held (storage s1) (preferredTraining STORAGE_KEYS)
       = held (storage s) (preferredTraining STORAGE_KEYS) \/
     exists text, pt = Some (JStr text) /\
       held (storage s1) (preferredTraining STORAGE_KEYS)
       = Some (Serialized (JStr text))).
Proof.
  intros Hroomy Hprior.
  destruct keys_not_probe as (K1 & K2 & K3).
  destruct keys_distinct as (D1 & D2 & D3).
  destruct (truthy pt) eqn:Ht.
  2: { exists s. split; [reflexivity|]. split; [exact Hroomy|].
       split; [eauto|]. split; [reflexivity|]. now left. }
  rewrite bind_run. unfold savePreference. rewrite Ht. cbn [negb orb].
  destruct (negb (streq (typeof pt) (lit "string"))) eqn:Hty.
  { rewrite bind_run, lift_run. cbn [fst snd].
    eexists. split; [reflexivity|]. cbn [storage].
    split; [exact Hroomy|]. split; [eauto|]. split; [reflexivity|].
    now left. }
  destruct pt as [[| | |text| |]|]; try discriminate Hty.
  rewrite bind_run, lift_run.
  assert (Htext : text <> []).
  { intros ->. discriminate. }
  destruct (setItem_spec (preferredTraining STORAGE_KEYS) (JStr text) (storage s)
              (roomy_probeWorks _ Hroomy) (Hroomy _ _) K1) as [Hs Hup].
  pose proof (priorRecent_updated _ _ _ _ prior D2 Hup Hprior) as Hp1.
  destruct (setItem _ _ (storage s)) as [[b|e] w1]; cbn [fst snd] in Hs, Hup, Hp1;
    [|discriminate].
  injection Hs as ->. cbn [fst snd]. rewrite !bind_run. cbn [logLine fst snd].
  rewrite lift_run. cbn [storage logged].
  destruct Hup as (Ha1 & Hh1 & Ho1).
  assert (Hr1 : roomy w1) by exact (roomy_accepts _ _ Ha1 Hroomy).
  destruct (addRecentClass_spec text prior w1 Htext (roomy_storageWorks _ Hr1) Hp1)
    as [Hr (Ha2 & Hh2 & Ho2)].
  destruct (addRecentClass _ w1) as [[u|e] w2];
    cbn [fst snd] in Hr, Ha2, Hh2, Ho2; [|discriminate].
  unfold mret, M_ret. cbn [fst snd storage logged].
  eexists. split; [reflexivity|]. cbn [storage].
  split; [exact (roomy_accepts _ _ Ha2 Hr1)|].
  split.
  { exists (bumped text prior). left. unfold storedRecent.
    unfold held in Hh2. now rewrite Hh2. }
  split.
  { rewrite (Ho2 _ K2 D3). apply Ho1; [exact K2|congruence]. }
  right. exists text. split; [reflexivity|].
  rewrite (Ho2 _ K1 D2). exact Hh1.
Qed.

Lemma import_preferences up s :
  roomy (storage s) ->
  exists s1,
    (if truthy up then _ ← lift (saveUserPreferences up); mret tt else mret tt) s
    = (Return tt, s1) /\
    roomy (storage s1) /\
    held (storage s1) (preferredTraining STORAGE_KEYS)
      = held (storage s) (preferredTraining STORAGE_KEYS) /\
    (held (storage s1) (userPreferences STORAGE_KEYS)
       = held (storage s) (userPreferences STORAGE_KEYS) \/
     exists j, up = Some j /\
       held (storage s1) (userPreferences STORAGE_KEYS) = Some (Serialized j)).
Proof.
  intros Hroomy.
  destruct keys_not_probe as (K1 & K2 & K3).
  destruct keys_distinct as (D1 & D2 & D3).
  destruct (truthy up) eqn:Ht.
  2: { exists s. split; [reflexivity|]. split; [exact Hroomy|].
       split; [reflexivity|]. now left. }
  rewrite bind_run, lift_run. unfold saveUserPreferences. rewrite Ht.
  cbn [negb orb].
  destruct (negb (streq (typeof up) (lit "object"))).
  { rewrite bind_run. cbn [fst snd log]. eexists. split; [reflexivity|].
    cbn [storage]. split; [exact Hroomy|]. split; [reflexivity|]. now left. }
  destruct up as [j|]; [|discriminate].
  destruct (setItem_spec (userPreferences STORAGE_KEYS) j (storage s)
              (roomy_probeWorks _ Hroomy) (Hroomy _ _) K2) as [Hs (Ha & Hh & Ho)].
  destruct (setItem _ _ (storage s)) as [[b|e] w1]; cbn [fst snd] in Hs, Ha, Hh, Ho;
    [|discriminate].
  unfold mret, M_ret. cbn [fst snd]. eexists. split; [reflexivity|].
  cbn [storage]. split; [exact (roomy_accepts _ _ Ha Hroomy)|].
  split; [exact (Ho _ K1 D1)|]. right. eauto.
Qed.

(** X26: [importData] stores the recent-classes list of the imported
    object as it comes, whatever its length and with its duplicates, over
    whatever the import of the preference had put there: on a storage that
    takes every write and holds a recent-classes list or none, it returns
    [true] and the stored list is the imported one. *)
Theorem importData_recent_verbatim data l prior s :
  roomy (storage s) ->
  priorRecent (storage s) prior ->
  isObject data ->
  getProp data (lit "recentClasses") = Return (Some (JArr l)) ->
  (importData data s).1 = Return true /\
  storedRecent (storage (importData data s).2) = Some l.
Proof.
  intros Hroomy Hprior Hobj Hrecent.
  destruct keys_not_probe as (K1 & K2 & K3).
  cut (exists s3, importData data s = (Return true, s3) /\
         held (storage s3) (recentClasses STORAGE_KEYS)
         = Some (Serialized (JArr l))).
  { intros (s3 & -> & Hh). split; [reflexivity|].
    apply held_storedRecent, Hh. }
  unfold importData.
  assert (Hguard : negb (truthy data)
                   || negb (streq (typeof data) (lit "object")) = false).
  { destruct Hobj as (j & -> & [[x ->]|[x ->]]); reflexivity. }
  rewrite Hguard, tryCatch_run, bind_run.
  assert (Hget : forall key, exists v, getProp data key = Return v).
  { intros key. destruct Hobj as (j & -> & [[x ->]|[x ->]]); simpl; eauto. }
  destruct (Hget (lit "preferredTraining")) as [pt ->].
  destruct (Hget (lit "userPreferences")) as [up ->].
  rewrite Hrecent. unfold liftC at 1. cbn [fst snd]. rewrite bind_run.
  destruct (import_preference pt s prior Hroomy Hprior)
    as (s1 & -> & Hr1 & _ & _ & _).
  rewrite bind_run. unfold liftC at 1. cbn [fst snd]. rewrite bind_run.
  destruct (import_preferences up s1 Hr1) as (s2 & -> & Hr2 & _ & _).
  rewrite bind_run. unfold liftC at 1. cbn [fst snd].
  rewrite !bind_run, lift_run.
  destruct (setItem_spec (recentClasses STORAGE_KEYS) (JArr l) (storage s2)
              (roomy_probeWorks _ Hr2) (Hr2 _ _) K3) as [Hs (_ & Hh & _)].
  destruct (setItem _ _ (storage s2)) as [[b|e] w3]; cbn [fst snd] in Hs, Hh;
    [|discriminate].
  unfold mret, M_ret. cbn [fst snd]. eexists. split; [reflexivity|].
  exact Hh.
Qed.

Lemma importData_recent_verbatim_witness :
  (importData
     (Some (JObj [(lit "preferredTraining", JStr (lit "Yoga"));
                  (lit "recentClasses",
                   JArr ((fun c => JStr [c]) <$> lit "aabbccddeeffgg"))]))
     (session (keeping ∅))).1 = Return true /\
  storedRecent (storage (importData
     (Some (JObj [(lit "preferredTraining", JStr (lit "Yoga"));
                  (lit "recentClasses",
                   JArr ((fun c => JStr [c]) <$> lit "aabbccddeeffgg"))]))
     (session (keeping ∅))).2)
  = Some ((fun c => JStr [c]) <$> lit "aabbccddeeffgg").
Proof.
  apply (importData_recent_verbatim _ _ [] (session (keeping ∅))).
  - intros key s. reflexivity.
  - right. split; reflexivity.
  - eexists. split; [reflexivity|]. right. eauto.
  - reflexivity.
Defined.






End PersistenceFacts.

(** * The e-mail check *)

Module FormsFacts.
Import Js Forms.

Lemma test_many1_cons class rest c s :
  test (Many1 class :: rest) (c :: s)
  = class c && (test (Many1 class :: rest) s || test rest s).
Proof. reflexivity. Qed.

Lemma test_one class rest s :
  test (One class :: rest) s = true <->
  exists c s', s = c :: s' /\ class c = true /\ test rest s' = true.
Proof.
  destruct s as [|c s]; simpl.
  - split; [discriminate|]. intros (c & s' & H & _). discriminate.
  - rewrite andb_true_iff. split.
    + intros [H1 H2]. eauto.
    + intros (c' & s' & [= -> ->] & H1 & H2). auto.
Qed.

(** A repetition matches a non-empty run of its class, of any length. *)
Lemma test_many1 class rest s :
  test (Many1 class :: rest) s = true <->
  exists a s', s = a ++ s' /\ a <> [] /\ forallb class a = true /\
               test rest s' = true.
Proof.
  induction s as [|c s IH].
  - split; [discriminate|].
    intros (a & s' & H & Ha & _). destruct a; [congruence|discriminate].
  - rewrite test_many1_cons, andb_true_iff, orb_true_iff, IH. split.
    + intros [Hc [(a & s' & -> & Ha & Hall & Hrest)|Hrest]].
      * exists (c :: a), s'. repeat split; try easy.
        simpl. now rewrite Hc, Hall.
      * exists [c], s. repeat split; try easy. simpl. now rewrite Hc.
    + intros (a & s' & Heq & Ha & Hall & Hrest).
      destruct a as [|x a]; [congruence|]. injection Heq as -> ->.
      simpl in Hall. apply andb_true_iff in Hall as [Hc Hall].
      split; [exact Hc|].
      destruct a as [|y a]; [right; exact Hrest|].
      left. exists (y :: a), s'. repeat split; try easy.
Qed.

Lemma test_end s : test [] s = true <-> s = [].
Proof. destruct s; simpl; split; congruence. Qed.

Lemma isValidEmail_parts email :
  isValidEmail email = true <->
  exists a b c,
    email = a ++ [64%N] ++ b ++ [46%N] ++ c /\
    a <> [] /\ b <> [] /\ c <> [] /\
    forallb notSpaceOrAt a = true /\
    forallb notSpaceOrAt b = true /\
    forallb notSpaceOrAt c = true.
Proof.
  unfold isValidEmail, emailRegex. rewrite test_many1. split.
  - intros (a & s1 & -> & Ha & Hall & H1).
    apply test_one in H1 as (x & s2 & -> & Hx & H2). apply N.eqb_eq in Hx.
    subst x. apply test_many1 in H2 as (b & s3 & -> & Hb & Hbll & H3).
    apply test_one in H3 as (y & s4 & -> & Hy & H4). apply N.eqb_eq in Hy.
    subst y. apply test_many1 in H4 as (c & s5 & -> & Hc & Hcll & H5).
    apply test_end in H5. subst s5. rewrite app_nil_r.
    exists a, b, c. repeat split; assumption.
  - intros (a & b & c & -> & Ha & Hb & Hc & Hall & Hbll & Hcll).
    exists a, ([64%N] ++ b ++ [46%N] ++ c). repeat split; try assumption.
    apply test_one. exists 64%N, (b ++ [46%N] ++ c).
    repeat split. apply test_many1.
    exists b, ([46%N] ++ c). repeat split; try assumption.
    apply test_one. exists 46%N, c. repeat split.
    apply test_many1. exists c, []. rewrite app_nil_r.
    repeat split; assumption.
Qed.

(** X28: [isValidEmail] accepts exactly the texts made of a non-empty
    part, an "@", a non-empty part, a "." and a non-empty part, where no
    part contains white space or an "@" (a part may contain dots). *)
Theorem isValidEmail_iff email :
  isValidEmail email = true <->
  exists a b c,
    email = a ++ [64%N] ++ b ++ [46%N] ++ c /\
    a <> [] /\ b <> [] /\ c <> [] /\
    forallb notSpaceOrAt a = true /\
    forallb notSpaceOrAt b = true /\
    forallb notSpaceOrAt c = true.
Proof. apply isValidEmail_parts. Qed.

Lemma filter_at_none a :
  forallb notSpaceOrAt a = true -> List.filter (N.eqb 64) a = [].
Proof.
  induction a as [|x a IH]; cbn [forallb List.filter]; [reflexivity|].
  intros [Hx Ha]%andb_true_iff.
  destruct (N.eqb_spec 64 x) as [<-|_]; [discriminate|]. now apply IH.
Qed.

Lemma no_space a :
  forallb notSpaceOrAt a = true ->
  forallb (fun c => negb (isWhiteSpace c)) a = true.
Proof.
  rewrite !forallb_forall. intros H x Hx. specialize (H x Hx).
  unfold notSpaceOrAt in H. now apply andb_true_iff in H as [H _].
Qed.

(** X29: a text that [isValidEmail] accepts has no white space, exactly
    one "@" and at least five code units; in particular the empty text and
    a text without "@" or with two of them are turned away. *)
Theorem isValidEmail_sound email :
  isValidEmail email = true ->
  forallb (fun c => negb (isWhiteSpace c)) email = true /\
  length (List.filter (N.eqb 64) email) = 1 /\
  5 <= length email.
Proof.
  intros (a & b & c & -> & Ha & Hb & Hc & Hall & Hbll & Hcll)%isValidEmail_parts.
  split; [|split].
  - rewrite !forallb_app, (no_space a Hall), (no_space b Hbll),
      (no_space c Hcll). reflexivity.
  - rewrite !List.filter_app, (filter_at_none a Hall), (filter_at_none b Hbll),
      (filter_at_none c Hcll). reflexivity.
  - rewrite !length_app. simpl.
    destruct a; [congruence|]. destruct b; [congruence|].
    destruct c; [congruence|]. simpl. lia.
Qed.

Lemma isValidEmail_sound_witness :
  forallb (fun c => negb (isWhiteSpace c)) (lit "ana@studio.pe") = true /\
  length (List.filter (N.eqb 64) (lit "ana@studio.pe")) = 1 /\
  5 <= length (lit "ana@studio.pe").
Proof.
  apply (isValidEmail_sound (lit "ana@studio.pe")). reflexivity.
Defined.

Example isValidEmail_samples :
  isValidEmail (lit "ana@studio.pe") = true /\
  isValidEmail (lit "a@b..c") = true /\
  isValidEmail (lit "ana@studio") = false /\
  isValidEmail (lit "ana lopez@studio.pe") = false /\
  isValidEmail (lit "ana@@studio.pe") = false /\
  isValidEmail (lit "@studio.pe") = false /\
  isValidEmail [] = false.
Proof. repeat split; vm_compute; reflexivity. Qed.

End FormsFacts.
